(** * QtImGui: the ImGuiRenderer binding (src/ImGuiRenderer.h, src/ImGuiRenderer.cpp)

    A shallow embedding of the renderer that binds Dear ImGui to a Qt window:
    the input translator (mouse buttons, wheel, keys), the frame driver
    ([newFrame]), and the draw-list rasterizer ([renderDrawList]) over an
    explicit model of the OpenGL state it saves, mutates and restores.

    Conventions.
    - [float] and [double] are IEEE-754 binary32 and binary64 values, taken
      from the Standard Library's [SpecFloat] (round to nearest even).
    - [int], [GLint], [GLsizeiptr], [qint64] are [Z]; the values the code
      computes stay inside their ranges, except for the float-to-int casts,
      which are written out in [F32.to_int].
    - Dear ImGui, Qt and OpenGL are external collaborators.  Their objects are
      modelled by the state the binding reads and writes and by the sequence
      of calls it makes on them. *)

From Stdlib Require Import ZArith Bool List Lia.
From Stdlib Require Import Floats.SpecFloat.
From Stdlib Require String.
From stdpp Require Import base functions gmap.

Local Open Scope Z_scope.

(* ===================================================================== *)
(** ** Floating point *)
(* ===================================================================== *)

(** Operations shared by both formats, parameterised as in [SpecFloat]. *)
Module FloatFormat.

(** The value of a finite float with its fraction discarded. *)
Definition trunc (x : spec_float) : option Z :=
  match x with
  | S754_zero _ => Some 0
  | S754_finite s m e =>
      let v := Z.shiftl (Zpos m) e in Some (if s then - v else v)
  | S754_infinity _ | S754_nan => None
  end.

Definition is_finite (x : spec_float) : bool :=
  match x with
  | S754_zero _ | S754_finite _ _ _ => true
  | S754_infinity _ | S754_nan => false
  end.

(** Zero, a finite value or an infinity, with the sign bit clear. *)
Definition sign_clear (x : spec_float) : Prop :=
  match x with
  | S754_zero false | S754_finite false _ _ | S754_infinity false => True
  | _ => False
  end.

(** What rounding to the format [prec], [emax] returns for an input of sign
    [sx] whose magnitude (the number of digits of the mantissa plus the
    exponent) lies between [lo] and [hi]: never a NaN; zero only below the
    subnormal range; a finite result is canonical, within the exponent range,
    not below the input's binade and at most one above it; an overflow needs
    a large input. *)
Definition rounded (prec emax : Z) (sx : bool) (lo hi : Z) (x : spec_float) : Prop :=
  match x with
  | S754_zero s => s = sx /\ lo <= emin prec emax
  | S754_finite s m e =>
      s = sx /\ bounded prec emax m e = true
      /\ lo <= Z.pos (digits2_pos m) + e <= Z.max hi (emin prec emax) + 1
  | S754_infinity s => s = sx /\ emax - prec < fexp prec emax (hi + 1)
  | S754_nan => False
  end.

(** Re-rounding of a value to the format [prec], [emax]. *)
Definition convert (prec emax : Z) (x : spec_float) : spec_float :=
  match x with
  | S754_finite s m e => binary_round prec emax s m e
  | _ => x
  end.

End FloatFormat.

(** C++ [float]. *)
Module F32.
Definition prec : Z := 24.
Definition emax : Z := 128.
Definition t : Type := spec_float.

Definition of_Z (z : Z) : t := binary_normalize prec emax z 0 false.
Definition add : t -> t -> t := SFadd prec emax.
Definition sub : t -> t -> t := SFsub prec emax.
Definition mul : t -> t -> t := SFmul prec emax.
Definition div : t -> t -> t := SFdiv prec emax.
Definition leb : t -> t -> bool := SFleb.
Definition ltb : t -> t -> bool := SFltb.
Definition eqb : t -> t -> bool := SFeqb.

Definition zero : t := S754_zero false.

Definition INT_MIN : Z := - 2 ^ 31.
Definition INT_MAX : Z := 2 ^ 31 - 1.

(** The cast [(int)x]: truncation toward zero.  For a NaN, an infinity or a
    value outside [int] the cast is undefined in C++; the value here is the
    one the SSE conversion instruction produces. *)
Definition to_int (x : t) : Z :=
  match FloatFormat.trunc x with
  | Some v => if (INT_MIN <=? v) && (v <=? INT_MAX) then v else INT_MIN
  | None => INT_MIN
  end.
End F32.

(** C++ [double]. *)
Module F64.
Definition prec : Z := 53.
Definition emax : Z := 1024.
Definition t : Type := spec_float.

Definition of_Z (z : Z) : t := binary_normalize prec emax z 0 false.
Definition sub : t -> t -> t := SFsub prec emax.
Definition mul : t -> t -> t := SFmul prec emax.
Definition div : t -> t -> t := SFdiv prec emax.
Definition leb : t -> t -> bool := SFleb.
Definition ltb : t -> t -> bool := SFltb.

Definition zero : t := S754_zero false.

(** Well-formed values: the mantissa and exponent are those of the format. *)
Definition valid (x : t) : bool := valid_binary prec emax x.

(** [(double)f] for a float [f]: exact. *)
Definition of_f32 (x : F32.t) : t := FloatFormat.convert prec emax x.
(** [(float)d] for a double [d]: rounds to nearest. *)
Definition to_f32 (x : t) : F32.t := FloatFormat.convert F32.prec F32.emax x.
End F64.

Record ImVec2 := mkImVec2 { vx : F32.t; vy : F32.t }.
Record ImVec4 := mkImVec4 { v4x : F32.t; v4y : F32.t; v4z : F32.t; v4w : F32.t }.

(* ===================================================================== *)
(** ** Draw data handed over by Dear ImGui: vertices and indices *)
(* ===================================================================== *)

(** [ImDrawVert]: position, texture coordinate, packed RGBA colour. *)
Record ImDrawVert := mkImDrawVert { pos : ImVec2; uv : ImVec2; col : Z }.

(** [sizeof(ImDrawVert)]: two [ImVec2] and one [ImU32]. *)
Definition sizeof_ImDrawVert : Z := 20.

(** What a buffer upload points at. *)
Inductive buffer_data :=
| VtxData (vs : list ImDrawVert)
| IdxData (ixs : list Z).

(* ===================================================================== *)
(** ** OpenGL: the part of the context state the renderer touches *)
(* ===================================================================== *)

Module GL.

Inductive cap := BLEND | CULL_FACE | DEPTH_TEST | STENCIL_TEST | SCISSOR_TEST.
Inductive buffer_target := ARRAY_BUFFER | ELEMENT_ARRAY_BUFFER.

(** Integer-valued state read with [glGetIntegerv]. *)
Inductive pname :=
| ACTIVE_TEXTURE | CURRENT_PROGRAM | TEXTURE_BINDING_2D
| ARRAY_BUFFER_BINDING | ELEMENT_ARRAY_BUFFER_BINDING | VERTEX_ARRAY_BINDING
| BLEND_SRC_RGB | BLEND_DST_RGB | BLEND_SRC_ALPHA | BLEND_DST_ALPHA
| BLEND_EQUATION_RGB | BLEND_EQUATION_ALPHA.

(** Four-component state read with [glGetIntegerv]. *)
Inductive pname4 := VIEWPORT | SCISSOR_BOX.

Definition TEXTURE0 : Z := 0x84C0.
Definition TEXTURE_2D : Z := 0x0DE1.
Definition FUNC_ADD : Z := 0x8006.
Definition ONE : Z := 1.
Definition SRC_ALPHA : Z := 0x0302.
Definition ONE_MINUS_SRC_ALPHA : Z := 0x0303.
Definition TRIANGLES : Z := 4.
Definition UNSIGNED_BYTE : Z := 0x1401.
Definition UNSIGNED_SHORT : Z := 0x1403.
Definition UNSIGNED_INT : Z := 0x1405.
Definition FLOAT : Z := 0x1406.
Definition STREAM_DRAW : Z := 0x88E0.

(** Four [GLint]: a rectangle as [glGetIntegerv] returns it. *)
Record rect := mkRect { rx : Z; ry : Z; rw : Z; rh : Z }.

(** A rectangle the context holds, the viewport or the scissor box: the
    width and the height are never negative. *)
Record box := mkBox { box_x : Z; box_y : Z; box_width : N; box_height : N }.

Definition rect_of_box (b : box) : rect :=
  mkRect (box_x b) (box_y b) (Z.of_N (box_width b)) (Z.of_N (box_height b)).

(** Every entry point of the API the renderer calls, with its arguments. *)
Inductive call :=
| GetIntegerv (p : pname)
| GetIntegerv4 (p : pname4)
| IsEnabled (c : cap)
| ActiveTexture (unit : Z)
| Enable (c : cap)
| Disable (c : cap)
| BlendEquation (mode : Z)
| BlendEquationSeparate (modeRGB modeAlpha : Z)
| BlendFuncSeparate (srcRGB dstRGB srcAlpha dstAlpha : Z)
| Viewport (x y w h : Z)
| Scissor (x y w h : Z)
| UseProgram (program : Z)
| Uniform1i (location v : Z)
| UniformMatrix4fv (location count : Z) (transpose : bool) (m : list F32.t)
| GenVertexArrays (n : Z)
| BindVertexArray (array : Z)
| DeleteVertexArrays (array : Z)
| BindBuffer (target : buffer_target) (buffer : Z)
| EnableVertexAttribArray (index : Z)
| VertexAttribPointer (index size type : Z) (normalized : bool)
                      (stride offset : Z)
| BufferData (target : buffer_target) (size usage : Z)
| BufferSubData (target : buffer_target) (offset size : Z) (data : buffer_data)
| BindTexture (target texture : Z)
| DrawElements (mode count type offset : Z).

(** The context state.  A texture binding belongs to a texture unit and the
    element-array binding to a vertex-array object; a missing entry is the
    default binding 0.  [calls] is the history of calls, oldest first. *)
Record state := mkState {
  active_texture : Z;
  current_program : Z;
  texture_binding_2d : gmap Z Z;
  array_buffer_binding : Z;
  vertex_array_binding : Z;
  element_array_buffer_binding : gmap Z Z;
  blend_src_rgb : Z;
  blend_dst_rgb : Z;
  blend_src_alpha : Z;
  blend_dst_alpha : Z;
  blend_equation_rgb : Z;
  blend_equation_alpha : Z;
  viewport : box;
  scissor_box : box;
  enabled : cap -> bool;
  next_vertex_array : Z;
  calls : list call
}.

#[global] Instance cap_eq_dec : EqDecision cap.
Proof. solve_decision. Defined.

Section Setters.
Variable s : state.

Definition set_active_texture v :=
  mkState v (current_program s) (texture_binding_2d s)
    (array_buffer_binding s) (vertex_array_binding s)
    (element_array_buffer_binding s) (blend_src_rgb s) (blend_dst_rgb s)
    (blend_src_alpha s) (blend_dst_alpha s) (blend_equation_rgb s)
    (blend_equation_alpha s) (viewport s) (scissor_box s) (enabled s)
    (next_vertex_array s) (calls s).

Definition set_current_program v :=
  mkState (active_texture s) v (texture_binding_2d s)
    (array_buffer_binding s) (vertex_array_binding s)
    (element_array_buffer_binding s) (blend_src_rgb s) (blend_dst_rgb s)
    (blend_src_alpha s) (blend_dst_alpha s) (blend_equation_rgb s)
    (blend_equation_alpha s) (viewport s) (scissor_box s) (enabled s)
    (next_vertex_array s) (calls s).

Definition set_texture_binding_2d v :=
  mkState (active_texture s) (current_program s) v
    (array_buffer_binding s) (vertex_array_binding s)
    (element_array_buffer_binding s) (blend_src_rgb s) (blend_dst_rgb s)
    (blend_src_alpha s) (blend_dst_alpha s) (blend_equation_rgb s)
    (blend_equation_alpha s) (viewport s) (scissor_box s) (enabled s)
    (next_vertex_array s) (calls s).

Definition set_array_buffer_binding v :=
  mkState (active_texture s) (current_program s) (texture_binding_2d s)
    v (vertex_array_binding s)
    (element_array_buffer_binding s) (blend_src_rgb s) (blend_dst_rgb s)
    (blend_src_alpha s) (blend_dst_alpha s) (blend_equation_rgb s)
    (blend_equation_alpha s) (viewport s) (scissor_box s) (enabled s)
    (next_vertex_array s) (calls s).

Definition set_vertex_array_binding v :=
  mkState (active_texture s) (current_program s) (texture_binding_2d s)
    (array_buffer_binding s) v
    (element_array_buffer_binding s) (blend_src_rgb s) (blend_dst_rgb s)
    (blend_src_alpha s) (blend_dst_alpha s) (blend_equation_rgb s)
    (blend_equation_alpha s) (viewport s) (scissor_box s) (enabled s)
    (next_vertex_array s) (calls s).

Definition set_element_array_buffer_binding v :=
  mkState (active_texture s) (current_program s) (texture_binding_2d s)
    (array_buffer_binding s) (vertex_array_binding s)
    v (blend_src_rgb s) (blend_dst_rgb s)
    (blend_src_alpha s) (blend_dst_alpha s) (blend_equation_rgb s)
    (blend_equation_alpha s) (viewport s) (scissor_box s) (enabled s)
    (next_vertex_array s) (calls s).

Definition set_blend_func sr dr sa da :=
  mkState (active_texture s) (current_program s) (texture_binding_2d s)
    (array_buffer_binding s) (vertex_array_binding s)
    (element_array_buffer_binding s) sr dr sa da (blend_equation_rgb s)
    (blend_equation_alpha s) (viewport s) (scissor_box s) (enabled s)
    (next_vertex_array s) (calls s).

Definition set_blend_equation er ea :=
  mkState (active_texture s) (current_program s) (texture_binding_2d s)
    (array_buffer_binding s) (vertex_array_binding s)
    (element_array_buffer_binding s) (blend_src_rgb s) (blend_dst_rgb s)
    (blend_src_alpha s) (blend_dst_alpha s) er ea
    (viewport s) (scissor_box s) (enabled s)
    (next_vertex_array s) (calls s).

Definition set_viewport v :=
  mkState (active_texture s) (current_program s) (texture_binding_2d s)
    (array_buffer_binding s) (vertex_array_binding s)
    (element_array_buffer_binding s) (blend_src_rgb s) (blend_dst_rgb s)
    (blend_src_alpha s) (blend_dst_alpha s) (blend_equation_rgb s)
    (blend_equation_alpha s) v (scissor_box s) (enabled s)
    (next_vertex_array s) (calls s).

Definition set_scissor_box v :=
  mkState (active_texture s) (current_program s) (texture_binding_2d s)
    (array_buffer_binding s) (vertex_array_binding s)
    (element_array_buffer_binding s) (blend_src_rgb s) (blend_dst_rgb s)
    (blend_src_alpha s) (blend_dst_alpha s) (blend_equation_rgb s)
    (blend_equation_alpha s) (viewport s) v (enabled s)
    (next_vertex_array s) (calls s).

Definition set_enabled v :=
  mkState (active_texture s) (current_program s) (texture_binding_2d s)
    (array_buffer_binding s) (vertex_array_binding s)
    (element_array_buffer_binding s) (blend_src_rgb s) (blend_dst_rgb s)
    (blend_src_alpha s) (blend_dst_alpha s) (blend_equation_rgb s)
    (blend_equation_alpha s) (viewport s) (scissor_box s) v
    (next_vertex_array s) (calls s).

Definition set_next_vertex_array v :=
  mkState (active_texture s) (current_program s) (texture_binding_2d s)
    (array_buffer_binding s) (vertex_array_binding s)
    (element_array_buffer_binding s) (blend_src_rgb s) (blend_dst_rgb s)
    (blend_src_alpha s) (blend_dst_alpha s) (blend_equation_rgb s)
    (blend_equation_alpha s) (viewport s) (scissor_box s) (enabled s)
    v (calls s).

Definition set_calls v :=
  mkState (active_texture s) (current_program s) (texture_binding_2d s)
    (array_buffer_binding s) (vertex_array_binding s)
    (element_array_buffer_binding s) (blend_src_rgb s) (blend_dst_rgb s)
    (blend_src_alpha s) (blend_dst_alpha s) (blend_equation_rgb s)
    (blend_equation_alpha s) (viewport s) (scissor_box s) (enabled s)
    (next_vertex_array s) v.
End Setters.

(** The binding of a texture unit or of a vertex-array object. *)
Definition binding (m : gmap Z Z) (k : Z) : Z := default 0 (m !! k).

(** The effect of a call on the state, as the OpenGL specification gives it
    for the arguments the renderer passes.  [glViewport] and [glScissor]
    with a negative width or height raise [GL_INVALID_VALUE] and leave the
    state as it is.  Deleting the bound vertex-array object reverts the
    binding to 0.  Queries, uniforms, attribute pointers, buffer uploads and
    draws leave the state modelled here as it is. *)
Definition effect (c : call) (s : state) : state :=
  match c with
  | ActiveTexture u => set_active_texture s u
  | Enable c => set_enabled s (fun c' => if decide (c' = c) then true else enabled s c')
  | Disable c => set_enabled s (fun c' => if decide (c' = c) then false else enabled s c')
  | BlendEquation m => set_blend_equation s m m
  | BlendEquationSeparate r a => set_blend_equation s r a
  | BlendFuncSeparate sr dr sa da => set_blend_func s sr dr sa da
  | Viewport x y w h =>
      if (w <? 0) || (h <? 0) then s
      else set_viewport s (mkBox x y (Z.to_N w) (Z.to_N h))
  | Scissor x y w h =>
      if (w <? 0) || (h <? 0) then s
      else set_scissor_box s (mkBox x y (Z.to_N w) (Z.to_N h))
  | UseProgram p => set_current_program s p
  | GenVertexArrays n => set_next_vertex_array s (next_vertex_array s + n)
  | BindVertexArray a => set_vertex_array_binding s a
  | DeleteVertexArrays a =>
      let s' := set_element_array_buffer_binding s
                  (delete a (element_array_buffer_binding s)) in
      if vertex_array_binding s =? a then set_vertex_array_binding s' 0 else s'
  | BindBuffer ARRAY_BUFFER b => set_array_buffer_binding s b
  | BindBuffer ELEMENT_ARRAY_BUFFER b =>
      set_element_array_buffer_binding s
        (<[vertex_array_binding s := b]> (element_array_buffer_binding s))
  | BindTexture _ t =>
      set_texture_binding_2d s (<[active_texture s := t]> (texture_binding_2d s))
  | GetIntegerv _ | GetIntegerv4 _ | IsEnabled _
  | Uniform1i _ _ | UniformMatrix4fv _ _ _ _
  | EnableVertexAttribArray _ | VertexAttribPointer _ _ _ _ _ _
  | BufferData _ _ _ | BufferSubData _ _ _ _ | DrawElements _ _ _ _ => s
  end.

Definition get_integer (p : pname) (s : state) : Z :=
  match p with
  | ACTIVE_TEXTURE => active_texture s
  | CURRENT_PROGRAM => current_program s
  | TEXTURE_BINDING_2D => binding (texture_binding_2d s) (active_texture s)
  | ARRAY_BUFFER_BINDING => array_buffer_binding s
  | ELEMENT_ARRAY_BUFFER_BINDING =>
      binding (element_array_buffer_binding s) (vertex_array_binding s)
  | VERTEX_ARRAY_BINDING => vertex_array_binding s
  | BLEND_SRC_RGB => blend_src_rgb s
  | BLEND_DST_RGB => blend_dst_rgb s
  | BLEND_SRC_ALPHA => blend_src_alpha s
  | BLEND_DST_ALPHA => blend_dst_alpha s
  | BLEND_EQUATION_RGB => blend_equation_rgb s
  | BLEND_EQUATION_ALPHA => blend_equation_alpha s
  end.

Definition get_integer4 (p : pname4) (s : state) : rect :=
  match p with
  | VIEWPORT => rect_of_box (viewport s)
  | SCISSOR_BOX => rect_of_box (scissor_box s)
  end.

(** *** Code that runs against a context: a state monad *)

Definition M (A : Type) : Type := state -> A * state.

Definition ret {A} (a : A) : M A := fun s => (a, s).
Definition bind {A B} (m : M A) (k : A -> M B) : M B :=
  fun s => let (a, s') := m s in k a s'.

(** Issue a call: apply its effect and append it to the history. *)
Definition issue (c : call) : M unit :=
  fun s => let s' := effect c s in (tt, set_calls s' (calls s' ++ [c])).

Definition glGetIntegerv (p : pname) : M Z :=
  bind (issue (GetIntegerv p)) (fun _ s => (get_integer p s, s)).
Definition glGetIntegerv4 (p : pname4) : M rect :=
  bind (issue (GetIntegerv4 p)) (fun _ s => (get_integer4 p s, s)).
Definition glIsEnabled (c : cap) : M bool :=
  bind (issue (IsEnabled c)) (fun _ s => (enabled s c, s)).
(** [glGenVertexArrays(1, &a)]. *)
Definition glGenVertexArrays1 : M Z :=
  fun s => let a := next_vertex_array s in (a, snd (issue (GenVertexArrays 1) s)).

Definition glActiveTexture u := issue (ActiveTexture u).
Definition glEnable c := issue (Enable c).
Definition glDisable c := issue (Disable c).
Definition glBlendEquation m := issue (BlendEquation m).
Definition glBlendEquationSeparate r a := issue (BlendEquationSeparate r a).
Definition glBlendFuncSeparate sr dr sa da := issue (BlendFuncSeparate sr dr sa da).
Definition glViewport x y w h := issue (Viewport x y w h).
Definition glScissor x y w h := issue (Scissor x y w h).
Definition glUseProgram p := issue (UseProgram p).
Definition glUniform1i l v := issue (Uniform1i l v).
Definition glUniformMatrix4fv l n t m := issue (UniformMatrix4fv l n t m).
Definition glBindVertexArray a := issue (BindVertexArray a).
Definition glDeleteVertexArrays1 a := issue (DeleteVertexArrays a).
Definition glBindBuffer t b := issue (BindBuffer t b).
Definition glEnableVertexAttribArray i := issue (EnableVertexAttribArray i).
Definition glVertexAttribPointer i n ty nz st off :=
  issue (VertexAttribPointer i n ty nz st off).
Definition glBufferData t n u := issue (BufferData t n u).
Definition glBufferSubData t off n d := issue (BufferSubData t off n d).
Definition glBindTexture tg t := issue (BindTexture tg t).
Definition glDrawElements m n ty off := issue (DrawElements m n ty off).

End GL.

Declare Scope gl_scope.
Delimit Scope gl_scope with gl.
Notation "'do' x <- m ; k" := (GL.bind m (fun x => k))
  (at level 10, x name, m at level 100, k at level 200) : gl_scope.
Notation "m ;; k" := (GL.bind m (fun _ => k))
  (at level 100, k at level 200, right associativity) : gl_scope.

(* ===================================================================== *)
(** ** Dear ImGui: draw data, input state, contexts *)
(* ===================================================================== *)

(** [ImDrawCmd::UserCallback].  A callback is user code run in the middle of
    rasterization; it may make any call on the graphics context, so it is a
    transformer of the context state (it is given the command it belongs to,
    which the closure here already holds).  [ImDrawCallback_ResetRenderState]
    is the special pointer value that asks for the render state to be set up
    again. *)
Inductive ImDrawCallback :=
| ImDrawCallback_ResetRenderState
| UserCode (f : GL.state -> GL.state).

Record ImDrawCmd := mkImDrawCmd {
  ClipRect : ImVec4;
  TextureId : Z;
  VtxOffset : Z;
  IdxOffset : Z;
  ElemCount : Z;
  UserCallback : option ImDrawCallback
}.

Record ImDrawList := mkImDrawList {
  CmdBuffer : list ImDrawCmd;
  IdxBuffer : list Z;
  VtxBuffer : list ImDrawVert
}.

(** [ImDrawData]; [CmdListsCount] is the length of [CmdLists]. *)
Record ImDrawData := mkImDrawData {
  CmdLists : list ImDrawList;
  DisplayPos : ImVec2;
  DisplaySize : ImVec2;
  FramebufferScale : ImVec2
}.

(** [ImDrawData::ScaleClipRects] (Dear ImGui): every command's clip rectangle
    is multiplied componentwise by the scale. *)
Definition scale_cmd (fb_scale : ImVec2) (c : ImDrawCmd) : ImDrawCmd :=
  let r := ClipRect c in
  mkImDrawCmd
    (mkImVec4 (F32.mul (v4x r) (vx fb_scale)) (F32.mul (v4y r) (vy fb_scale))
              (F32.mul (v4z r) (vx fb_scale)) (F32.mul (v4w r) (vy fb_scale)))
    (TextureId c) (VtxOffset c) (IdxOffset c) (ElemCount c) (UserCallback c).

Definition scale_list (fb_scale : ImVec2) (l : ImDrawList) : ImDrawList :=
  mkImDrawList (map (scale_cmd fb_scale) (CmdBuffer l)) (IdxBuffer l) (VtxBuffer l).

Definition ScaleClipRects (fb_scale : ImVec2) (d : ImDrawData) : ImDrawData :=
  mkImDrawData (map (scale_list fb_scale) (CmdLists d))
    (DisplayPos d) (DisplaySize d) (FramebufferScale d).

(** [ImDrawData::Clear] (Dear ImGui): no command list, and position, size
    and scale zero. *)
Definition ImDrawData_Clear : ImDrawData :=
  mkImDrawData [] (mkImVec2 F32.zero F32.zero) (mkImVec2 F32.zero F32.zero)
    (mkImVec2 F32.zero F32.zero).

(** The logical keys the binding reports. *)
Inductive ImGuiKey :=
| ImGuiKey_Tab | ImGuiKey_LeftArrow | ImGuiKey_RightArrow | ImGuiKey_UpArrow
| ImGuiKey_DownArrow | ImGuiKey_PageUp | ImGuiKey_PageDown | ImGuiKey_Home
| ImGuiKey_End | ImGuiKey_Insert | ImGuiKey_Delete | ImGuiKey_Backspace
| ImGuiKey_Space | ImGuiKey_Enter | ImGuiKey_Escape
| ImGuiKey_A | ImGuiKey_C | ImGuiKey_V | ImGuiKey_X | ImGuiKey_Y | ImGuiKey_Z
| ImGuiKey_ModCtrl | ImGuiKey_ModShift | ImGuiKey_ModAlt | ImGuiKey_ModSuper.

Definition ImGuiMouseButton_Left : Z := 0.
Definition ImGuiMouseButton_Right : Z := 1.
Definition ImGuiMouseButton_Middle : Z := 2.

Definition ImGuiMouseCursor_None : Z := -1.
Definition ImGuiMouseCursor_Arrow : Z := 0.
Definition ImGuiMouseCursor_TextInput : Z := 1.
Definition ImGuiMouseCursor_ResizeAll : Z := 2.
Definition ImGuiMouseCursor_ResizeNS : Z := 3.
Definition ImGuiMouseCursor_ResizeEW : Z := 4.
Definition ImGuiMouseCursor_ResizeNESW : Z := 5.
Definition ImGuiMouseCursor_ResizeNWSE : Z := 6.
Definition ImGuiMouseCursor_Hand : Z := 7.
Definition ImGuiMouseCursor_NotAllowed : Z := 8.

Definition ImGuiConfigFlags_NoMouseCursorChange : Z := Z.shiftl 1 5.

(** The input-state setters of [ImGuiIO] the binding calls.  What the library
    does with an event is its own business; the input state keeps the events
    in the order they were reported. *)
Inductive InputEvent :=
| EvKey (key : ImGuiKey) (down : bool)
| EvMouseButton (button : Z) (down : bool)
| EvMouseWheel (wheel_x wheel_y : F32.t)
| EvMousePos (x y : F32.t)
| EvInputCharacter (c : Z).

Record ImGuiIO := mkImGuiIO {
  ConfigFlags : Z;
  io_DisplaySize : ImVec2;
  DisplayFramebufferScale : ImVec2;
  DeltaTime : F32.t;
  MouseDrawCursor : bool;
  WantSetMousePos : bool;
  MousePos : ImVec2;
  InputEvents : list InputEvent
}.

Definition io_add_event (e : InputEvent) (io : ImGuiIO) : ImGuiIO :=
  mkImGuiIO (ConfigFlags io) (io_DisplaySize io) (DisplayFramebufferScale io)
    (DeltaTime io) (MouseDrawCursor io) (WantSetMousePos io) (MousePos io)
    (InputEvents io ++ [e]).

Definition io_set_display (size scale : ImVec2) (io : ImGuiIO) : ImGuiIO :=
  mkImGuiIO (ConfigFlags io) size scale
    (DeltaTime io) (MouseDrawCursor io) (WantSetMousePos io) (MousePos io)
    (InputEvents io).

Definition io_set_DeltaTime (dt : F32.t) (io : ImGuiIO) : ImGuiIO :=
  mkImGuiIO (ConfigFlags io) (io_DisplaySize io) (DisplayFramebufferScale io)
    dt (MouseDrawCursor io) (WantSetMousePos io) (MousePos io)
    (InputEvents io).

(** One [ImGuiContext]: its input state, the font size
    ([ImGui::GetTextLineHeight]), the cursor it asks for
    ([ImGui::GetMouseCursor]), the draw data of the last finished frame
    ([ImGui::GetDrawData]) and the number of frames begun
    ([ImGui::NewFrame]).  The draw data are those [ImGui::Render], which the
    application calls between [newFrame] and [render], has built. *)
Record ImGuiContext := mkImGuiContext {
  IO : ImGuiIO;
  FontSize : F32.t;
  MouseCursor : Z;
  DrawData : ImDrawData;
  FrameCount : Z
}.

Definition ctx_set_IO (io : ImGuiIO) (c : ImGuiContext) : ImGuiContext :=
  mkImGuiContext io (FontSize c) (MouseCursor c) (DrawData c) (FrameCount c).
Definition ctx_set_DrawData (d : ImDrawData) (c : ImGuiContext) : ImGuiContext :=
  mkImGuiContext (IO c) (FontSize c) (MouseCursor c) d (FrameCount c).
(** [ImGui::NewFrame] begins a frame and clears the draw data of the frame
    before: the library hands out no draw data from here until
    [ImGui::Render] has built those of the new frame. *)
Definition ctx_NewFrame (c : ImGuiContext) : ImGuiContext :=
  mkImGuiContext (IO c) (FontSize c) (MouseCursor c) ImDrawData_Clear
    (FrameCount c + 1).

(** The library's process-wide state: the contexts that exist, by address,
    and the one selected as current.  Every [ImGui::] function and [GetIO]
    work on the current one. *)
Record ImGui := mkImGui {
  CurrentContext : Z;
  contexts : Z -> ImGuiContext
}.

Module ImGuiApi.
Definition SetCurrentContext (ctx : Z) (g : ImGui) : ImGui :=
  mkImGui ctx (contexts g).

Definition current (g : ImGui) : ImGuiContext := contexts g (CurrentContext g).

Definition update_current (f : ImGuiContext -> ImGuiContext) (g : ImGui) : ImGui :=
  mkImGui (CurrentContext g) (<[CurrentContext g := f (current g)]> (contexts g)).

Definition GetIO (g : ImGui) : ImGuiIO := IO (current g).
(** A write through the reference [ImGui::GetIO()] returns. *)
Definition update_IO (f : ImGuiIO -> ImGuiIO) : ImGui -> ImGui :=
  update_current (fun c => ctx_set_IO (f (IO c)) c).

Definition GetTextLineHeight (g : ImGui) : F32.t := FontSize (current g).
Definition GetMouseCursor (g : ImGui) : Z := MouseCursor (current g).
Definition GetDrawData (g : ImGui) : ImDrawData := DrawData (current g).
Definition NewFrame : ImGui -> ImGui := update_current ctx_NewFrame.

Definition AddKeyEvent k d := update_IO (io_add_event (EvKey k d)).
Definition AddMouseButtonEvent b d := update_IO (io_add_event (EvMouseButton b d)).
Definition AddMouseWheelEvent x y := update_IO (io_add_event (EvMouseWheel x y)).
Definition AddMousePosEvent x y := update_IO (io_add_event (EvMousePos x y)).
Definition AddInputCharacter c := update_IO (io_add_event (EvInputCharacter c)).
End ImGuiApi.

(* ===================================================================== *)
(** ** Qt: constants, events, the window abstraction *)
(* ===================================================================== *)

Module Qt.
(** [Qt::Key] *)
Definition Key_Escape : Z := 0x01000000.
Definition Key_Tab : Z := 0x01000001.
Definition Key_Backspace : Z := 0x01000003.
Definition Key_Return : Z := 0x01000004.
Definition Key_Enter : Z := 0x01000005.
Definition Key_Insert : Z := 0x01000006.
Definition Key_Delete : Z := 0x01000007.
Definition Key_Home : Z := 0x01000010.
Definition Key_End : Z := 0x01000011.
Definition Key_Left : Z := 0x01000012.
Definition Key_Up : Z := 0x01000013.
Definition Key_Right : Z := 0x01000014.
Definition Key_Down : Z := 0x01000015.
Definition Key_PageUp : Z := 0x01000016.
Definition Key_PageDown : Z := 0x01000017.
Definition Key_Space : Z := 0x20.
Definition Key_A : Z := 0x41.
Definition Key_B : Z := 0x42.
Definition Key_C : Z := 0x43.
Definition Key_V : Z := 0x56.
Definition Key_X : Z := 0x58.
Definition Key_Y : Z := 0x59.
Definition Key_Z : Z := 0x5a.

(** [Qt::MouseButton] *)
Definition LeftButton : Z := 0x00000001.
Definition RightButton : Z := 0x00000002.
Definition MiddleButton : Z := 0x00000004.

(** [Qt::KeyboardModifier] *)
Definition ShiftModifier : Z := 0x02000000.
Definition ControlModifier : Z := 0x04000000.
Definition AltModifier : Z := 0x08000000.
Definition MetaModifier : Z := 0x10000000.

(** [Qt::CursorShape], the shapes the binding sets. *)
Inductive CursorShape :=
| ArrowCursor | IBeamCursor | SizeAllCursor | SizeVerCursor | SizeHorCursor
| SizeBDiagCursor | SizeFDiagCursor | PointingHandCursor | ForbiddenCursor
| BlankCursor.

(** [flags & mask] in a boolean context ([QFlags::operator&] converted to
    [bool]): some bit of the mask is set. *)
Definition testFlag (flags mask : Z) : bool := negb (Z.land flags mask =? 0).
End Qt.

Record QPoint := mkQPoint { qx : Z; qy : Z }.
Record QSize := mkQSize { width : Z; height : Z }.

Inductive MouseEventType :=
| MouseButtonPress | MouseButtonRelease | MouseButtonDblClick | MouseMove.

(** [QMouseEvent]: [button] is the button that caused the event, [buttons]
    the state of all buttons when it was generated. *)
Record QMouseEvent := mkQMouseEvent {
  mouse_type : MouseEventType;
  button : Z;
  buttons : Z
}.

Record QWheelEvent := mkQWheelEvent {
  pixelDelta : QPoint;
  angleDelta : QPoint
}.

Inductive KeyEventType := KeyPress | KeyRelease | ShortcutOverride.

(** [QKeyEvent]; [text] is the string as UTF-16 code units. *)
Record QKeyEvent := mkQKeyEvent {
  key_type : KeyEventType;
  key : Z;
  modifiers : Z;
  text : list Z
}.

(** A [QEvent*] together with the class it can be cast to. *)
Inductive QEvent :=
| QEvent_Mouse (e : QMouseEvent)
| QEvent_Wheel (e : QWheelEvent)
| QEvent_Key (e : QKeyEvent)
| QEvent_Other (type : Z).

(** The abstract class [WindowWrapper]. *)
Module WindowWrapper.
Class t (W : Type) := {
  installEventFilter : Z -> W -> W;
  size : W -> QSize;
  devicePixelRatio : W -> F64.t;
  isActive : W -> bool;
  mapFromGlobal : W -> QPoint -> QPoint;
  object : W -> Z;
  setCursorShape : Qt.CursorShape -> W -> W;
  setCursorPos : QPoint -> W -> W
}.
End WindowWrapper.

(** What is fixed when the binding is compiled. *)
Record BuildConfig := mkBuildConfig {
  Q_OS_MAC : bool;
  QT_NO_CURSOR : bool;
  sizeof_ImDrawIdx : Z
}.

(* ===================================================================== *)
(** ** The mapping tables *)
(* ===================================================================== *)

(** A [QHash] built from an initializer list: the pairs are inserted in
    order. *)
Definition QHash_of_list {V} (l : list (Z * V)) : gmap Z V :=
  fold_left (fun m kv => <[fst kv := snd kv]> m) l ∅.

Definition keyMap : gmap Z ImGuiKey :=
  QHash_of_list [
    (Qt.Key_Tab, ImGuiKey_Tab);
    (Qt.Key_Left, ImGuiKey_LeftArrow);
    (Qt.Key_Right, ImGuiKey_RightArrow);
    (Qt.Key_Up, ImGuiKey_UpArrow);
    (Qt.Key_Down, ImGuiKey_DownArrow);
    (Qt.Key_PageUp, ImGuiKey_PageUp);
    (Qt.Key_PageDown, ImGuiKey_PageDown);
    (Qt.Key_Home, ImGuiKey_Home);
    (Qt.Key_End, ImGuiKey_End);
    (Qt.Key_Insert, ImGuiKey_Insert);
    (Qt.Key_Delete, ImGuiKey_Delete);
    (Qt.Key_Backspace, ImGuiKey_Backspace);
    (Qt.Key_Space, ImGuiKey_Space);
    (Qt.Key_Enter, ImGuiKey_Enter);
    (Qt.Key_Return, ImGuiKey_Enter);
    (Qt.Key_Escape, ImGuiKey_Escape);
    (Qt.Key_A, ImGuiKey_A);
    (Qt.Key_C, ImGuiKey_C);
    (Qt.Key_V, ImGuiKey_V);
    (Qt.Key_X, ImGuiKey_X);
    (Qt.Key_Y, ImGuiKey_Y);
    (Qt.Key_Z, ImGuiKey_Z)
  ].

Definition cursorMap : gmap Z Qt.CursorShape :=
  QHash_of_list [
    (ImGuiMouseCursor_Arrow, Qt.ArrowCursor);
    (ImGuiMouseCursor_TextInput, Qt.IBeamCursor);
    (ImGuiMouseCursor_ResizeAll, Qt.SizeAllCursor);
    (ImGuiMouseCursor_ResizeNS, Qt.SizeVerCursor);
    (ImGuiMouseCursor_ResizeEW, Qt.SizeHorCursor);
    (ImGuiMouseCursor_ResizeNESW, Qt.SizeBDiagCursor);
    (ImGuiMouseCursor_ResizeNWSE, Qt.SizeFDiagCursor);
    (ImGuiMouseCursor_Hand, Qt.PointingHandCursor);
    (ImGuiMouseCursor_NotAllowed, Qt.ForbiddenCursor)
  ].

(* ===================================================================== *)
(** ** class ImGuiRenderer *)
(* ===================================================================== *)

(** The data members, in the order of the header. *)
Record ImGuiRenderer (W : Type) := mkImGuiRenderer {
  mWindow : W;
  mCtx : Z;
  mTime : F64.t;
  mGlVersion : Z;
  mFontTexture : Z;
  mShaderHandle : Z;
  mVertHandle : Z;
  mFragHandle : Z;
  mAttribLocationTex : Z;
  mAttribLocationProjMtx : Z;
  mAttribLocationVtxPos : Z;
  mAttribLocationVtxUV : Z;
  mAttribLocationVtxColor : Z;
  mVboHandle : Z;
  mElementsHandle : Z;
  mVertexBufferSize : Z;
  mIndexBufferSize : Z
}.

Arguments mkImGuiRenderer {W}.
Arguments mWindow {W}.
Arguments mCtx {W}.
Arguments mTime {W}.
Arguments mGlVersion {W}.
Arguments mFontTexture {W}.
Arguments mShaderHandle {W}.
Arguments mVertHandle {W}.
Arguments mFragHandle {W}.
Arguments mAttribLocationTex {W}.
Arguments mAttribLocationProjMtx {W}.
Arguments mAttribLocationVtxPos {W}.
Arguments mAttribLocationVtxUV {W}.
Arguments mAttribLocationVtxColor {W}.
Arguments mVboHandle {W}.
Arguments mElementsHandle {W}.
Arguments mVertexBufferSize {W}.
Arguments mIndexBufferSize {W}.

Section MemberUpdates.
Context {W : Type}.
Variable r : ImGuiRenderer W.

Definition set_mWindow (w : W) : ImGuiRenderer W :=
  mkImGuiRenderer w (mCtx r) (mTime r) (mGlVersion r) (mFontTexture r)
    (mShaderHandle r) (mVertHandle r) (mFragHandle r) (mAttribLocationTex r)
    (mAttribLocationProjMtx r) (mAttribLocationVtxPos r)
    (mAttribLocationVtxUV r) (mAttribLocationVtxColor r) (mVboHandle r)
    (mElementsHandle r) (mVertexBufferSize r) (mIndexBufferSize r).

Definition set_mTime (t : F64.t) : ImGuiRenderer W :=
  mkImGuiRenderer (mWindow r) (mCtx r) t (mGlVersion r) (mFontTexture r)
    (mShaderHandle r) (mVertHandle r) (mFragHandle r) (mAttribLocationTex r)
    (mAttribLocationProjMtx r) (mAttribLocationVtxPos r)
    (mAttribLocationVtxUV r) (mAttribLocationVtxColor r) (mVboHandle r)
    (mElementsHandle r) (mVertexBufferSize r) (mIndexBufferSize r).

Definition set_mVertexBufferSize (n : Z) : ImGuiRenderer W :=
  mkImGuiRenderer (mWindow r) (mCtx r) (mTime r) (mGlVersion r) (mFontTexture r)
    (mShaderHandle r) (mVertHandle r) (mFragHandle r) (mAttribLocationTex r)
    (mAttribLocationProjMtx r) (mAttribLocationVtxPos r)
    (mAttribLocationVtxUV r) (mAttribLocationVtxColor r) (mVboHandle r)
    (mElementsHandle r) n (mIndexBufferSize r).

Definition set_mIndexBufferSize (n : Z) : ImGuiRenderer W :=
  mkImGuiRenderer (mWindow r) (mCtx r) (mTime r) (mGlVersion r) (mFontTexture r)
    (mShaderHandle r) (mVertHandle r) (mFragHandle r) (mAttribLocationTex r)
    (mAttribLocationProjMtx r) (mAttribLocationVtxPos r)
    (mAttribLocationVtxUV r) (mAttribLocationVtxColor r) (mVboHandle r)
    (mElementsHandle r) (mVertexBufferSize r) n.
End MemberUpdates.

(** Integer conversions of the rasterizer. *)
Definition to_GLsizei (z : Z) : Z := (z + 2 ^ 31) mod 2 ^ 32 - 2 ^ 31.
Definition to_GLuint (z : Z) : Z := z mod 2 ^ 32.

(** The values saved by the block "Backup GL state" of [renderDrawList]. *)
Record GLBackup := mkGLBackup {
  lastActiveTexture : Z;
  lastProgram : Z;
  lastTexture : Z;
  lastArrayBuffer : Z;
  lastElementArrayBuffer : Z;
  lastVertexArray : Z;
  lastBlendSrcRgb : Z;
  lastBlendDstRgb : Z;
  lastBlendSrcAlpha : Z;
  lastBlendDstAlpha : Z;
  lastBlendEquationRgb : Z;
  lastBlendEquationAlpha : Z;
  lastViewport : GL.rect;
  lastScissorBox : GL.rect;
  lastEnableBlend : bool;
  lastEnableCullFace : bool;
  lastEnableDepthTest : bool;
  lastEnableScissorTest : bool
}.

Section Rasterizer.
Context {W : Type}.
Variable cfg : BuildConfig.

Local Open Scope gl_scope.
Import GL.

Definition setupRenderStates (r : ImGuiRenderer W) (drawData : ImDrawData)
    (fbWidth fbHeight vertexArrayObject : Z) : GL.M unit :=
  glEnable BLEND ;;
  glBlendEquation FUNC_ADD ;;
  glBlendFuncSeparate SRC_ALPHA ONE_MINUS_SRC_ALPHA ONE ONE_MINUS_SRC_ALPHA ;;
  glDisable CULL_FACE ;;
  glDisable DEPTH_TEST ;;
  glDisable STENCIL_TEST ;;
  glEnable SCISSOR_TEST ;;
  glViewport 0 0 fbWidth fbHeight ;;
  let L := vx (DisplayPos drawData) in
  let R := F32.add (vx (DisplayPos drawData)) (vx (DisplaySize drawData)) in
  let T := vy (DisplayPos drawData) in
  let B := F32.add (vy (DisplayPos drawData)) (vy (DisplaySize drawData)) in
  let f0 := F32.zero in
  let orthoProjection :=
    [ F32.div (F32.of_Z 2) (F32.sub R L); f0; f0; f0;
      f0; F32.div (F32.of_Z 2) (F32.sub T B); f0; f0;
      f0; f0; F32.of_Z (-1); f0;
      F32.div (F32.add R L) (F32.sub L R);
      F32.div (F32.add T B) (F32.sub B T); f0; F32.of_Z 1 ] in
  glUseProgram (mShaderHandle r) ;;
  glUniform1i (mAttribLocationTex r) 0 ;;
  glUniformMatrix4fv (mAttribLocationProjMtx r) 1 false orthoProjection ;;
  glBindVertexArray vertexArrayObject ;;
  glBindBuffer ARRAY_BUFFER (mVboHandle r) ;;
  glBindBuffer ELEMENT_ARRAY_BUFFER (mElementsHandle r) ;;
  glEnableVertexAttribArray (mAttribLocationVtxPos r) ;;
  glEnableVertexAttribArray (mAttribLocationVtxUV r) ;;
  glEnableVertexAttribArray (mAttribLocationVtxColor r) ;;
  glVertexAttribPointer (mAttribLocationVtxPos r) 2 FLOAT false
    sizeof_ImDrawVert 0 ;;
  glVertexAttribPointer (mAttribLocationVtxUV r) 2 FLOAT false
    sizeof_ImDrawVert 8 ;;
  glVertexAttribPointer (mAttribLocationVtxColor r) 4 UNSIGNED_BYTE true
    sizeof_ImDrawVert 16.

(** "Backup GL state". *)
Definition backup_gl_state : GL.M GLBackup :=
  do lastActiveTexture <- glGetIntegerv ACTIVE_TEXTURE ;
  glActiveTexture TEXTURE0 ;;
  do lastProgram <- glGetIntegerv CURRENT_PROGRAM ;
  do lastTexture <- glGetIntegerv TEXTURE_BINDING_2D ;
  do lastArrayBuffer <- glGetIntegerv ARRAY_BUFFER_BINDING ;
  do lastElementArrayBuffer <- glGetIntegerv ELEMENT_ARRAY_BUFFER_BINDING ;
  do lastVertexArray <- glGetIntegerv VERTEX_ARRAY_BINDING ;
  do lastBlendSrcRgb <- glGetIntegerv BLEND_SRC_RGB ;
  do lastBlendDstRgb <- glGetIntegerv BLEND_DST_RGB ;
  do lastBlendSrcAlpha <- glGetIntegerv BLEND_SRC_ALPHA ;
  do lastBlendDstAlpha <- glGetIntegerv BLEND_DST_ALPHA ;
  do lastBlendEquationRgb <- glGetIntegerv BLEND_EQUATION_RGB ;
  do lastBlendEquationAlpha <- glGetIntegerv BLEND_EQUATION_ALPHA ;
  do lastViewport <- glGetIntegerv4 VIEWPORT ;
  do lastScissorBox <- glGetIntegerv4 SCISSOR_BOX ;
  do lastEnableBlend <- glIsEnabled BLEND ;
  do lastEnableCullFace <- glIsEnabled CULL_FACE ;
  do lastEnableDepthTest <- glIsEnabled DEPTH_TEST ;
  do lastEnableScissorTest <- glIsEnabled SCISSOR_TEST ;
  ret (mkGLBackup lastActiveTexture lastProgram lastTexture lastArrayBuffer
         lastElementArrayBuffer lastVertexArray lastBlendSrcRgb
         lastBlendDstRgb lastBlendSrcAlpha lastBlendDstAlpha
         lastBlendEquationRgb lastBlendEquationAlpha lastViewport
         lastScissorBox lastEnableBlend lastEnableCullFace
         lastEnableDepthTest lastEnableScissorTest).

(** "Restore modified GL state". *)
Definition restore_gl_state (b : GLBackup) : GL.M unit :=
  glUseProgram (lastProgram b) ;;
  glBindTexture TEXTURE_2D (lastTexture b) ;;
  glActiveTexture (lastActiveTexture b) ;;
  glBindVertexArray (lastVertexArray b) ;;
  glBindBuffer ARRAY_BUFFER (lastArrayBuffer b) ;;
  glBindBuffer ELEMENT_ARRAY_BUFFER (lastElementArrayBuffer b) ;;
  glBlendEquationSeparate (lastBlendEquationRgb b) (lastBlendEquationAlpha b) ;;
  glBlendFuncSeparate (lastBlendSrcRgb b) (lastBlendDstRgb b)
    (lastBlendSrcAlpha b) (lastBlendDstAlpha b) ;;
  (if lastEnableBlend b then glEnable BLEND else glDisable BLEND) ;;
  (if lastEnableCullFace b then glEnable CULL_FACE else glDisable CULL_FACE) ;;
  (if lastEnableDepthTest b then glEnable DEPTH_TEST else glDisable DEPTH_TEST) ;;
  (if lastEnableScissorTest b then glEnable SCISSOR_TEST
   else glDisable SCISSOR_TEST) ;;
  glViewport (rx (lastViewport b)) (ry (lastViewport b))
    (rw (lastViewport b)) (rh (lastViewport b)) ;;
  glScissor (rx (lastScissorBox b)) (ry (lastScissorBox b))
    (rw (lastScissorBox b)) (rh (lastScissorBox b)).

(** The clip rectangle of a command projected into framebuffer space. *)
Definition clipMin (clipOff clipScale : ImVec2) (pcmd : ImDrawCmd) : ImVec2 :=
  mkImVec2 (F32.mul (F32.sub (v4x (ClipRect pcmd)) (vx clipOff)) (vx clipScale))
           (F32.mul (F32.sub (v4y (ClipRect pcmd)) (vy clipOff)) (vy clipScale)).
Definition clipMax (clipOff clipScale : ImVec2) (pcmd : ImDrawCmd) : ImVec2 :=
  mkImVec2 (F32.mul (F32.sub (v4z (ClipRect pcmd)) (vx clipOff)) (vx clipScale))
           (F32.mul (F32.sub (v4w (ClipRect pcmd)) (vy clipOff)) (vy clipScale)).

(** The test guarding [continue]. *)
Definition clip_degenerate (clipOff clipScale : ImVec2) (pcmd : ImDrawCmd) : bool :=
  F32.leb (vx (clipMax clipOff clipScale pcmd)) (vx (clipMin clipOff clipScale pcmd))
  || F32.leb (vy (clipMax clipOff clipScale pcmd)) (vy (clipMin clipOff clipScale pcmd)).

(** One iteration of the loop over [cmdList->CmdBuffer]. *)
Definition render_cmd (r : ImGuiRenderer W) (drawData : ImDrawData)
    (fbWidth fbHeight vertexArrayObject : Z) (clipOff clipScale : ImVec2)
    (pcmd : ImDrawCmd) : GL.M unit :=
  match UserCallback pcmd with
  | Some ImDrawCallback_ResetRenderState =>
      setupRenderStates r drawData fbWidth fbHeight vertexArrayObject
  | Some (UserCode f) => fun s => (tt, f s)
  | None =>
      if ElemCount pcmd =? 0 then ret tt
      else
        let idxBufferOffset := IdxOffset pcmd * sizeof_ImDrawIdx cfg in
        let cmin := clipMin clipOff clipScale pcmd in
        let cmax := clipMax clipOff clipScale pcmd in
        if clip_degenerate clipOff clipScale pcmd then ret tt
        else
          glScissor (F32.to_int (vx cmin))
                    (F32.to_int (F32.sub (F32.of_Z fbHeight) (vy cmax)))
                    (F32.to_int (F32.sub (vx cmax) (vx cmin)))
                    (F32.to_int (F32.sub (vy cmax) (vy cmin))) ;;
          glBindTexture TEXTURE_2D (to_GLuint (TextureId pcmd)) ;;
          glDrawElements TRIANGLES (to_GLsizei (ElemCount pcmd))
            (if sizeof_ImDrawIdx cfg =? 2 then UNSIGNED_SHORT else UNSIGNED_INT)
            idxBufferOffset
  end.

Fixpoint render_cmds (r : ImGuiRenderer W) (drawData : ImDrawData)
    (fbWidth fbHeight vertexArrayObject : Z) (clipOff clipScale : ImVec2)
    (cmds : list ImDrawCmd) : GL.M unit :=
  match cmds with
  | [] => ret tt
  | pcmd :: rest =>
      render_cmd r drawData fbWidth fbHeight vertexArrayObject clipOff clipScale pcmd ;;
      render_cmds r drawData fbWidth fbHeight vertexArrayObject clipOff clipScale rest
  end.

(** "Upload vertex/index buffers": the retained buffers are reallocated
    when the segment does not fit, then the segment is uploaded. *)
Definition upload_buffers (cmdList : ImDrawList) (r : ImGuiRenderer W)
    : GL.M (ImGuiRenderer W) :=
  let vtxBufferSize := Z.of_nat (length (VtxBuffer cmdList)) * sizeof_ImDrawVert in
  let idxBufferSize := Z.of_nat (length (IdxBuffer cmdList)) * sizeof_ImDrawIdx cfg in
  do r1 <- (if mVertexBufferSize r <? vtxBufferSize then
              let r1 := set_mVertexBufferSize r vtxBufferSize in
              glBufferData ARRAY_BUFFER (mVertexBufferSize r1) STREAM_DRAW ;;
              ret r1
            else ret r) ;
  do r2 <- (if mIndexBufferSize r1 <? idxBufferSize then
              let r2 := set_mIndexBufferSize r1 idxBufferSize in
              glBufferData ELEMENT_ARRAY_BUFFER (mIndexBufferSize r2) STREAM_DRAW ;;
              ret r2
            else ret r1) ;
  glBufferSubData ARRAY_BUFFER 0 vtxBufferSize (VtxData (VtxBuffer cmdList)) ;;
  glBufferSubData ELEMENT_ARRAY_BUFFER 0 idxBufferSize (IdxData (IdxBuffer cmdList)) ;;
  ret r2.

(** The loop over [drawData->CmdLists]. *)
Fixpoint render_cmd_lists (drawData : ImDrawData)
    (fbWidth fbHeight vertexArrayObject : Z) (clipOff clipScale : ImVec2)
    (lists : list ImDrawList) (r : ImGuiRenderer W) : GL.M (ImGuiRenderer W) :=
  match lists with
  | [] => ret r
  | cmdList :: rest =>
      do r' <- upload_buffers cmdList r ;
      render_cmds r' drawData fbWidth fbHeight vertexArrayObject clipOff clipScale
        (CmdBuffer cmdList) ;;
      render_cmd_lists drawData fbWidth fbHeight vertexArrayObject clipOff clipScale
        rest r'
  end.

Definition fbWidth_of (io : ImGuiIO) : Z :=
  F32.to_int (F32.mul (vx (io_DisplaySize io)) (vx (DisplayFramebufferScale io))).
Definition fbHeight_of (io : ImGuiIO) : Z :=
  F32.to_int (F32.mul (vy (io_DisplaySize io)) (vy (DisplayFramebufferScale io))).

(** [renderDrawList(drawData)].  The draw data is passed by pointer and
    scaled in place, so it is returned next to the renderer. *)
Definition renderDrawList (g : ImGui) (drawData : ImDrawData)
    (r : ImGuiRenderer W) : GL.M (ImGuiRenderer W * ImDrawData) :=
  let io := ImGuiApi.GetIO g in
  let fbWidth := fbWidth_of io in
  let fbHeight := fbHeight_of io in
  if (fbWidth =? 0) || (fbHeight =? 0) then ret (r, drawData)
  else
    let drawData := ScaleClipRects (DisplayFramebufferScale io) drawData in
    do last <- backup_gl_state ;
    do vertexArrayObject <- glGenVertexArrays1 ;
    setupRenderStates r drawData fbWidth fbHeight vertexArrayObject ;;
    let clipOff := DisplayPos drawData in
    let clipScale := FramebufferScale drawData in
    do r' <- render_cmd_lists drawData fbWidth fbHeight vertexArrayObject
               clipOff clipScale (CmdLists drawData) r ;
    glDeleteVertexArrays1 vertexArrayObject ;;
    restore_gl_state last ;;
    ret (r', drawData).

(** [render()]: the draw data is the current context's. *)
Definition render (r : ImGuiRenderer W) (g : ImGui)
    : GL.M (ImGuiRenderer W * ImGui) :=
  let drawData := ImGuiApi.GetDrawData g in
  do res <- renderDrawList g drawData r ;
  ret (fst res, ImGuiApi.update_current (ctx_set_DrawData (snd res)) g).

End Rasterizer.

Section InputAndFrame.
Context {W : Type} `{WindowWrapper.t W}.
Variable cfg : BuildConfig.
(** [QObject::eventFilter], the base-class implementation. *)
Variable QObject_eventFilter : Z -> QEvent -> bool.

(** What [newFrame] reads from the host besides the window:
    [QDateTime::currentMSecsSinceEpoch()] and [QCursor::pos()]. *)
Record HostReadings := mkHostReadings {
  currentMSecsSinceEpoch : Z;
  QCursor_pos : QPoint
}.

Definition setCursorPos (io : ImGuiIO) (r : ImGuiRenderer W) : ImGuiRenderer W :=
  if QT_NO_CURSOR cfg then r
  else if WantSetMousePos io then
    set_mWindow r
      (WindowWrapper.setCursorPos
         (mkQPoint (F32.to_int (vx (MousePos io))) (F32.to_int (vy (MousePos io))))
         (mWindow r))
  else r.

Definition updateCursorShape (g : ImGui) (io : ImGuiIO) (r : ImGuiRenderer W)
    : ImGuiRenderer W :=
  if QT_NO_CURSOR cfg then r
  else if Qt.testFlag (ConfigFlags io) ImGuiConfigFlags_NoMouseCursorChange then r
  else
    let imgui_cursor := ImGuiApi.GetMouseCursor g in
    if MouseDrawCursor io || (imgui_cursor =? ImGuiMouseCursor_None) then
      set_mWindow r (WindowWrapper.setCursorShape Qt.BlankCursor (mWindow r))
    else
      match cursorMap !! imgui_cursor with
      | Some qt_cursor_shape =>
          set_mWindow r (WindowWrapper.setCursorShape qt_cursor_shape (mWindow r))
      | None =>
          set_mWindow r (WindowWrapper.setCursorShape Qt.ArrowCursor (mWindow r))
      end.

(** [currentMSecsSinceEpoch() / double(1000)]. *)
Definition seconds_of_msecs (ms : Z) : F64.t := F64.div (F64.of_Z ms) (F64.of_Z 1000).

(** The time step: [mTime > 0.0 ? (float)(currentTime - mTime)
    : (float)(1.0f / 60.0f)]. *)
Definition time_step (currentTime mTime : F64.t) : F32.t :=
  if F64.ltb F64.zero mTime then F64.to_f32 (F64.sub currentTime mTime)
  else F32.div (F32.of_Z 1) (F32.of_Z 60).

Definition newFrame (host : HostReadings) (r : ImGuiRenderer W) (g : ImGui)
    : ImGuiRenderer W * ImGui :=
  let sz := WindowWrapper.size (mWindow r) in
  let dpr := F64.to_f32 (WindowWrapper.devicePixelRatio (mWindow r)) in
  let g := ImGuiApi.update_IO
             (io_set_display (mkImVec2 (F32.of_Z (width sz)) (F32.of_Z (height sz)))
                             (mkImVec2 dpr dpr)) g in
  let currentTime := seconds_of_msecs (currentMSecsSinceEpoch host) in
  let g := ImGuiApi.update_IO (io_set_DeltaTime (time_step currentTime (mTime r))) g in
  let r := set_mTime r currentTime in
  let r := setCursorPos (ImGuiApi.GetIO g) r in
  let g :=
    if WindowWrapper.isActive (mWindow r) then
      let pos := WindowWrapper.mapFromGlobal (mWindow r) (QCursor_pos host) in
      ImGuiApi.AddMousePosEvent (F32.of_Z (qx pos)) (F32.of_Z (qy pos)) g
    else
      ImGuiApi.AddMousePosEvent (F32.of_Z (-1)) (F32.of_Z (-1)) g in
  let r := updateCursorShape g (ImGuiApi.GetIO g) r in
  (r, ImGuiApi.NewFrame g).

Definition onMousePressedChange (r : ImGuiRenderer W) (event : QMouseEvent)
    (g : ImGui) : ImGui :=
  let g := ImGuiApi.SetCurrentContext (mCtx r) g in
  let g := ImGuiApi.AddMouseButtonEvent ImGuiMouseButton_Left
             (Qt.testFlag (buttons event) Qt.LeftButton) g in
  let g := ImGuiApi.AddMouseButtonEvent ImGuiMouseButton_Right
             (Qt.testFlag (buttons event) Qt.RightButton) g in
  ImGuiApi.AddMouseButtonEvent ImGuiMouseButton_Middle
    (Qt.testFlag (buttons event) Qt.MiddleButton) g.

(** The two scroll components [wx], [wy] of [onWheel]. *)
Definition wheel_x (lineHeight : F32.t) (event : QWheelEvent) : F32.t :=
  if negb (qx (pixelDelta event) =? 0) then
    F32.div (F32.of_Z (qx (pixelDelta event))) lineHeight
  else
    F32.div (F32.of_Z (qx (angleDelta event))) (F32.of_Z 120).

Definition wheel_y (lineHeight : F32.t) (event : QWheelEvent) : F32.t :=
  if negb (qy (pixelDelta event) =? 0) then
    F64.to_f32 (F64.div (F64.of_Z (qy (pixelDelta event)))
                        (F64.mul (F64.of_Z 5) (F64.of_f32 lineHeight)))
  else
    F32.div (F32.of_Z (qy (angleDelta event))) (F32.of_Z 120).

Definition onWheel (r : ImGuiRenderer W) (event : QWheelEvent) (g : ImGui) : ImGui :=
  let g := ImGuiApi.SetCurrentContext (mCtx r) g in
  let wx := wheel_x (ImGuiApi.GetTextLineHeight g) event in
  let wy := wheel_y (ImGuiApi.GetTextLineHeight g) event in
  ImGuiApi.AddMouseWheelEvent wx wy g.

Definition onKeyPressRelease (r : ImGuiRenderer W) (event : QKeyEvent)
    (g : ImGui) : ImGui :=
  let g := ImGuiApi.SetCurrentContext (mCtx r) g in
  let key_pressed := match key_type event with KeyPress => true | _ => false end in
  let g := match keyMap !! key event with
           | Some imgui_key => ImGuiApi.AddKeyEvent imgui_key key_pressed g
           | None => g
           end in
  let g := if key_pressed then
             match text event with
             | [c] => ImGuiApi.AddInputCharacter c g
             | _ => g
             end
           else g in
  if Q_OS_MAC cfg then
    let g := ImGuiApi.AddKeyEvent ImGuiKey_ModCtrl
               (Qt.testFlag (modifiers event) Qt.MetaModifier) g in
    let g := ImGuiApi.AddKeyEvent ImGuiKey_ModShift
               (Qt.testFlag (modifiers event) Qt.ShiftModifier) g in
    let g := ImGuiApi.AddKeyEvent ImGuiKey_ModAlt
               (Qt.testFlag (modifiers event) Qt.AltModifier) g in
    ImGuiApi.AddKeyEvent ImGuiKey_ModSuper
      (Qt.testFlag (modifiers event) Qt.ControlModifier) g
  else
    let g := ImGuiApi.AddKeyEvent ImGuiKey_ModCtrl
               (Qt.testFlag (modifiers event) Qt.ControlModifier) g in
    let g := ImGuiApi.AddKeyEvent ImGuiKey_ModShift
               (Qt.testFlag (modifiers event) Qt.ShiftModifier) g in
    let g := ImGuiApi.AddKeyEvent ImGuiKey_ModAlt
               (Qt.testFlag (modifiers event) Qt.AltModifier) g in
    ImGuiApi.AddKeyEvent ImGuiKey_ModSuper
      (Qt.testFlag (modifiers event) Qt.MetaModifier) g.

(** [eventFilter(watched, event)]: the returned flag and the library state
    after the call. *)
Definition eventFilter (r : ImGuiRenderer W) (watched : Z) (event : QEvent)
    (g : ImGui) : bool * ImGui :=
  let g :=
    if watched =? WindowWrapper.object (mWindow r) then
      match event with
      | QEvent_Mouse e =>
          match mouse_type e with
          | MouseButtonDblClick | MouseButtonPress | MouseButtonRelease =>
              onMousePressedChange r e g
          | MouseMove => g
          end
      | QEvent_Wheel e => onWheel r e g
      | QEvent_Key e =>
          match key_type e with
          | KeyPress | KeyRelease => onKeyPressRelease r e g
          | ShortcutOverride => g
          end
      | QEvent_Other _ => g
      end
    else g in
  (QObject_eventFilter watched event, g).

End InputAndFrame.

(* ===================================================================== *)
(** ** OpenGL: the objects created when the renderer is initialised *)
(* ===================================================================== *)

Module GLObjects.
Import String.

Inductive shader_type := VERTEX_SHADER | FRAGMENT_SHADER.

Definition TEXTURE_MAG_FILTER : Z := 0x2800.
Definition TEXTURE_MIN_FILTER : Z := 0x2801.
Definition LINEAR : Z := 0x2601.
Definition RGBA : Z := 0x1908.

(** The entry points that create and define objects. *)
Inductive call :=
| CreateProgram
| CreateShader (type : shader_type)
| ShaderSource (shader : Z) (source : string)
| CompileShader (shader : Z)
| AttachShader (program shader : Z)
| LinkProgram (program : Z)
| GetUniformLocation (program : Z) (name : string)
| GetAttribLocation (program : Z) (name : string)
| GenBuffers (n : Z)
| GenTextures (n : Z)
| TexParameteri (target pname param : Z)
| TexImage2D (target level internalformat width height border format type : Z)
             (pixels : list Z).

(** The image of a texture: width, height and the bytes it was defined
    from. *)
Record image := mkImage { image_width : Z; image_height : Z; image_data : list Z }.

(** A context with its objects.  [core] is the state the rasterizer works
    on.  Programs and shaders share one name space; buffers and textures
    have one each; the names handed out are the context's choice, here the
    next unused one.  The locations of uniforms and attributes are what the
    implementation assigned when it linked a program.  [images] holds the
    image of each texture object that has one.  [calls] is the history of
    the calls of this module, oldest first. *)
Record state := mkState {
  core : GL.state;
  next_object : Z;
  next_buffer : Z;
  next_texture : Z;
  max_texture_size : Z;
  uniform_location : Z -> string -> Z;
  attrib_location : Z -> string -> Z;
  images : gmap Z image;
  calls : list call
}.

Section Setters.
Variable s : state.

Definition set_core v :=
  mkState v (next_object s) (next_buffer s) (next_texture s) (max_texture_size s)
    (uniform_location s) (attrib_location s) (images s) (calls s).
Definition set_next_object v :=
  mkState (core s) v (next_buffer s) (next_texture s) (max_texture_size s)
    (uniform_location s) (attrib_location s) (images s) (calls s).
Definition set_next_buffer v :=
  mkState (core s) (next_object s) v (next_texture s) (max_texture_size s)
    (uniform_location s) (attrib_location s) (images s) (calls s).
Definition set_next_texture v :=
  mkState (core s) (next_object s) (next_buffer s) v (max_texture_size s)
    (uniform_location s) (attrib_location s) (images s) (calls s).
Definition set_images v :=
  mkState (core s) (next_object s) (next_buffer s) (next_texture s)
    (max_texture_size s) (uniform_location s) (attrib_location s) v (calls s).
Definition set_calls v :=
  mkState (core s) (next_object s) (next_buffer s) (next_texture s)
    (max_texture_size s) (uniform_location s) (attrib_location s) (images s) v.
End Setters.

(** The effect of a call on the objects.  [glTexImage2D] defines the image
    of the texture bound to the active unit; with a negative width or
    height, or one above the implementation's limit, it raises
    [GL_INVALID_VALUE] and defines nothing.  Shader sources, compilation,
    attachment, linking and texture parameters leave the state modelled here
    as it is. *)
Definition effect (c : call) (s : state) : state :=
  match c with
  | CreateProgram | CreateShader _ => set_next_object s (next_object s + 1)
  | GenBuffers n => set_next_buffer s (next_buffer s + n)
  | GenTextures n => set_next_texture s (next_texture s + n)
  | TexImage2D _ _ _ w h _ _ _ pixels =>
      if (w <? 0) || (h <? 0) || (max_texture_size s <? w) || (max_texture_size s <? h)
      then s
      else set_images s
             (<[GL.binding (GL.texture_binding_2d (core s)) (GL.active_texture (core s))
                := mkImage w h pixels]> (images s))
  | ShaderSource _ _ | CompileShader _ | AttachShader _ _ | LinkProgram _
  | GetUniformLocation _ _ | GetAttribLocation _ _ | TexParameteri _ _ _ => s
  end.

Definition M (A : Type) : Type := state -> A * state.

Definition ret {A} (a : A) : M A := fun s => (a, s).
Definition bind {A B} (m : M A) (k : A -> M B) : M B :=
  fun s => let (a, s') := m s in k a s'.

Definition issue (c : call) : M unit :=
  fun s => let s' := effect c s in (tt, set_calls s' (calls s' ++ [c])).

(** A call of the part of the API the rasterizer uses. *)
Definition core_call {A} (m : GL.M A) : M A :=
  fun s => let (a, c) := m (core s) in (a, set_core s c).

Definition glCreateProgram : M Z :=
  fun s => let p := next_object s in (p, snd (issue CreateProgram s)).
Definition glCreateShader (t : shader_type) : M Z :=
  fun s => let p := next_object s in (p, snd (issue (CreateShader t) s)).
(** [glGenBuffers(1, &b)] and [glGenTextures(1, &t)]. *)
Definition glGenBuffers1 : M Z :=
  fun s => let b := next_buffer s in (b, snd (issue (GenBuffers 1) s)).
Definition glGenTextures1 : M Z :=
  fun s => let t := next_texture s in (t, snd (issue (GenTextures 1) s)).
Definition glGetUniformLocation (program : Z) (name : string) : M Z :=
  bind (issue (GetUniformLocation program name))
       (fun _ s => (uniform_location s program name, s)).
Definition glGetAttribLocation (program : Z) (name : string) : M Z :=
  bind (issue (GetAttribLocation program name))
       (fun _ s => (attrib_location s program name, s)).

Definition glShaderSource sh src := issue (ShaderSource sh src).
Definition glCompileShader sh := issue (CompileShader sh).
Definition glAttachShader p sh := issue (AttachShader p sh).
Definition glLinkProgram p := issue (LinkProgram p).
Definition glTexParameteri tg pn v := issue (TexParameteri tg pn v).
Definition glTexImage2D tg lv ifmt w h b fmt ty px :=
  issue (TexImage2D tg lv ifmt w h b fmt ty px).

End GLObjects.

Declare Scope globj_scope.
Delimit Scope globj_scope with globj.
Notation "'do' x <- m ; k" := (GLObjects.bind m (fun x => k))
  (at level 10, x name, m at level 100, k at level 200) : globj_scope.
Notation "m ;; k" := (GLObjects.bind m (fun _ => k))
  (at level 100, k at level 200, right associativity) : globj_scope.

(** [ImFontAtlas] (Dear ImGui), as far as the renderer uses it: the atlas
    image as 32-bit RGBA, which [GetTexDataAsRGBA32] returns, and the
    texture identifier, which [SetTexID] stores. *)
Record ImFontAtlas := mkImFontAtlas {
  TexPixelsRGBA32 : list Z;
  TexWidth : Z;
  TexHeight : Z;
  TexID : Z
}.

Definition SetTexID (id : Z) (fonts : ImFontAtlas) : ImFontAtlas :=
  mkImFontAtlas (TexPixelsRGBA32 fonts) (TexWidth fonts) (TexHeight fonts) id.

Section DeviceObjectMembers.
Context {W : Type}.
Variable r : ImGuiRenderer W.

Definition set_mFontTexture (v : Z) : ImGuiRenderer W :=
  mkImGuiRenderer (mWindow r) (mCtx r) (mTime r) (mGlVersion r) v
    (mShaderHandle r) (mVertHandle r) (mFragHandle r) (mAttribLocationTex r)
    (mAttribLocationProjMtx r) (mAttribLocationVtxPos r)
    (mAttribLocationVtxUV r) (mAttribLocationVtxColor r) (mVboHandle r)
    (mElementsHandle r) (mVertexBufferSize r) (mIndexBufferSize r).

Definition set_mShaderHandle (v : Z) : ImGuiRenderer W :=
  mkImGuiRenderer (mWindow r) (mCtx r) (mTime r) (mGlVersion r) (mFontTexture r)
    v (mVertHandle r) (mFragHandle r) (mAttribLocationTex r)
    (mAttribLocationProjMtx r) (mAttribLocationVtxPos r)
    (mAttribLocationVtxUV r) (mAttribLocationVtxColor r) (mVboHandle r)
    (mElementsHandle r) (mVertexBufferSize r) (mIndexBufferSize r).

Definition set_mVertHandle (v : Z) : ImGuiRenderer W :=
  mkImGuiRenderer (mWindow r) (mCtx r) (mTime r) (mGlVersion r) (mFontTexture r)
    (mShaderHandle r) v (mFragHandle r) (mAttribLocationTex r)
    (mAttribLocationProjMtx r) (mAttribLocationVtxPos r)
    (mAttribLocationVtxUV r) (mAttribLocationVtxColor r) (mVboHandle r)
    (mElementsHandle r) (mVertexBufferSize r) (mIndexBufferSize r).

Definition set_mFragHandle (v : Z) : ImGuiRenderer W :=
  mkImGuiRenderer (mWindow r) (mCtx r) (mTime r) (mGlVersion r) (mFontTexture r)
    (mShaderHandle r) (mVertHandle r) v (mAttribLocationTex r)
    (mAttribLocationProjMtx r) (mAttribLocationVtxPos r)
    (mAttribLocationVtxUV r) (mAttribLocationVtxColor r) (mVboHandle r)
    (mElementsHandle r) (mVertexBufferSize r) (mIndexBufferSize r).

Definition set_mAttribLocationTex (v : Z) : ImGuiRenderer W :=
  mkImGuiRenderer (mWindow r) (mCtx r) (mTime r) (mGlVersion r) (mFontTexture r)
    (mShaderHandle r) (mVertHandle r) (mFragHandle r) v
    (mAttribLocationProjMtx r) (mAttribLocationVtxPos r)
    (mAttribLocationVtxUV r) (mAttribLocationVtxColor r) (mVboHandle r)
    (mElementsHandle r) (mVertexBufferSize r) (mIndexBufferSize r).

Definition set_mAttribLocationProjMtx (v : Z) : ImGuiRenderer W :=
  mkImGuiRenderer (mWindow r) (mCtx r) (mTime r) (mGlVersion r) (mFontTexture r)
    (mShaderHandle r) (mVertHandle r) (mFragHandle r) (mAttribLocationTex r)
    v (mAttribLocationVtxPos r)
    (mAttribLocationVtxUV r) (mAttribLocationVtxColor r) (mVboHandle r)
    (mElementsHandle r) (mVertexBufferSize r) (mIndexBufferSize r).

Definition set_mAttribLocationVtxPos (v : Z) : ImGuiRenderer W :=
  mkImGuiRenderer (mWindow r) (mCtx r) (mTime r) (mGlVersion r) (mFontTexture r)
    (mShaderHandle r) (mVertHandle r) (mFragHandle r) (mAttribLocationTex r)
    (mAttribLocationProjMtx r) v
    (mAttribLocationVtxUV r) (mAttribLocationVtxColor r) (mVboHandle r)
    (mElementsHandle r) (mVertexBufferSize r) (mIndexBufferSize r).

Definition set_mAttribLocationVtxUV (v : Z) : ImGuiRenderer W :=
  mkImGuiRenderer (mWindow r) (mCtx r) (mTime r) (mGlVersion r) (mFontTexture r)
    (mShaderHandle r) (mVertHandle r) (mFragHandle r) (mAttribLocationTex r)
    (mAttribLocationProjMtx r) (mAttribLocationVtxPos r)
    v (mAttribLocationVtxColor r) (mVboHandle r)
    (mElementsHandle r) (mVertexBufferSize r) (mIndexBufferSize r).

Definition set_mAttribLocationVtxColor (v : Z) : ImGuiRenderer W :=
  mkImGuiRenderer (mWindow r) (mCtx r) (mTime r) (mGlVersion r) (mFontTexture r)
    (mShaderHandle r) (mVertHandle r) (mFragHandle r) (mAttribLocationTex r)
    (mAttribLocationProjMtx r) (mAttribLocationVtxPos r)
    (mAttribLocationVtxUV r) v (mVboHandle r)
    (mElementsHandle r) (mVertexBufferSize r) (mIndexBufferSize r).

Definition set_mVboHandle (v : Z) : ImGuiRenderer W :=
  mkImGuiRenderer (mWindow r) (mCtx r) (mTime r) (mGlVersion r) (mFontTexture r)
    (mShaderHandle r) (mVertHandle r) (mFragHandle r) (mAttribLocationTex r)
    (mAttribLocationProjMtx r) (mAttribLocationVtxPos r)
    (mAttribLocationVtxUV r) (mAttribLocationVtxColor r) v
    (mElementsHandle r) (mVertexBufferSize r) (mIndexBufferSize r).

Definition set_mElementsHandle (v : Z) : ImGuiRenderer W :=
  mkImGuiRenderer (mWindow r) (mCtx r) (mTime r) (mGlVersion r) (mFontTexture r)
    (mShaderHandle r) (mVertHandle r) (mFragHandle r) (mAttribLocationTex r)
    (mAttribLocationProjMtx r) (mAttribLocationVtxPos r)
    (mAttribLocationVtxUV r) (mAttribLocationVtxColor r) (mVboHandle r)
    v (mVertexBufferSize r) (mIndexBufferSize r).
End DeviceObjectMembers.

Section DeviceObjects.
Context {W : Type}.
(** [USE_GLSL_ES], defined on Android. *)
Variable USE_GLSL_ES : bool.

Local Open Scope globj_scope.
Import String.
Import GLObjects.

Definition IMGUIRENDERER_GLSL_VERSION : String.string :=
  if USE_GLSL_ES then "#version 300 es
"%string else "#version 330
"%string.

Definition vertex_shader : String.string :=
  String.append IMGUIRENDERER_GLSL_VERSION
    "uniform mat4 ProjMtx;
in vec2 Position;
in vec2 UV;
in vec4 Color;
out vec2 Frag_UV;
out vec4 Frag_Color;
void main()
{
	Frag_UV = UV;
	Frag_Color = Color;
	gl_Position = ProjMtx * vec4(Position.xy,0,1);
}
"%string.

Definition fragment_shader : String.string :=
  String.append IMGUIRENDERER_GLSL_VERSION
    "precision mediump float;uniform sampler2D Texture;
in vec2 Frag_UV;
in vec4 Frag_Color;
out vec4 Out_Color;
void main()
{
	Out_Color = Frag_Color * texture( Texture, Frag_UV.st);
}
"%string.

(** [createFontsTexture()].  [fonts] is [io.Fonts] of the current context;
    it is changed through the pointer, so it is returned next to the
    renderer. *)
Definition createFontsTexture (fonts : ImFontAtlas) (r : ImGuiRenderer W)
    : GLObjects.M (bool * ImGuiRenderer W * ImFontAtlas) :=
  let pixels := TexPixelsRGBA32 fonts in
  let width := TexWidth fonts in
  let height := TexHeight fonts in
  do lastTexture <- core_call (GL.glGetIntegerv GL.TEXTURE_BINDING_2D) ;
  do t <- glGenTextures1 ;
  let r := set_mFontTexture r t in
  core_call (GL.glBindTexture GL.TEXTURE_2D (mFontTexture r)) ;;
  glTexParameteri GL.TEXTURE_2D TEXTURE_MIN_FILTER LINEAR ;;
  glTexParameteri GL.TEXTURE_2D TEXTURE_MAG_FILTER LINEAR ;;
  glTexImage2D GL.TEXTURE_2D 0 RGBA width height 0 RGBA GL.UNSIGNED_BYTE pixels ;;
  let fonts := SetTexID (mFontTexture r) fonts in
  core_call (GL.glBindTexture GL.TEXTURE_2D lastTexture) ;;
  ret (true, r, fonts).

(** [createDeviceObjects()]. *)
Definition createDeviceObjects (fonts : ImFontAtlas) (r : ImGuiRenderer W)
    : GLObjects.M (bool * ImGuiRenderer W * ImFontAtlas) :=
  do lastTexture <- core_call (GL.glGetIntegerv GL.TEXTURE_BINDING_2D) ;
  do lastArrayBuffer <- core_call (GL.glGetIntegerv GL.ARRAY_BUFFER_BINDING) ;
  do lastVertexArray <- core_call (GL.glGetIntegerv GL.VERTEX_ARRAY_BINDING) ;
  do p <- glCreateProgram ;
  let r := set_mShaderHandle r p in
  do v <- glCreateShader VERTEX_SHADER ;
  let r := set_mVertHandle r v in
  do f <- glCreateShader FRAGMENT_SHADER ;
  let r := set_mFragHandle r f in
  glShaderSource (mVertHandle r) vertex_shader ;;
  glShaderSource (mFragHandle r) fragment_shader ;;
  glCompileShader (mVertHandle r) ;;
  glCompileShader (mFragHandle r) ;;
  glAttachShader (mShaderHandle r) (mVertHandle r) ;;
  glAttachShader (mShaderHandle r) (mFragHandle r) ;;
  glLinkProgram (mShaderHandle r) ;;
  do l <- glGetUniformLocation (mShaderHandle r) "Texture"%string ;
  let r := set_mAttribLocationTex r l in
  do l <- glGetUniformLocation (mShaderHandle r) "ProjMtx"%string ;
  let r := set_mAttribLocationProjMtx r l in
  do l <- glGetAttribLocation (mShaderHandle r) "Position"%string ;
  let r := set_mAttribLocationVtxPos r l in
  do l <- glGetAttribLocation (mShaderHandle r) "UV"%string ;
  let r := set_mAttribLocationVtxUV r l in
  do l <- glGetAttribLocation (mShaderHandle r) "Color"%string ;
  let r := set_mAttribLocationVtxColor r l in
  do b <- glGenBuffers1 ;
  let r := set_mVboHandle r b in
  do b <- glGenBuffers1 ;
  let r := set_mElementsHandle r b in
  core_call (GL.glBindBuffer GL.ARRAY_BUFFER (mVboHandle r)) ;;
  core_call (GL.glEnableVertexAttribArray (mAttribLocationVtxPos r)) ;;
  core_call (GL.glEnableVertexAttribArray (mAttribLocationVtxUV r)) ;;
  core_call (GL.glEnableVertexAttribArray (mAttribLocationVtxColor r)) ;;
  core_call (GL.glVertexAttribPointer (mAttribLocationVtxPos r) 2 GL.FLOAT false
               sizeof_ImDrawVert 0) ;;
  core_call (GL.glVertexAttribPointer (mAttribLocationVtxUV r) 2 GL.FLOAT false
               sizeof_ImDrawVert 8) ;;
  core_call (GL.glVertexAttribPointer (mAttribLocationVtxColor r) 4
               GL.UNSIGNED_BYTE true sizeof_ImDrawVert 16) ;;
  do created <- createFontsTexture fonts r ;
  let r := snd (fst created) in
  let fonts := snd created in
  core_call (GL.glBindTexture GL.TEXTURE_2D lastTexture) ;;
  core_call (GL.glBindBuffer GL.ARRAY_BUFFER lastArrayBuffer) ;;
  core_call (GL.glBindVertexArray lastVertexArray) ;;
  ret (true, r, fonts).

End DeviceObjects.

(* ===================================================================== *)
(** ** A concrete window and concrete states, used in the examples *)
(* ===================================================================== *)

(** A window whose answers are stored in a record: position of its top-left
    corner on the screen, size, pixel ratio, focus, and the cursor shape and
    pointer position last set on it. *)
Record SimpleWindow := mkSimpleWindow {
  sw_object : Z;
  sw_filters : list Z;
  sw_origin : QPoint;
  sw_size : QSize;
  sw_devicePixelRatio : F64.t;
  sw_isActive : bool;
  sw_cursorShape : Qt.CursorShape;
  sw_cursorPos : option QPoint
}.

#[global] Instance SimpleWindow_wrapper : WindowWrapper.t SimpleWindow := {|
  WindowWrapper.installEventFilter f w :=
    mkSimpleWindow (sw_object w) (f :: sw_filters w) (sw_origin w) (sw_size w)
      (sw_devicePixelRatio w) (sw_isActive w) (sw_cursorShape w) (sw_cursorPos w);
  WindowWrapper.size := sw_size;
  WindowWrapper.devicePixelRatio := sw_devicePixelRatio;
  WindowWrapper.isActive := sw_isActive;
  WindowWrapper.mapFromGlobal w p :=
    mkQPoint (qx p - qx (sw_origin w)) (qy p - qy (sw_origin w));
  WindowWrapper.object := sw_object;
  WindowWrapper.setCursorShape c w :=
    mkSimpleWindow (sw_object w) (sw_filters w) (sw_origin w) (sw_size w)
      (sw_devicePixelRatio w) (sw_isActive w) c (sw_cursorPos w);
  WindowWrapper.setCursorPos p w :=
    mkSimpleWindow (sw_object w) (sw_filters w) (sw_origin w) (sw_size w)
      (sw_devicePixelRatio w) (sw_isActive w) (sw_cursorShape w) (Some p)
|}.

Module Examples.

Definition window (obj : Z) : SimpleWindow :=
  mkSimpleWindow obj [] (mkQPoint 100 50) (mkQSize 800 600) (F64.of_Z 1) true
    Qt.ArrowCursor None.

(** A renderer bound to the window [obj] and the context [ctx], as it is
    after [initialize]: no frame begun, nothing uploaded yet. *)
Definition renderer (obj ctx : Z) : ImGuiRenderer SimpleWindow :=
  mkImGuiRenderer (window obj) ctx F64.zero 330 1 3 4 5 0 1 0 1 2 1 2 0 0.

Definition vec (x y : Z) : ImVec2 := mkImVec2 (F32.of_Z x) (F32.of_Z y).

Definition io0 : ImGuiIO :=
  mkImGuiIO 0 (vec 800 600) (vec 1 1) F32.zero false false (vec 0 0) [].

Definition no_draw_data : ImDrawData := mkImDrawData [] (vec 0 0) (vec 800 600) (vec 1 1).

Definition context0 : ImGuiContext :=
  mkImGuiContext io0 (F32.of_Z 13) ImGuiMouseCursor_Arrow no_draw_data 0.

(** The library with every context in the state [context0] and the context
    [cur] selected. *)
Definition imgui (cur : Z) : ImGui := mkImGui cur (fun _ => context0).

Definition desktop : BuildConfig := mkBuildConfig false false 2.

(** A context state as the application may leave it: texture unit 0
    active with texture 5 bound, program 7 in use, a 640x480 viewport. *)
Definition gl0 : GL.state :=
  GL.mkState GL.TEXTURE0 7 {[ GL.TEXTURE0 := 5 ]} 11 0 ∅
    1 0 1 0 GL.FUNC_ADD GL.FUNC_ADD
    (GL.mkBox 0 0 640 480) (GL.mkBox 0 0 640 480)
    (fun c => match c with GL.DEPTH_TEST => true | _ => false end)
    1 [].

Definition full_clip : ImVec4 :=
  mkImVec4 (F32.of_Z 0) (F32.of_Z 0) (F32.of_Z 800) (F32.of_Z 600).

Definition triangle : list ImDrawVert :=
  [ mkImDrawVert (vec 0 0) (vec 0 0) 0xFFFFFFFF;
    mkImDrawVert (vec 10 0) (vec 1 0) 0xFFFFFFFF;
    mkImDrawVert (vec 0 10) (vec 0 1) 0xFFFFFFFF ].

(** A command drawing three indices with texture [tex]. *)
Definition draw_cmd (clip : ImVec4) (tex : Z) : ImDrawCmd :=
  mkImDrawCmd clip tex 0 0 3 None.

Definition callback_cmd (cb : ImDrawCallback) : ImDrawCmd :=
  mkImDrawCmd full_clip 0 0 0 0 (Some cb).

Definition draw_data (cmds : list ImDrawCmd) : ImDrawData :=
  mkImDrawData [mkImDrawList cmds [0; 1; 2] triangle]
    (vec 0 0) (vec 800 600) (vec 1 1).

(** The library while the window is minimized: the display is 0 wide. *)
Definition minimized_imgui (cur : Z) : ImGui :=
  mkImGui cur (fun _ =>
    mkImGuiContext
      (mkImGuiIO 0 (vec 0 600) (vec 1 1) F32.zero false false (vec 0 0) [])
      (F32.of_Z 13) ImGuiMouseCursor_Arrow no_draw_data 0).

(** Two contexts, as with two windows: context 1 has a frame with one
    triangle to draw, every other context has nothing to draw; context 1 is
    selected. *)
Definition two_contexts : ImGui :=
  mkImGui 1 (fun c =>
    if c =? 1 then
      mkImGuiContext io0 (F32.of_Z 13) ImGuiMouseCursor_Arrow
        (draw_data [draw_cmd full_clip 9]) 0
    else context0).

(** The host when the clock reads [ms] milliseconds since the epoch and the
    pointer is at (150, 80) on the screen. *)
Definition host_at (ms : Z) : HostReadings := mkHostReadings ms (mkQPoint 150 80).

(** A user callback that enables the stencil test. *)
Definition stencil_callback : ImDrawCallback :=
  UserCode (fun s => snd (GL.glEnable GL.STENCIL_TEST s)).

(** A user callback that selects texture unit 1 and leaves it selected. *)
Definition unit1_callback : ImDrawCallback :=
  UserCode (fun s => snd (GL.glActiveTexture (GL.TEXTURE0 + 1) s)).

(** A user callback that binds texture 12 to texture unit 1 and selects
    texture unit 0 again before it returns. *)
Definition multitexture_callback : ImDrawCallback :=
  UserCode (fun s =>
    snd (GL.bind (GL.glActiveTexture (GL.TEXTURE0 + 1)) (fun _ =>
         GL.bind (GL.glBindTexture GL.TEXTURE_2D 12) (fun _ =>
         GL.glActiveTexture GL.TEXTURE0)) s)).

(** A clip rectangle 0 wide. *)
Definition empty_clip : ImVec4 :=
  mkImVec4 (F32.of_Z 10) (F32.of_Z 10) (F32.of_Z 10) (F32.of_Z 50).

End Examples.

(* ===================================================================== *)
(** ** Vocabulary of the statements *)
(* ===================================================================== *)

(** The library state after the event filter has seen an event addressed to
    the renderer's own window. *)
Definition deliver {W : Type} `{WindowWrapper.t W} (cfg : BuildConfig)
    (base : Z -> QEvent -> bool) (r : ImGuiRenderer W) (event : QEvent)
    (g : ImGui) : ImGui :=
  snd (eventFilter cfg base r (WindowWrapper.object (mWindow r)) event g).

(** The values of [qint64]. *)
Definition is_qint64 (z : Z) : Prop := - 2 ^ 63 <= z < 2 ^ 63.

(** [QObject::eventFilter] as Qt implements it: every event is let through. *)
Definition QObject_eventFilter_default : Z -> QEvent -> bool := fun _ _ => false.

(** The four modifier reports that close every key event. *)
Definition modifier_events (cfg : BuildConfig) (mods : Z) : list InputEvent :=
  [ EvKey ImGuiKey_ModCtrl
      (Qt.testFlag mods (if Q_OS_MAC cfg then Qt.MetaModifier else Qt.ControlModifier));
    EvKey ImGuiKey_ModShift (Qt.testFlag mods Qt.ShiftModifier);
    EvKey ImGuiKey_ModAlt (Qt.testFlag mods Qt.AltModifier);
    EvKey ImGuiKey_ModSuper
      (Qt.testFlag mods (if Q_OS_MAC cfg then Qt.ControlModifier else Qt.MetaModifier)) ].

(** The text a key event contributes: the character of a press whose text is
    one code unit long. *)
Definition text_events (e : QKeyEvent) : list InputEvent :=
  match key_type e, text e with
  | KeyPress, [c] => [EvInputCharacter c]
  | _, _ => []
  end.

(** Texture unit 0 is the active one. *)
Definition on_unit0 (s : GL.state) : Prop := GL.active_texture s = GL.TEXTURE0.

(** Code that, entered with texture unit 0 active, returns with texture
    unit 0 active.  It may select other units on the way. *)
Definition returns_on_unit0 {A} (m : GL.M A) : Prop :=
  forall s, on_unit0 s -> on_unit0 (snd (m s)).

Definition callback_returns_on_unit0 (cb : option ImDrawCallback) : Prop :=
  match cb with
  | Some (UserCode f) => forall s, on_unit0 s -> on_unit0 (f s)
  | _ => True
  end.

(** Every user callback of the draw data, entered with texture unit 0
    active, returns with texture unit 0 active. *)
Definition callbacks_return_on_unit0 (d : ImDrawData) : Prop :=
  Forall (fun l => Forall (fun c => callback_returns_on_unit0 (UserCallback c))
                     (CmdBuffer l))
         (CmdLists d).

(** Calls that draw. *)
Definition is_draw_call (c : GL.call) : bool :=
  match c with
  | GL.DrawElements _ _ _ _ => true
  | _ => false
  end.

(** The bytes of vertex and of index data in a command list. *)
Definition vtx_bytes (l : ImDrawList) : Z :=
  Z.of_nat (length (VtxBuffer l)) * sizeof_ImDrawVert.
Definition idx_bytes (cfg : BuildConfig) (l : ImDrawList) : Z :=
  Z.of_nat (length (IdxBuffer l)) * sizeof_ImDrawIdx cfg.

(** A run of [renderDrawList] invocations on one renderer.  Each invocation
    has its own library state, draw data and graphics-context state: anything
    may happen to those between two frames. *)
Fixpoint render_frames {W : Type} (cfg : BuildConfig)
    (frames : list (ImGui * ImDrawData * GL.state)) (r : ImGuiRenderer W)
    : ImGuiRenderer W :=
  match frames with
  | [] => r
  | (g, drawData, s) :: rest =>
      render_frames cfg rest (fst (fst (renderDrawList cfg g drawData r s)))
  end.

(* ===================================================================== *)
(** ** Properties of the input translator *)
(* ===================================================================== *)

(** The events a context has been sent so far. *)
Definition events_of (g : ImGui) (ctx : Z) : list InputEvent :=
  InputEvents (IO (contexts g ctx)).

(** *** Vocabulary of the further properties *)

(** Events for which the filter has no case: pointer motion, a shortcut
    override, and every event that is not a mouse, wheel or key event. *)
Definition unhandled (event : QEvent) : bool :=
  match event with
  | QEvent_Mouse e =>
      match mouse_type e with MouseMove => true | _ => false end
  | QEvent_Wheel _ => false
  | QEvent_Key e =>
      match key_type e with ShortcutOverride => true | _ => false end
  | QEvent_Other _ => true
  end.

(** The library state [g'] differs from [g] at most in the events the
    context [ctx] has been sent, which have grown by [evs], and in the
    context that is selected. *)
Definition reports_to (ctx : Z) (evs : list InputEvent) (g g' : ImGui) : Prop :=
  (forall c, c <> ctx -> contexts g' c = contexts g c)
  /\ contexts g' ctx
     = ctx_set_IO
         (mkImGuiIO (ConfigFlags (IO (contexts g ctx)))
            (io_DisplaySize (IO (contexts g ctx)))
            (DisplayFramebufferScale (IO (contexts g ctx)))
            (DeltaTime (IO (contexts g ctx)))
            (MouseDrawCursor (IO (contexts g ctx)))
            (WantSetMousePos (IO (contexts g ctx)))
            (MousePos (IO (contexts g ctx)))
            (InputEvents (IO (contexts g ctx)) ++ evs))
         (contexts g ctx).

(** The shape [updateCursorShape] asks the window for: no cursor while the
    library draws its own or wants none, else the entry of the table, else
    the arrow. *)
Definition cursor_shape_for (drawn : bool) (cursor : Z) : Qt.CursorShape :=
  if drawn || (cursor =? -1) then Qt.BlankCursor
  else if (0 <=? cursor) && (cursor <=? 8) then
    nth (Z.to_nat cursor)
      [ Qt.ArrowCursor; Qt.IBeamCursor; Qt.SizeAllCursor; Qt.SizeVerCursor;
        Qt.SizeHorCursor; Qt.SizeBDiagCursor; Qt.SizeFDiagCursor;
        Qt.PointingHandCursor; Qt.ForbiddenCursor ] Qt.ArrowCursor
  else Qt.ArrowCursor.


(** A command that leads to a draw: it has no callback, some elements and a
    projected clip rectangle that is not degenerate. *)
Definition is_drawn (clipOff clipScale : ImVec2) (c : ImDrawCmd) : bool :=
  match UserCallback c with
  | Some _ => false
  | None => negb (ElemCount c =? 0) && negb (clip_degenerate clipOff clipScale c)
  end.

(** The draw call made for a command. *)
Definition draw_call_of (cfg : BuildConfig) (c : ImDrawCmd) : GL.call :=
  GL.DrawElements GL.TRIANGLES (to_GLsizei (ElemCount c))
    (if sizeof_ImDrawIdx cfg =? 2 then GL.UNSIGNED_SHORT else GL.UNSIGNED_INT)
    (IdxOffset c * sizeof_ImDrawIdx cfg).

(** The three calls made for a command that is drawn: scissor box, texture,
    draw. *)
Definition calls_of_cmd (cfg : BuildConfig) (fbHeight : Z)
    (clipOff clipScale : ImVec2) (c : ImDrawCmd) : list GL.call :=
  let cmin := clipMin clipOff clipScale c in
  let cmax := clipMax clipOff clipScale c in
  [ GL.Scissor (F32.to_int (vx cmin))
               (F32.to_int (F32.sub (F32.of_Z fbHeight) (vy cmax)))
               (F32.to_int (F32.sub (vx cmax) (vx cmin)))
               (F32.to_int (F32.sub (vy cmax) (vy cmin)));
    GL.BindTexture GL.TEXTURE_2D (to_GLuint (TextureId c));
    draw_call_of cfg c ].

(** Every user callback of the draw data satisfies [Q]. *)
Definition user_callbacks (Q : (GL.state -> GL.state) -> Prop) (d : ImDrawData) : Prop :=
  Forall (fun l =>
            Forall (fun c => match UserCallback c with
                             | Some (UserCode f) => Q f
                             | _ => True
                             end) (CmdBuffer l))
         (CmdLists d).

(** The calls among [cs] that satisfy [P], oldest first. *)
Definition calls_satisfying (P : GL.call -> bool) (cs : list GL.call) : list GL.call :=
  List.filter P cs.

(** Code that adds the calls [l], and no other call satisfying [P], to the
    history. *)
Definition adds_calls {A} (P : GL.call -> bool) (m : GL.M A) (l : list GL.call) : Prop :=
  forall s, calls_satisfying P (GL.calls (snd (m s)))
            = calls_satisfying P (GL.calls s) ++ l.

(** User code that makes no call satisfying [P]. *)
Definition leaves_calls (P : GL.call -> bool) (f : GL.state -> GL.state) : Prop :=
  forall s, calls_satisfying P (GL.calls (f s)) = calls_satisfying P (GL.calls s).

(** Code under which a property of the context state, once true, stays
    true. *)
Definition preserves {A} (I : GL.state -> Prop) (m : GL.M A) : Prop :=
  forall s, I s -> I (snd (m s)).

(** Calls that allocate the storage of a buffer. *)
Definition is_buffer_allocation (c : GL.call) : bool :=
  match c with
  | GL.BufferData _ _ _ => true
  | _ => false
  end.

(** Calls that write data into the storage a buffer has. *)
Definition is_buffer_upload (c : GL.call) : bool :=
  match c with
  | GL.BufferSubData _ _ _ _ => true
  | _ => false
  end.

(** The two uploads made for a segment: all its vertices, then all its
    indices, each from the start of the buffer. *)
Definition uploads_of (cfg : BuildConfig) (l : ImDrawList) : list GL.call :=
  [ GL.BufferSubData GL.ARRAY_BUFFER 0 (vtx_bytes l) (VtxData (VtxBuffer l));
    GL.BufferSubData GL.ELEMENT_ARRAY_BUFFER 0 (idx_bytes cfg l)
      (IdxData (IdxBuffer l)) ].

(** The calls made in the loop over the segments only: draws, buffer
    allocations and uploads. *)
Definition is_segment_call (c : GL.call) : bool :=
  is_draw_call c || is_buffer_allocation c || is_buffer_upload c.

(** [b] with another saved texture. *)
Definition with_lastTexture (t : Z) (b : GLBackup) : GLBackup :=
  mkGLBackup (lastActiveTexture b) (lastProgram b) t (lastArrayBuffer b)
    (lastElementArrayBuffer b) (lastVertexArray b) (lastBlendSrcRgb b)
    (lastBlendDstRgb b) (lastBlendSrcAlpha b) (lastBlendDstAlpha b)
    (lastBlendEquationRgb b) (lastBlendEquationAlpha b) (lastViewport b)
    (lastScissorBox b) (lastEnableBlend b) (lastEnableCullFace b)
    (lastEnableDepthTest b) (lastEnableScissorTest b).


(** The stencil test is disabled. *)
Definition stencil_off (s : GL.state) : Prop := GL.enabled s GL.STENCIL_TEST = false.

Lemma events_update_IO_current (e : InputEvent) (g : ImGui) :
  events_of (ImGuiApi.update_IO (io_add_event e) g) (CurrentContext g)
  = events_of g (CurrentContext g) ++ [e].
Proof.
  unfold events_of, ImGuiApi.update_IO, ImGuiApi.update_current, ImGuiApi.current.
  simpl. rewrite fn_lookup_insert. reflexivity.
Qed.

Lemma contexts_update_current_other f (g : ImGui) (c : Z) :
  c <> CurrentContext g ->
  contexts (ImGuiApi.update_current f g) c = contexts g c.
Proof.
  intros Hc. unfold ImGuiApi.update_current. simpl.
  apply fn_lookup_insert_ne. congruence.
Qed.

Lemma contexts_update_current_same f (g : ImGui) :
  contexts (ImGuiApi.update_current f g) (CurrentContext g)
  = f (contexts g (CurrentContext g)).
Proof. unfold ImGuiApi.update_current. simpl. apply fn_lookup_insert. Qed.

Lemma land_pow2 (z k : Z) :
  0 <= k -> Z.land z (2 ^ k) = if Z.testbit z k then 2 ^ k else 0.
Proof.
  intros Hk. apply Z.bits_inj'. intros n Hn.
  rewrite Z.land_spec, Z.pow2_bits_eqb by lia.
  destruct (Z.eqb_spec k n) as [->|Hne].
  - destruct (Z.testbit z n) eqn:E; simpl.
    + rewrite Z.pow2_bits_eqb, Z.eqb_refl by lia. reflexivity.
    + rewrite Z.bits_0. reflexivity.
  - rewrite andb_false_r. destruct (Z.testbit z k).
    + rewrite Z.pow2_bits_eqb by lia. symmetry. apply Z.eqb_neq. exact Hne.
    + rewrite Z.bits_0. reflexivity.
Qed.

(** Testing a one-bit mask is reading that bit. *)
Lemma testFlag_bit (z k : Z) :
  0 <= k -> Qt.testFlag z (2 ^ k) = Z.testbit z k.
Proof.
  intros Hk. unfold Qt.testFlag. rewrite land_pow2 by exact Hk.
  destruct (Z.testbit z k); simpl.
  - assert (0 < 2 ^ k) by (apply Z.pow_pos_nonneg; lia).
    destruct (Z.eqb_spec (2 ^ k) 0); [lia | reflexivity].
  - reflexivity.
Qed.

Ltac unfold_io :=
  unfold events_of, ImGuiApi.AddKeyEvent, ImGuiApi.AddMouseButtonEvent,
    ImGuiApi.AddMouseWheelEvent, ImGuiApi.AddMousePosEvent,
    ImGuiApi.AddInputCharacter, ImGuiApi.update_IO, ImGuiApi.update_current,
    ImGuiApi.GetTextLineHeight, ImGuiApi.current, ImGuiApi.SetCurrentContext;
  simpl; rewrite ?fn_lookup_insert; simpl.

Section InputProperties.
Context {W : Type} `{WindowWrapper.t W}.
Variable cfg : BuildConfig.
Variable QObject_eventFilter : Z -> QEvent -> bool.

Lemma onMousePressedChange_events (r : ImGuiRenderer W) (e : QMouseEvent) (g : ImGui) :
  events_of (onMousePressedChange r e g) (mCtx r)
  = events_of g (mCtx r)
    ++ [ EvMouseButton ImGuiMouseButton_Left (Qt.testFlag (buttons e) Qt.LeftButton);
         EvMouseButton ImGuiMouseButton_Right (Qt.testFlag (buttons e) Qt.RightButton);
         EvMouseButton ImGuiMouseButton_Middle (Qt.testFlag (buttons e) Qt.MiddleButton) ].
Proof.
  unfold onMousePressedChange. unfold_io.
  rewrite <- !app_assoc. reflexivity.
Qed.

(** C9.  A press, release or double-click delivered for the bound window
    reports exactly three button events to the renderer's context, and the
    reported state of the left, right and middle button is bit 0, 1 and 2 of
    [buttons()]; [button()], the button that triggered the event, plays no
    part. *)
Theorem mouse_buttons_follow_mask (r : ImGuiRenderer W) (e : QMouseEvent) (g : ImGui) :
  mouse_type e <> MouseMove ->
  events_of (deliver cfg QObject_eventFilter r (QEvent_Mouse e) g) (mCtx r)
  = events_of g (mCtx r)
    ++ [ EvMouseButton ImGuiMouseButton_Left (Z.testbit (buttons e) 0);
         EvMouseButton ImGuiMouseButton_Right (Z.testbit (buttons e) 1);
         EvMouseButton ImGuiMouseButton_Middle (Z.testbit (buttons e) 2) ].
Proof.
  intros Hty. unfold deliver, eventFilter. cbn [snd].
  rewrite Z.eqb_refl.
  replace (match mouse_type e with
           | MouseMove => g
           | _ => onMousePressedChange r e g
           end) with (onMousePressedChange r e g)
    by (destruct (mouse_type e); congruence).
  rewrite onMousePressedChange_events.
  change Qt.LeftButton with (2 ^ 0). change Qt.RightButton with (2 ^ 1).
  change Qt.MiddleButton with (2 ^ 2).
  rewrite !testFlag_bit by lia. reflexivity.
Qed.

(** C2.  A wheel event delivered for the bound window reports one wheel
    event to the renderer's context.  On each axis on its own: with a zero
    pixel delta the scroll is the angle delta divided by 120; with a
    non-zero pixel delta the angle delta is not used and the scroll is the
    pixel delta divided by the text line height (horizontal) or by 5 times
    the text line height (vertical, computed in double precision and then
    narrowed to [float]). *)
Theorem wheel_scroll_per_axis (r : ImGuiRenderer W) (e : QWheelEvent) (g : ImGui) :
  let h := FontSize (contexts g (mCtx r)) in
  exists wx wy : F32.t,
    events_of (deliver cfg QObject_eventFilter r (QEvent_Wheel e) g) (mCtx r)
    = events_of g (mCtx r) ++ [EvMouseWheel wx wy]
    /\ (qx (pixelDelta e) = 0 ->
        wx = F32.div (F32.of_Z (qx (angleDelta e))) (F32.of_Z 120))
    /\ (qx (pixelDelta e) <> 0 ->
        wx = F32.div (F32.of_Z (qx (pixelDelta e))) h)
    /\ (qy (pixelDelta e) = 0 ->
        wy = F32.div (F32.of_Z (qy (angleDelta e))) (F32.of_Z 120))
    /\ (qy (pixelDelta e) <> 0 ->
        wy = F64.to_f32 (F64.div (F64.of_Z (qy (pixelDelta e)))
                                 (F64.mul (F64.of_Z 5) (F64.of_f32 h)))).
Proof.
  intros h.
  exists (wheel_x h e), (wheel_y h e). split.
  - unfold deliver, eventFilter. cbn [snd]. rewrite Z.eqb_refl.
    unfold onWheel. unfold_io. reflexivity.
  - unfold wheel_x, wheel_y.
    destruct (Z.eqb_spec (qx (pixelDelta e)) 0) as [Hx|Hx];
      destruct (Z.eqb_spec (qy (pixelDelta e)) 0) as [Hy|Hy];
      cbn [negb]; repeat split; intros; congruence.
Qed.

Lemma onKeyPressRelease_unmapped (r : ImGuiRenderer W) (e : QKeyEvent) (g : ImGui) :
  keyMap !! key e = None ->
  events_of (onKeyPressRelease cfg r e g) (mCtx r)
  = events_of g (mCtx r) ++ text_events e ++ modifier_events cfg (modifiers e).
Proof.
  intros Hk. unfold onKeyPressRelease, text_events, modifier_events.
  rewrite Hk.
  destruct (Q_OS_MAC cfg); destruct (key_type e);
    try destruct (text e) as [|c [|c' t]];
    unfold_io; rewrite <- ?app_assoc; reflexivity.
Qed.

(** C5, as the code has it.  A key press or release whose key code is not in
    the key-mapping table reports no press or release of a mapped key; what
    it does report is the typed character, when it is a press whose text is
    one code unit long, followed by the four modifier states. *)
Theorem unmapped_key_reports_text_and_modifiers
    (r : ImGuiRenderer W) (e : QKeyEvent) (g : ImGui) :
  key_type e <> ShortcutOverride ->
  keyMap !! key e = None ->
  events_of (deliver cfg QObject_eventFilter r (QEvent_Key e) g) (mCtx r)
  = events_of g (mCtx r) ++ text_events e ++ modifier_events cfg (modifiers e).
Proof.
  intros Hty Hk. unfold deliver, eventFilter. cbn [snd]. rewrite Z.eqb_refl.
  replace (match key_type e with
           | ShortcutOverride => g
           | _ => onKeyPressRelease cfg r e g
           end) with (onKeyPressRelease cfg r e g)
    by (destruct (key_type e); congruence).
  apply onKeyPressRelease_unmapped. exact Hk.
Qed.

(** C10.  The filter's result is the base class's result for the same
    arguments, whatever the event; and an event watched on another object
    than the bound window leaves the library state as it is. *)
Theorem eventFilter_defers_to_base
    (r : ImGuiRenderer W) (watched : Z) (event : QEvent) (g : ImGui) :
  fst (eventFilter cfg QObject_eventFilter r watched event g)
  = QObject_eventFilter watched event
  /\ (watched <> WindowWrapper.object (mWindow r) ->
      snd (eventFilter cfg QObject_eventFilter r watched event g) = g).
Proof.
  split; [reflexivity|].
  intros Hw. unfold eventFilter. cbn [snd].
  destruct (Z.eqb_spec watched (WindowWrapper.object (mWindow r))); [contradiction|].
  reflexivity.
Qed.

End InputProperties.

(** A release of the left button while the right and middle ones are held:
    the mask is [RightButton | MiddleButton]. *)
Lemma mouse_buttons_follow_mask_witness :
  MouseButtonRelease <> MouseMove
  /\ events_of (deliver Examples.desktop QObject_eventFilter_default
                 (Examples.renderer 40 1)
                 (QEvent_Mouse (mkQMouseEvent MouseButtonRelease Qt.LeftButton 6))
                 (Examples.imgui 2)) 1
     = [ EvMouseButton ImGuiMouseButton_Left false;
         EvMouseButton ImGuiMouseButton_Right true;
         EvMouseButton ImGuiMouseButton_Middle true ].
Proof.
  split; [discriminate|].
  apply (mouse_buttons_follow_mask Examples.desktop QObject_eventFilter_default
           (Examples.renderer 40 1)
           (mkQMouseEvent MouseButtonRelease Qt.LeftButton 6) (Examples.imgui 2)).
  discriminate.
Defined.

(** One notch of a wheel: 120 eighths of a degree scroll by exactly one
    line; and a trackpad reporting 26 pixels on both axes, with a text line
    13 pixels high, scrolls by 2 horizontally and by 0.4 vertically. *)
Lemma wheel_scroll_per_axis_witness :
  (exists wx wy : F32.t,
     events_of (deliver Examples.desktop QObject_eventFilter_default
                  (Examples.renderer 40 1)
                  (QEvent_Wheel (mkQWheelEvent (mkQPoint 0 0) (mkQPoint 0 120)))
                  (Examples.imgui 2)) 1
     = [EvMouseWheel wx wy]
     /\ wx = F32.zero /\ wy = F32.of_Z 1)
  /\ (exists wx wy : F32.t,
     events_of (deliver Examples.desktop QObject_eventFilter_default
                  (Examples.renderer 40 1)
                  (QEvent_Wheel (mkQWheelEvent (mkQPoint 26 26) (mkQPoint 240 240)))
                  (Examples.imgui 2)) 1
     = [EvMouseWheel wx wy]
     /\ wx = F32.of_Z 2 /\ wy = F32.div (F32.of_Z 2) (F32.of_Z 5)).
Proof.
  split.
  - destruct (wheel_scroll_per_axis Examples.desktop QObject_eventFilter_default
                (Examples.renderer 40 1)
                (mkQWheelEvent (mkQPoint 0 0) (mkQPoint 0 120)) (Examples.imgui 2))
      as (wx & wy & Hev & Hx & _ & Hy & _).
    exists wx, wy. split; [exact Hev|].
    split; [rewrite Hx by reflexivity | rewrite Hy by reflexivity];
      vm_compute; reflexivity.
  - destruct (wheel_scroll_per_axis Examples.desktop QObject_eventFilter_default
                (Examples.renderer 40 1)
                (mkQWheelEvent (mkQPoint 26 26) (mkQPoint 240 240)) (Examples.imgui 2))
      as (wx & wy & Hev & _ & Hx & _ & Hy).
    exists wx, wy. split; [exact Hev|].
    split; [rewrite Hx by discriminate | rewrite Hy by discriminate];
      vm_compute; reflexivity.
Defined.

(** C5 as the specification words it does not hold: pressing B, which the
    table does not map, with the text "b" reports five events. *)
Lemma unmapped_key_is_not_ignored :
  keyMap !! Qt.Key_B = None
  /\ events_of (deliver Examples.desktop QObject_eventFilter_default
                 (Examples.renderer 40 1)
                 (QEvent_Key (mkQKeyEvent KeyPress Qt.Key_B 0 [0x62]))
                 (Examples.imgui 2)) 1
     <> events_of (Examples.imgui 2) 1.
Proof.
  split; [vm_compute; reflexivity|].
  vm_compute. discriminate.
Qed.

Lemma unmapped_key_reports_text_and_modifiers_witness :
  KeyPress <> ShortcutOverride
  /\ keyMap !! Qt.Key_B = None
  /\ events_of (deliver Examples.desktop QObject_eventFilter_default
                 (Examples.renderer 40 1)
                 (QEvent_Key (mkQKeyEvent KeyPress Qt.Key_B Qt.ShiftModifier [0x42]))
                 (Examples.imgui 2)) 1
     = [ EvInputCharacter 0x42;
         EvKey ImGuiKey_ModCtrl false; EvKey ImGuiKey_ModShift true;
         EvKey ImGuiKey_ModAlt false; EvKey ImGuiKey_ModSuper false ].
Proof.
  split; [discriminate|]. split; [vm_compute; reflexivity|].
  apply (unmapped_key_reports_text_and_modifiers Examples.desktop
           QObject_eventFilter_default (Examples.renderer 40 1)
           (mkQKeyEvent KeyPress Qt.Key_B Qt.ShiftModifier [0x42]) (Examples.imgui 2)).
  - discriminate.
  - vm_compute; reflexivity.
Defined.

(** A key press watched on object 41 while the renderer is bound to the
    window 40. *)
Lemma eventFilter_defers_to_base_witness :
  41 <> WindowWrapper.object (mWindow (Examples.renderer 40 1))
  /\ eventFilter Examples.desktop QObject_eventFilter_default
       (Examples.renderer 40 1) 41
       (QEvent_Key (mkQKeyEvent KeyPress Qt.Key_A 0 [0x61])) (Examples.imgui 2)
     = (false, Examples.imgui 2).
Proof.
  split; [discriminate|].
  destruct (eventFilter_defers_to_base Examples.desktop QObject_eventFilter_default
              (Examples.renderer 40 1) 41
              (QEvent_Key (mkQKeyEvent KeyPress Qt.Key_A 0 [0x61])) (Examples.imgui 2))
    as [Hres Hstate].
  apply injective_projections; [exact Hres | apply Hstate; discriminate].
Defined.

(* ===================================================================== *)
(** ** The call history *)
(* ===================================================================== *)

Lemma bind_snd {A B} (m : GL.M A) (k : A -> GL.M B) (s : GL.state) :
  snd (GL.bind m k s) = snd (k (fst (m s)) (snd (m s))).
Proof. unfold GL.bind. destruct (m s). reflexivity. Qed.

(** A call changes the part of the state it is about and is appended to
    the history. *)
Lemma effect_calls (c : GL.call) (s : GL.state) :
  GL.calls (GL.effect c s) = GL.calls s.
Proof.
  destruct c; cbn; try reflexivity.
  - destruct ((w <? 0) || (h <? 0)); reflexivity.
  - destruct ((w <? 0) || (h <? 0)); reflexivity.
  - destruct (GL.vertex_array_binding s =? array); reflexivity.
  - destruct target; reflexivity.
Qed.

Lemma issue_calls (c : GL.call) (s : GL.state) :
  GL.calls (snd (GL.issue c s)) = GL.calls s ++ [c].
Proof. unfold GL.issue. cbn. rewrite effect_calls. reflexivity. Qed.

(* ===================================================================== *)
(** ** Properties of the rasterizer: skipped work *)
(* ===================================================================== *)

Section RasterizerSkips.
Context {W : Type}.
Variable cfg : BuildConfig.

(** C7.  With a framebuffer 0 wide or 0 high [renderDrawList] returns at
    once: the graphics context, its call history included, the draw data
    and the renderer are what they were. *)
Theorem zero_framebuffer_skips_render
    (g : ImGui) (drawData : ImDrawData) (r : ImGuiRenderer W) (s : GL.state) :
  fbWidth_of (ImGuiApi.GetIO g) = 0 \/ fbHeight_of (ImGuiApi.GetIO g) = 0 ->
  renderDrawList cfg g drawData r s = ((r, drawData), s).
Proof.
  intros Hfb. unfold renderDrawList.
  destruct Hfb as [-> | ->]; rewrite ?orb_true_r; reflexivity.
Qed.







End RasterizerSkips.

(* ===================================================================== *)
(** ** Properties of the rasterizer: buffer capacities *)
(* ===================================================================== *)

Section BufferCapacity.
Context {W : Type}.
Variable cfg : BuildConfig.

Lemma upload_buffers_sizes (l : ImDrawList) (r : ImGuiRenderer W) (s : GL.state) :
  mVertexBufferSize (fst (upload_buffers cfg l r s))
  = Z.max (mVertexBufferSize r) (vtx_bytes l)
  /\ mIndexBufferSize (fst (upload_buffers cfg l r s))
     = Z.max (mIndexBufferSize r) (idx_bytes cfg l).
Proof.
  unfold upload_buffers, vtx_bytes, idx_bytes.
  destruct (Z.ltb_spec (mVertexBufferSize r)
              (Z.of_nat (length (VtxBuffer l)) * sizeof_ImDrawVert)) as [Hv|Hv];
    cbn;
    destruct (Z.ltb_spec (mIndexBufferSize r)
                (Z.of_nat (length (IdxBuffer l)) * sizeof_ImDrawIdx cfg)) as [Hi|Hi];
    cbn; lia.
Qed.

Lemma render_cmd_lists_sizes drawData fbWidth fbHeight vao clipOff clipScale
    (lists : list ImDrawList) (r : ImGuiRenderer W) (s : GL.state) :
  let r' := fst (render_cmd_lists cfg drawData fbWidth fbHeight vao clipOff
                   clipScale lists r s) in
  mVertexBufferSize r'
  = fold_left Z.max (map vtx_bytes lists) (mVertexBufferSize r)
  /\ mIndexBufferSize r'
     = fold_left Z.max (map (idx_bytes cfg) lists) (mIndexBufferSize r).
Proof.
  revert r s. induction lists as [|l lists IH]; intros r s; [split; reflexivity|].
  cbn [render_cmd_lists map fold_left]. unfold GL.bind.
  pose proof (upload_buffers_sizes l r s) as [Hv Hi].
  destruct (upload_buffers cfg l r s) as [r1 s1]. cbn [fst] in Hv, Hi.
  destruct (render_cmds cfg r1 drawData fbWidth fbHeight vao clipOff clipScale
              (CmdBuffer l) s1) as [[] s2].
  rewrite <- Hv, <- Hi. apply IH.
Qed.

Lemma fold_max_ge (xs : list Z) (a : Z) : a <= fold_left Z.max xs a.
Proof.
  revert a. induction xs as [|x xs IH]; intros a; cbn [fold_left]; [lia|].
  specialize (IH (Z.max a x)). lia.
Qed.

Lemma ScaleClipRects_bytes (sc : ImVec2) (d : ImDrawData) :
  map vtx_bytes (CmdLists (ScaleClipRects sc d)) = map vtx_bytes (CmdLists d)
  /\ map (idx_bytes cfg) (CmdLists (ScaleClipRects sc d))
     = map (idx_bytes cfg) (CmdLists d).
Proof.
  unfold ScaleClipRects. cbn [CmdLists]. rewrite !map_map. split; reflexivity.
Qed.

(** The capacities after one invocation. *)
Lemma renderDrawList_sizes (g : ImGui) (drawData : ImDrawData)
    (r : ImGuiRenderer W) (s : GL.state) :
  let r' := fst (fst (renderDrawList cfg g drawData r s)) in
  let drawn := if (fbWidth_of (ImGuiApi.GetIO g) =? 0)
                  || (fbHeight_of (ImGuiApi.GetIO g) =? 0)
               then [] else CmdLists drawData in
  mVertexBufferSize r' = fold_left Z.max (map vtx_bytes drawn) (mVertexBufferSize r)
  /\ mIndexBufferSize r'
     = fold_left Z.max (map (idx_bytes cfg) drawn) (mIndexBufferSize r).
Proof.
  unfold renderDrawList.
  destruct ((fbWidth_of (ImGuiApi.GetIO g) =? 0)
            || (fbHeight_of (ImGuiApi.GetIO g) =? 0)); [split; reflexivity|].
  cbv zeta. unfold GL.bind.
  destruct (backup_gl_state s) as [last s1].
  destruct (GL.glGenVertexArrays1 s1) as [vao s2].
  destruct (setupRenderStates _ _ _ _ vao s2) as [[] s3].
  match goal with
  | |- context [render_cmd_lists cfg ?d ?w ?h ?v ?o ?c ?ls r s3] =>
      pose proof (render_cmd_lists_sizes d w h v o c ls r s3) as Hs;
      destruct (render_cmd_lists cfg d w h v o c ls r s3) as [r' s4]
  end.
  cbn [fst] in Hs.
  destruct (GL.glDeleteVertexArrays1 vao s4) as [[] s5].
  destruct (restore_gl_state last s5) as [[] s6].
  cbn [fst GL.ret].
  destruct (ScaleClipRects_bytes (DisplayFramebufferScale (ImGuiApi.GetIO g)) drawData)
    as [Ev Ei].
  rewrite Ev, Ei in Hs. exact Hs.
Qed.

(** C8.  Uploading a segment changes a capacity only when the segment's
    data is larger, and then to the size of that data; an invocation leaves
    each capacity at the largest of its old value and the sizes of the
    segments it drew, and nothing else in it touches the capacities; over any
    run of invocations neither capacity ever decreases. *)
Theorem buffer_capacity_never_shrinks :
  (forall (l : ImDrawList) (r : ImGuiRenderer W) (s : GL.state),
      mVertexBufferSize (fst (upload_buffers cfg l r s))
      = (if mVertexBufferSize r <? vtx_bytes l then vtx_bytes l
         else mVertexBufferSize r)
      /\ mIndexBufferSize (fst (upload_buffers cfg l r s))
         = (if mIndexBufferSize r <? idx_bytes cfg l then idx_bytes cfg l
            else mIndexBufferSize r))
  /\ (forall (g : ImGui) (drawData : ImDrawData) (r : ImGuiRenderer W) (s : GL.state),
      let r' := fst (fst (renderDrawList cfg g drawData r s)) in
      let drawn := if (fbWidth_of (ImGuiApi.GetIO g) =? 0)
                      || (fbHeight_of (ImGuiApi.GetIO g) =? 0)
                   then [] else CmdLists drawData in
      mVertexBufferSize r'
      = fold_left Z.max (map vtx_bytes drawn) (mVertexBufferSize r)
      /\ mIndexBufferSize r'
         = fold_left Z.max (map (idx_bytes cfg) drawn) (mIndexBufferSize r))
  /\ (forall (frames : list (ImGui * ImDrawData * GL.state)) (r : ImGuiRenderer W),
      mVertexBufferSize r <= mVertexBufferSize (render_frames cfg frames r)
      /\ mIndexBufferSize r <= mIndexBufferSize (render_frames cfg frames r)).
Proof.
  split; [|split].
  - intros l r s. destruct (upload_buffers_sizes l r s) as [-> ->].
    destruct (Z.ltb_spec (mVertexBufferSize r) (vtx_bytes l));
      destruct (Z.ltb_spec (mIndexBufferSize r) (idx_bytes cfg l)); lia.
  - intros g drawData r s. apply renderDrawList_sizes.
  - intros frames. induction frames as [|[[g d] s] frames IH]; intros r.
    + cbn. lia.
    + cbn [render_frames].
      destruct (renderDrawList_sizes g d r s) as [Hv Hi].
      specialize (IH (fst (fst (renderDrawList cfg g d r s)))).
      rewrite Hv, Hi in IH at 1.
      match type of IH with
      | fold_left Z.max ?xs ?a <= _ /\ fold_left Z.max ?ys ?b <= _ =>
          pose proof (fold_max_ge xs a); pose proof (fold_max_ge ys b)
      end.
      lia.
Qed.

End BufferCapacity.

(* ===================================================================== *)
(** ** Properties of the floating-point operations *)
(* ===================================================================== *)

Section FloatSign.
Variables prec emax : Z.

Lemma sign_clear_leb (x : spec_float) : FloatFormat.sign_clear x -> SFleb (S754_zero false) x = true.
Proof. destruct x as [[]|[]| |[] m e]; simpl; intros []; reflexivity. Qed.

Lemma iter_pos_invariant {A} (P : A -> Prop) (f : A -> A) :
  (forall x, P x -> P (f x)) -> forall p x, P x -> P (SpecFloat.iter_pos f p x).
Proof.
  intros Hf p. induction p as [p IH|p IH|]; intros x Hx; cbn [SpecFloat.iter_pos]; auto.
Qed.

Lemma shr_1_nonneg (mrs : shr_record) : 0 <= shr_m mrs -> 0 <= shr_m (shr_1 mrs).
Proof.
  destruct mrs as [m rb sb]. cbn [shr_m].
  destruct m as [|[p|p|]|p]; cbn; lia.
Qed.

Lemma shr_fexp_nonneg (m e : Z) (l : location) :
  0 <= m -> 0 <= shr_m (fst (shr_fexp prec emax m e l)).
Proof.
  intros Hm. unfold shr_fexp, shr.
  assert (H0 : 0 <= shr_m (shr_record_of_loc m l))
    by (destruct l as [|[]]; exact Hm).
  destruct (fexp prec emax (Zdigits2 m + e) - e) as [|p|p]; cbn [fst]; try exact H0.
  apply (iter_pos_invariant (fun mrs => 0 <= shr_m mrs)); [apply shr_1_nonneg | exact H0].
Qed.

Lemma round_nearest_even_nonneg (m : Z) (l : location) :
  0 <= m -> 0 <= round_nearest_even m l.
Proof.
  intros Hm. unfold round_nearest_even.
  destruct l as [|[]]; try destruct (Z.even m); lia.
Qed.

(** Rounding a non-negative mantissa with a clear sign bit never sets it. *)
Lemma binary_round_aux_sign_clear (m e : Z) (l : location) :
  0 <= m -> FloatFormat.sign_clear (binary_round_aux prec emax false m e l).
Proof.
  intros Hm. unfold binary_round_aux.
  pose proof (shr_fexp_nonneg m e l Hm) as H1.
  destruct (shr_fexp prec emax m e l) as [mrs' e']. cbn [fst] in H1.
  pose proof (shr_fexp_nonneg _ e' loc_Exact
                (round_nearest_even_nonneg _ (loc_of_shr_record mrs') H1)) as H2.
  destruct (shr_fexp prec emax
              (round_nearest_even (shr_m mrs') (loc_of_shr_record mrs')) e' loc_Exact)
    as [mrs'' e''].
  cbn [fst] in H2.
  destruct (shr_m mrs'') as [|p|p]; [exact I| |lia].
  destruct (e'' <=? emax - prec); exact I.
Qed.

Lemma binary_round_sign_clear (m : positive) (e : Z) :
  FloatFormat.sign_clear (binary_round prec emax false m e).
Proof.
  unfold binary_round.
  destruct (shl_align m e (fexp prec emax (Z.pos (digits2_pos m) + e))) as [mz ez].
  apply binary_round_aux_sign_clear. lia.
Qed.

Lemma binary_normalize_sign_clear (m e : Z) :
  0 <= m -> FloatFormat.sign_clear (binary_normalize prec emax m e false).
Proof.
  intros Hm. destruct m as [|p|p]; cbn; [exact I | apply binary_round_sign_clear | lia].
Qed.

Lemma convert_sign_clear (x : spec_float) :
  FloatFormat.sign_clear x -> FloatFormat.sign_clear (FloatFormat.convert prec emax x).
Proof.
  destruct x as [[]|[]| |[] m e]; cbn; intros Hx; try contradiction; try exact I.
  apply binary_round_sign_clear.
Qed.

(** The number of binary digits of a mantissa brackets it. *)
Lemma digits2_pos_bounds (m : positive) :
  2 ^ (Z.pos (digits2_pos m) - 1) <= Z.pos m < 2 ^ Z.pos (digits2_pos m).
Proof.
  induction m as [p IH|p IH|]; cbn [digits2_pos].
  - rewrite Pos2Z.inj_succ.
    replace (Z.succ (Z.pos (digits2_pos p)) - 1) with (Z.succ (Z.pos (digits2_pos p) - 1)) by lia.
    rewrite !Z.pow_succ_r by lia. lia.
  - rewrite Pos2Z.inj_succ.
    replace (Z.succ (Z.pos (digits2_pos p)) - 1) with (Z.succ (Z.pos (digits2_pos p) - 1)) by lia.
    rewrite !Z.pow_succ_r by lia. lia.
  - cbn. lia.
Qed.

Lemma iter_xO (m d : positive) : Z.pos (Pos.iter xO m d) = Z.pos m * 2 ^ Z.pos d.
Proof.
  induction d as [|d IH] using Pos.peano_ind.
  - cbn. lia.
  - rewrite Pos.iter_succ, Pos2Z.inj_succ, Z.pow_succ_r by lia.
    rewrite Pos2Z.inj_xO, IH. lia.
Qed.

(** Aligning a mantissa to a smaller exponent scales it by the power of two
    in between. *)
Lemma shl_align_mantissa (m : positive) (e e' : Z) :
  e' <= e -> Z.pos (fst (shl_align m e e')) = Z.pos m * 2 ^ (e - e').
Proof.
  intros Hle. unfold shl_align.
  destruct (e' - e) as [|d|d] eqn:Hd; cbn [fst].
  - replace (e - e') with 0 by lia. lia.
  - lia.
  - rewrite iter_xO. replace (e - e') with (Z.pos d) by lia. reflexivity.
Qed.

(** Subtracting a positive value from a finite one that is not smaller
    gives a value whose sign bit is clear. *)
Lemma SFsub_sign_clear (a b : spec_float) :
  valid_binary prec emax a = true -> valid_binary prec emax b = true ->
  FloatFormat.is_finite a = true ->
  SFltb (S754_zero false) b = true -> SFleb b a = true ->
  FloatFormat.sign_clear (SFsub prec emax a b).
Proof.
  intros Va Vb Fa Hb Hle.
  destruct b as [sb|sb| |sb mb eb]; try discriminate Hb.
  { destruct sb; [discriminate Hb|].
    destruct a as [sa|sa| |sa ma ea]; try discriminate Fa.
    - discriminate Hle.
    - destruct sa; discriminate Hle. }
  destruct sb; [discriminate Hb|].
  destruct a as [sa|sa| |sa ma ea]; try discriminate Fa; [discriminate Hle|].
  destruct sa; [discriminate Hle|].
  cbn [SFsub cond_Zopp]. apply binary_normalize_sign_clear.
  rewrite !shl_align_mantissa by lia.
  unfold SFleb, SFcompare in Hle.
  cbn [valid_binary] in Va, Vb. unfold bounded, canonical_mantissa, fexp in Va, Vb.
  apply andb_true_iff in Va as [Va _]. apply andb_true_iff in Vb as [Vb _].
  apply Z.eqb_eq in Va. apply Z.eqb_eq in Vb.
  pose proof (digits2_pos_bounds ma) as [Hma _].
  pose proof (digits2_pos_bounds mb) as [_ Hmb].
  destruct (Z.compare_spec eb ea) as [Heq|Hlt|Hgt]; [| |discriminate Hle].
  - subst eb. rewrite Z.min_id, Z.sub_diag. cbn [Z.pow].
    rewrite Pos.compare_cont_spec in Hle. cbn [Pos.switch_Eq] in Hle.
    destruct (Pos.compare_spec mb ma); try discriminate Hle; lia.
  - rewrite Z.min_r by lia. rewrite Z.sub_diag. cbn [Z.pow].
    assert (Hda : Z.pos (digits2_pos ma) = prec) by lia.
    assert (Hdb : Z.pos (digits2_pos mb) <= prec) by lia.
    assert (Hp1 : 2 ^ 1 <= 2 ^ (ea - eb)) by (apply Z.pow_le_mono_r; lia).
    assert (Hp2 : 2 ^ Z.pos (digits2_pos mb) <= 2 ^ prec)
      by (apply Z.pow_le_mono_r; lia).
    assert (Hp3 : 2 ^ prec = 2 ^ (prec - 1) * 2 ^ 1)
      by (rewrite <- Z.pow_add_r by lia; f_equal; lia).
    rewrite Hda in Hma. nia.
Qed.

(** *** Rounding: validity, range and sign of the result *)

Hypothesis Hprec : 0 < prec.

Lemma fexp_mono (x y : Z) : x <= y -> fexp prec emax x <= fexp prec emax y.
Proof. unfold fexp. lia. Qed.

Lemma fexp_ge_emin (x : Z) : emin prec emax <= fexp prec emax x.
Proof. unfold fexp. lia. Qed.

Lemma Zdigits2_nonneg (m : Z) : 0 <= Zdigits2 m.
Proof. destruct m; cbn; lia. Qed.

Lemma Zdigits2_bounds (m : Z) :
  0 < m -> 2 ^ (Zdigits2 m - 1) <= m < 2 ^ Zdigits2 m.
Proof. destruct m as [|p|p]; try lia. intros _. apply digits2_pos_bounds. Qed.

Lemma Zdigits2_pos (m : Z) : 0 < m -> 0 < Zdigits2 m.
Proof. destruct m; cbn; lia. Qed.

(** below a power of two: at most that many digits *)
Lemma Zdigits2_le_of_lt (m k : Z) : 0 <= k -> 0 <= m < 2 ^ k -> Zdigits2 m <= k.
Proof.
  intros Hk [H0 Hm]. destruct (Z.eq_dec m 0) as [->|Hne]; [cbn; lia|].
  destruct (Zdigits2_bounds m ltac:(lia)) as [Hlo _].
  destruct (Z_le_gt_dec (Zdigits2 m) k) as [|Hgt]; [assumption|exfalso].
  assert (2 ^ k <= 2 ^ (Zdigits2 m - 1)) by (apply Z.pow_le_mono_r; lia). lia.
Qed.

(** at least a power of two: more digits than the exponent *)
Lemma Zdigits2_gt_of_ge (m k : Z) : 0 <= k -> 2 ^ k <= m -> k < Zdigits2 m.
Proof.
  intros Hk Hm. assert (0 < 2 ^ k) by (apply Z.pow_pos_nonneg; lia).
  destruct (Zdigits2_bounds m ltac:(lia)) as [_ Hhi].
  destruct (Z_lt_le_dec k (Zdigits2 m)) as [|Hle]; [assumption|exfalso].
  assert (2 ^ Zdigits2 m <= 2 ^ k) by (apply Z.pow_le_mono_r; lia). lia.
Qed.

Lemma Zdigits2_mono (a b : Z) : 0 <= a <= b -> Zdigits2 a <= Zdigits2 b.
Proof.
  intros [Ha Hab]. destruct (Z.eq_dec a 0) as [->|Hne]; [apply Zdigits2_nonneg|].
  apply Zdigits2_le_of_lt; [apply Zdigits2_nonneg|].
  destruct (Zdigits2_bounds b ltac:(lia)). lia.
Qed.

Lemma Zdigits2_succ (m : Z) : 0 <= m -> Zdigits2 (m + 1) <= Zdigits2 m + 1.
Proof.
  intros Hm. apply Zdigits2_le_of_lt; [pose proof (Zdigits2_nonneg m); lia|].
  split; [lia|].
  rewrite Z.pow_add_r by (try apply Zdigits2_nonneg; lia).
  destruct (Z.eq_dec m 0) as [->|Hne]; [cbn; lia|].
  destruct (Zdigits2_bounds m ltac:(lia)). lia.
Qed.

(** digits of a right shift *)
Lemma Zdigits2_div_pow2 (m n : Z) :
  0 <= n -> 0 < m / 2 ^ n -> Zdigits2 (m / 2 ^ n) = Zdigits2 m - n.
Proof.
  intros Hn Hq.
  assert (Hp : 0 < 2 ^ n) by (apply Z.pow_pos_nonneg; lia).
  assert (Hm : 2 ^ n <= m).
  { destruct (Z_le_gt_dec (2 ^ n) m); [assumption|].
    destruct (Z_le_gt_dec 0 m).
    - rewrite Z.div_small in Hq by lia. lia.
    - assert (m / 2 ^ n < 0) by (apply Z.div_lt_upper_bound; lia). lia. }
  destruct (Zdigits2_bounds m ltac:(lia)) as [Hlo Hhi].
  pose proof (Zdigits2_gt_of_ge m n Hn Hm) as Hd.
  apply Z.le_antisymm.
  - apply Zdigits2_le_of_lt; [lia|]. split; [lia|].
    apply Z.div_lt_upper_bound; [lia|].
    rewrite <- Z.pow_add_r by lia. replace (n + (Zdigits2 m - n)) with (Zdigits2 m) by lia.
    exact Hhi.
  - assert (Zdigits2 m - n - 1 < Zdigits2 (m / 2 ^ n)); [|lia].
    apply Zdigits2_gt_of_ge; [lia|].
    apply Z.div_le_lower_bound; [lia|].
    rewrite <- Z.pow_add_r by lia. replace (n + (Zdigits2 m - n - 1)) with (Zdigits2 m - 1) by lia.
    exact Hlo.
Qed.

Lemma shr_1_m (mrs : shr_record) : 0 <= shr_m mrs -> shr_m (shr_1 mrs) = shr_m mrs / 2.
Proof.
  destruct mrs as [m rb sb]. cbn [shr_m].
  destruct m as [|[p|p|]|p]; cbn [shr_1 shr_m]; intros H; try lia.
  - reflexivity.
  - rewrite Pos2Z.inj_xI. apply Z.div_unique with 1; lia.
  - rewrite Pos2Z.inj_xO. apply Z.div_unique with 0; lia.
  - reflexivity.
Qed.

Lemma iter_shr_1_m (p : positive) (mrs : shr_record) :
  0 <= shr_m mrs ->
  shr_m (SpecFloat.iter_pos shr_1 p mrs) = shr_m mrs / 2 ^ Z.pos p.
Proof.
  revert mrs. induction p as [p IH|p IH|]; intros mrs Hm; cbn [SpecFloat.iter_pos].
  - assert (H1 : 0 <= shr_m (shr_1 mrs)) by (rewrite shr_1_m by lia; apply Z.div_pos; lia).
    assert (Hp : 0 < 2 ^ Z.pos p) by (apply Z.pow_pos_nonneg; lia).
    assert (H2 : 0 <= shr_m (SpecFloat.iter_pos shr_1 p (shr_1 mrs)))
      by (rewrite IH by lia; apply Z.div_pos; lia).
    rewrite IH, IH, shr_1_m by lia.
    rewrite !Z.div_div by lia. f_equal.
    rewrite (Pos2Z.inj_xI p).
    replace (2 * Z.pos p + 1) with (Z.succ (2 * Z.pos p)) by lia.
    rewrite Z.pow_succ_r, Z.pow_twice_r by lia. ring.
  - assert (Hp : 0 < 2 ^ Z.pos p) by (apply Z.pow_pos_nonneg; lia).
    assert (H2 : 0 <= shr_m (SpecFloat.iter_pos shr_1 p mrs))
      by (rewrite IH by lia; apply Z.div_pos; lia).
    rewrite IH, IH by lia.
    rewrite !Z.div_div by lia. f_equal.
    rewrite (Pos2Z.inj_xO p).
    rewrite Z.pow_twice_r. ring.
  - rewrite shr_1_m by lia. reflexivity.
Qed.

(** what [shr_fexp] computes on a non-negative mantissa *)
Lemma shr_fexp_spec (m e : Z) (l : location) :
  0 <= m ->
  let n := Z.max 0 (fexp prec emax (Zdigits2 m + e) - e) in
  shr_m (fst (shr_fexp prec emax m e l)) = m / 2 ^ n
  /\ snd (shr_fexp prec emax m e l) = e + n.
Proof.
  intros Hm n. unfold shr_fexp, shr. subst n.
  assert (H0 : shr_m (shr_record_of_loc m l) = m) by (destruct l as [|[]]; reflexivity).
  destruct (fexp prec emax (Zdigits2 m + e) - e) as [|p|p]; cbn [fst snd].
  - cbn. rewrite H0, Z.div_1_r. lia.
  - rewrite iter_shr_1_m by lia. rewrite H0. rewrite Z.max_r by lia. split; reflexivity.
  - rewrite Z.max_l by lia. cbn. rewrite H0, Z.div_1_r. lia.
Qed.


Lemma Zdigits2_mul_pow2 (m n : Z) :
  0 < m -> 0 <= n -> Zdigits2 (m * 2 ^ n) = Zdigits2 m + n.
Proof.
  intros Hm Hn.
  assert (Hp : 0 < 2 ^ n) by (apply Z.pow_pos_nonneg; lia).
  destruct (Zdigits2_bounds m Hm) as [Hlo Hhi].
  pose proof (Zdigits2_pos m Hm) as Hd.
  apply Z.le_antisymm.
  - apply Zdigits2_le_of_lt; [lia|]. split; [nia|].
    rewrite Z.pow_add_r by lia. nia.
  - assert (Zdigits2 m + n - 1 < Zdigits2 (m * 2 ^ n)); [|lia].
    apply Zdigits2_gt_of_ge; [lia|].
    replace (Zdigits2 m + n - 1) with ((Zdigits2 m - 1) + n) by lia.
    rewrite Z.pow_add_r by lia. nia.
Qed.

(** after [shr_fexp] on a mantissa with enough digits *)
Lemma shr_fexp_canonical (m e : Z) (l : location) :
  0 <= m -> 0 <= fexp prec emax (Zdigits2 m + e) - e ->
  let m' := shr_m (fst (shr_fexp prec emax m e l)) in
  let e' := snd (shr_fexp prec emax m e l) in
  0 <= m'
  /\ e' = fexp prec emax (Zdigits2 m + e)
  /\ (0 < m' -> Zdigits2 m' + e' = Zdigits2 m + e)
  /\ (m' = 0 -> e' = emin prec emax /\ Zdigits2 m + e <= emin prec emax)
  /\ (m = 0 -> m' = 0).
Proof.
  intros Hm Hn m' e'.
  destruct (shr_fexp_spec m e l Hm) as [Hm' He']. fold m' in Hm'. fold e' in He'.
  rewrite Z.max_r in Hm', He' by lia.
  set (n := fexp prec emax (Zdigits2 m + e) - e) in *.
  assert (Hp : 0 < 2 ^ n) by (apply Z.pow_pos_nonneg; lia).
  split; [rewrite Hm'; apply Z.div_pos; lia|].
  split; [subst n; lia|].
  split; [|split; [|intros ->; rewrite Hm'; apply Z.div_0_l; lia]].
  - intros Hpos. rewrite Hm' in *. rewrite Zdigits2_div_pow2 by lia. lia.
  - intros H0. rewrite Hm' in H0.
    assert (Hlt : m < 2 ^ n).
    { destruct (Z_lt_le_dec m (2 ^ n)); [assumption|].
      assert (1 <= m / 2 ^ n) by (apply Z.div_le_lower_bound; lia). lia. }
    pose proof (Zdigits2_le_of_lt m n ltac:(lia) ltac:(lia)) as Hd.
    subst n. unfold fexp in *. lia.
Qed.

Lemma round_nearest_even_cases (m : Z) (l : location) :
  round_nearest_even m l = m \/ round_nearest_even m l = m + 1.
Proof.
  unfold round_nearest_even. destruct l as [|[]]; try destruct (Z.even m); auto.
Qed.

Lemma rounded_mono (sx : bool) (lo hi lo' hi' : Z) (x : spec_float) :
  lo' <= lo -> hi <= hi' -> FloatFormat.rounded prec emax sx lo hi x -> FloatFormat.rounded prec emax sx lo' hi' x.
Proof.
  intros Hlo Hhi. destruct x as [s|s| |s m e]; cbn [FloatFormat.rounded]; try tauto.
  - intros [Hs H]. split; [exact Hs|lia].
  - intros [Hs H]. split; [exact Hs|]. pose proof (fexp_mono (hi + 1) (hi' + 1)). lia.
  - intros (Hs & Hb & Hm). split; [exact Hs|]. split; [exact Hb|lia].
Qed.

Lemma binary_round_aux_rounded (sx : bool) (mx ex : Z) (lx : location) :
  0 <= mx -> 0 <= fexp prec emax (Zdigits2 mx + ex) - ex ->
  FloatFormat.rounded prec emax sx (Zdigits2 mx + ex) (Zdigits2 mx + ex)
    (binary_round_aux prec emax sx mx ex lx).
Proof.
  intros Hm Hn. unfold binary_round_aux.
  destruct (shr_fexp_canonical mx ex lx Hm Hn) as (H1 & He1 & Hmag1 & Hz1 & _).
  destruct (shr_fexp prec emax mx ex lx) as [mrs1 e1]. cbn [fst snd] in *.
  set (m1 := shr_m mrs1) in *.
  set (mr := round_nearest_even m1 (loc_of_shr_record mrs1)).
  assert (Hmr : mr = m1 \/ mr = m1 + 1) by apply round_nearest_even_cases.
  assert (Hmr0 : 0 <= mr) by lia.
  assert (Hdr : Zdigits2 m1 <= Zdigits2 mr <= Zdigits2 m1 + 1).
  { destruct Hmr as [->| ->]; [lia|].
    split; [apply Zdigits2_mono; lia | apply Zdigits2_succ; lia]. }
  assert (Hn2 : 0 <= fexp prec emax (Zdigits2 mr + e1) - e1).
  { destruct (Z.eq_dec m1 0) as [H0|H0].
    - destruct (Hz1 H0) as [-> _].
      pose proof (fexp_ge_emin (Zdigits2 mr + emin prec emax)). lia.
    - specialize (Hmag1 ltac:(lia)).
      assert (fexp prec emax (Zdigits2 m1 + e1) <= fexp prec emax (Zdigits2 mr + e1))
        by (apply fexp_mono; lia).
      rewrite Hmag1 in H. lia. }
  destruct (shr_fexp_canonical mr e1 loc_Exact Hmr0 Hn2) as (H2 & He2 & Hmag2 & Hz2 & Hkeep).
  destruct (shr_fexp prec emax mr e1 loc_Exact) as [mrs2 e2]. cbn [fst snd] in *.
  (* the magnitude after the first shift and the rounding *)
  assert (Hbound : Zdigits2 mr + e1 <= Z.max (Zdigits2 mx + ex) (emin prec emax) + 1
                   /\ (0 < mr -> Zdigits2 mx + ex <= Zdigits2 mr + e1)
                   /\ (mr = 0 -> Zdigits2 mx + ex <= emin prec emax)).
  { destruct (Z.eq_dec m1 0) as [H0|H0].
    - destruct (Hz1 H0) as [-> Hsmall]. rewrite H0 in Hdr. cbn in Hdr.
      repeat split; lia.
    - specialize (Hmag1 ltac:(lia)). repeat split; lia. }
  destruct Hbound as (Hup & Hdown & Hzero).
  destruct (shr_m mrs2) as [|m2|m2] eqn:Em2; cbn [FloatFormat.rounded]; [| |lia].
  - split; [reflexivity|]. destruct (Hz2 eq_refl) as [_ Hsmall].
    destruct (Z.eq_dec mr 0) as [H0|H0]; [apply Hzero; exact H0|].
    specialize (Hdown ltac:(lia)). lia.
  - specialize (Hmag2 ltac:(lia)). cbn [Zdigits2] in Hmag2.
    assert (Hmrpos : 0 < mr).
    { destruct (Z.eq_dec mr 0) as [H0|H0]; [|lia].
      specialize (Hkeep H0). lia. }
    specialize (Hdown Hmrpos).
    destruct (Z.leb_spec e2 (emax - prec)) as [Hle|Hgt]; cbn [FloatFormat.rounded].
    + split; [reflexivity|]. split; [|lia].
      unfold bounded, canonical_mantissa. apply andb_true_iff. split.
      * apply Z.eqb_eq. rewrite Hmag2. lia.
      * apply Z.leb_le. exact Hle.
    + split; [reflexivity|].
      assert (fexp prec emax (Zdigits2 mr + e1) <= fexp prec emax (Zdigits2 mx + ex + 1)).
      { destruct (Z.eq_dec m1 0) as [H0|H0].
        - destruct (Hz1 H0) as [-> _]. rewrite H0 in Hdr. cbn in Hdr.
          pose proof (fexp_ge_emin (Zdigits2 mx + ex + 1)).
          unfold fexp in *. lia.
        - specialize (Hmag1 ltac:(lia)). apply fexp_mono. lia. }
      lia.
Qed.

Lemma binary_round_rounded (sx : bool) (mx : positive) (ex : Z) :
  FloatFormat.rounded prec emax sx (Z.pos (digits2_pos mx) + ex) (Z.pos (digits2_pos mx) + ex)
    (binary_round prec emax sx mx ex).
Proof.
  unfold binary_round, shl_align.
  destruct (fexp prec emax (Z.pos (digits2_pos mx) + ex) - ex) as [|d|d] eqn:Hd.
  - apply (binary_round_aux_rounded sx (Z.pos mx) ex loc_Exact); cbn [Zdigits2]; lia.
  - apply (binary_round_aux_rounded sx (Z.pos mx) ex loc_Exact); cbn [Zdigits2]; lia.
  - assert (Hdig : Zdigits2 (Z.pos (Pos.iter xO mx d)) = Z.pos (digits2_pos mx) + Z.pos d).
    { rewrite iter_xO. rewrite Zdigits2_mul_pow2 by lia. reflexivity. }
    replace (Z.pos (digits2_pos mx) + ex)
      with (Zdigits2 (Z.pos (Pos.iter xO mx d))
            + fexp prec emax (Z.pos (digits2_pos mx) + ex)) at 1 2 by lia.
    apply binary_round_aux_rounded; [lia|].
    rewrite Hdig.
    replace (Z.pos (digits2_pos mx) + Z.pos d
             + fexp prec emax (Z.pos (digits2_pos mx) + ex))
      with (Z.pos (digits2_pos mx) + ex) by lia.
    lia.
Qed.

Lemma binary_normalize_rounded (m e : Z) (szero : bool) :
  m <> 0 ->
  FloatFormat.rounded prec emax (m <? 0) (Zdigits2 m + e) (Zdigits2 m + e)
    (binary_normalize prec emax m e szero).
Proof.
  destruct m as [|p|p]; cbn [binary_normalize Zdigits2]; intros Hm;
    [contradiction | apply binary_round_rounded | apply binary_round_rounded].
Qed.

(** Division of finite values. *)
Lemma SFdiv_rounded (sx : bool) (mx : positive) (ex : Z)
    (sy : bool) (my : positive) (ey : Z) :
  let X := (Z.pos (digits2_pos mx) + ex) - (Z.pos (digits2_pos my) + ey) in
  FloatFormat.rounded prec emax (xorb sx sy) X (Z.max (X + 1) (fexp prec emax X))
    (SFdiv prec emax (S754_finite sx mx ex) (S754_finite sy my ey)).
Proof.
  intros X. cbn [SFdiv]. unfold SFdiv_core_binary. cbn [Zdigits2]. fold X.
  set (d1 := Z.pos (digits2_pos mx)) in *. set (d2 := Z.pos (digits2_pos my)) in *.
  set (e' := Z.min (fexp prec emax X) (ex - ey)).
  set (s := ex - ey - e').
  assert (Hs : 0 <= s) by (subst s e'; lia).
  set (m' := match s with
             | 0 => Z.pos mx
             | Z.pos _ => Z.shiftl (Z.pos mx) s
             | Z.neg _ => 0
             end).
  assert (Hm' : m' = Z.pos mx * 2 ^ s).
  { subst m'. destruct s as [|p|p] eqn:Es; [cbn; lia| |lia].
    rewrite Z.shiftl_mul_pow2 by lia. reflexivity. }
  destruct (Z.div_eucl m' (Z.pos my)) as [q r] eqn:Eq.
  assert (Hq : q = m' / Z.pos my) by (unfold Z.div; rewrite Eq; reflexivity).
  assert (Hp : 0 < 2 ^ s) by (apply Z.pow_pos_nonneg; lia).
  assert (Hq0 : 0 <= q) by (rewrite Hq; apply Z.div_pos; nia).
  destruct (digits2_pos_bounds mx) as [Hlo1 Hhi1]. fold d1 in Hlo1, Hhi1.
  destruct (digits2_pos_bounds my) as [Hlo2 Hhi2]. fold d2 in Hlo2, Hhi2.
  assert (Hd1 : 0 < d1) by (subst d1; lia). assert (Hd2 : 0 < d2) by (subst d2; lia).
  set (k := d1 + s - d2).
  assert (HkX : k + e' = X) by (subst k s X; lia).
  (* the quotient has at least [k] digits *)
  assert (Hlow : k <= Zdigits2 q).
  { destruct (Z_le_gt_dec k 0) as [|Hk]; [pose proof (Zdigits2_nonneg q); lia|].
    assert (k - 1 < Zdigits2 q); [|lia].
    apply Zdigits2_gt_of_ge; [lia|]. rewrite Hq.
    apply Z.div_le_lower_bound; [lia|].
    rewrite Hm'.
    assert (2 ^ (d1 - 1) * 2 ^ s = 2 ^ (k - 1) * 2 ^ d2).
    { rewrite <- !Z.pow_add_r by lia. f_equal. subst k. lia. }
    assert (0 < 2 ^ (k - 1)) by (apply Z.pow_pos_nonneg; lia).
    nia. }
  (* and at most [k + 1] *)
  assert (Hhigh : Zdigits2 q <= Z.max (k + 1) 0).
  { destruct (Z_le_gt_dec 0 (k + 1)) as [Hk|Hk].
    - rewrite Z.max_l by lia. apply Zdigits2_le_of_lt; [lia|]. split; [lia|].
      rewrite Hq. apply Z.div_lt_upper_bound; [lia|]. rewrite Hm'.
      assert (2 ^ d1 * 2 ^ s = 2 ^ (k + 1) * 2 ^ (d2 - 1)).
      { rewrite <- !Z.pow_add_r by lia. f_equal. subst k. lia. }
      assert (0 < 2 ^ (k + 1)) by (apply Z.pow_pos_nonneg; lia).
      nia.
    - rewrite Z.max_r by lia.
      assert (Hz : q = 0); [|rewrite Hz; cbn; lia].
      rewrite Hq. apply Z.div_small. split; [nia|]. rewrite Hm'.
      assert (2 ^ d1 * 2 ^ s <= 2 ^ (d2 - 1)).
      { rewrite <- Z.pow_add_r by lia. apply Z.pow_le_mono_r; subst k; lia. }
      nia. }
  eapply rounded_mono; [| |apply binary_round_aux_rounded].
  - lia.
  - pose proof (fexp_ge_emin X). subst e'. lia.
  - exact Hq0.
  - assert (fexp prec emax X <= fexp prec emax (Zdigits2 q + e')) by (apply fexp_mono; lia).
    subst e'. lia.
Qed.

End FloatSign.

(** A [qint64] other than 0 has between 1 and 64 binary digits. *)
Lemma Zdigits2_qint64 (z : Z) : is_qint64 z -> z <> 0 -> 1 <= Zdigits2 z <= 64.
Proof.
  unfold is_qint64. intros Hq Hne.
  assert (H : forall p, Z.pos p <= 2 ^ 63 -> 1 <= Z.pos (digits2_pos p) <= 64).
  { intros p Hp. split; [lia|].
    apply (Zdigits2_le_of_lt (Z.pos p) 64); lia. }
  destruct z as [|p|p]; [contradiction| |]; cbn [Zdigits2]; apply H; lia.
Qed.

(** A clock reading converted to seconds is a well-formed finite [double],
    and a positive one when the reading is positive. *)
Lemma seconds_of_msecs_wf (ms : Z) :
  is_qint64 ms ->
  F64.valid (seconds_of_msecs ms) = true
  /\ FloatFormat.is_finite (seconds_of_msecs ms) = true
  /\ (0 < ms -> F64.ltb F64.zero (seconds_of_msecs ms) = true).
Proof.
  intros Hq. unfold seconds_of_msecs, F64.div.
  change (F64.of_Z 1000) with (S754_finite false 8796093022208000 (-43)).
  destruct (Z.eq_dec ms 0) as [->|Hne].
  { cbn. repeat split; try reflexivity. lia. }
  pose proof (Zdigits2_qint64 ms Hq Hne) as Hd.
  pose proof (binary_normalize_rounded F64.prec F64.emax eq_refl ms 0 false Hne) as Hx.
  fold (F64.of_Z ms) in Hx.
  unfold F64.prec, F64.emax in *.
  destruct (F64.of_Z ms) as [s|s| |s m e]; cbn [FloatFormat.rounded] in Hx.
  - unfold emin in Hx. lia.
  - unfold fexp, emin in Hx. lia.
  - contradiction.
  - destruct Hx as (Hs & _ & Hmag). unfold emin in Hmag.
    pose proof (SFdiv_rounded 53 1024 eq_refl s m e false 8796093022208000 (-43)) as Hr.
    cbv zeta in Hr.
    change (Z.pos (digits2_pos 8796093022208000)) with 53 in Hr.
    destruct (SFdiv 53 1024 (S754_finite s m e) (S754_finite false 8796093022208000 (-43)))
      as [s'|s'| |s' m' e']; cbn [FloatFormat.rounded] in Hr.
    + unfold emin in Hr. lia.
    + unfold fexp, emin in Hr. lia.
    + contradiction.
    + destruct Hr as (Hs' & Hb & _).
      split; [exact Hb|]. split; [reflexivity|].
      intros Hpos. subst s s'.
      destruct (Z.ltb_spec ms 0); [lia|]. reflexivity.
Qed.

(* ===================================================================== *)
(** ** Properties of the frame driver *)
(* ===================================================================== *)

Lemma GetIO_update_IO (f : ImGuiIO -> ImGuiIO) (g : ImGui) :
  ImGuiApi.GetIO (ImGuiApi.update_IO f g) = f (ImGuiApi.GetIO g).
Proof.
  unfold ImGuiApi.GetIO, ImGuiApi.update_IO, ImGuiApi.update_current, ImGuiApi.current.
  cbn. rewrite fn_lookup_insert. reflexivity.
Qed.

Lemma GetIO_NewFrame (g : ImGui) :
  ImGuiApi.GetIO (ImGuiApi.NewFrame g) = ImGuiApi.GetIO g.
Proof.
  unfold ImGuiApi.GetIO, ImGuiApi.NewFrame, ImGuiApi.update_current, ImGuiApi.current.
  cbn. rewrite fn_lookup_insert. reflexivity.
Qed.

Section FrameDriver.
Context {W : Type} `{WindowWrapper.t W}.
Variable cfg : BuildConfig.

Lemma setCursorPos_mTime (io : ImGuiIO) (r : ImGuiRenderer W) :
  mTime (setCursorPos cfg io r) = mTime r.
Proof.
  unfold setCursorPos.
  destruct (QT_NO_CURSOR cfg), (WantSetMousePos io); reflexivity.
Qed.

Lemma updateCursorShape_mTime (g : ImGui) (io : ImGuiIO) (r : ImGuiRenderer W) :
  mTime (updateCursorShape cfg g io r) = mTime r.
Proof.
  unfold updateCursorShape.
  repeat match goal with
         | |- context [if ?b then _ else _] => destruct b
         | |- context [match ?o with Some _ => _ | None => _ end] => destruct o
         end; reflexivity.
Qed.

(** [newFrame] stores the reading of the clock, in seconds. *)
Lemma newFrame_mTime (host : HostReadings) (r : ImGuiRenderer W) (g : ImGui) :
  mTime (fst (newFrame cfg host r g))
  = seconds_of_msecs (currentMSecsSinceEpoch host).
Proof.
  unfold newFrame. cbn [fst].
  rewrite updateCursorShape_mTime, setCursorPos_mTime. reflexivity.
Qed.

(** [newFrame] leaves [time_step] in [io.DeltaTime]. *)
Lemma newFrame_DeltaTime (host : HostReadings) (r : ImGuiRenderer W) (g : ImGui) :
  DeltaTime (ImGuiApi.GetIO (snd (newFrame cfg host r g)))
  = time_step (seconds_of_msecs (currentMSecsSinceEpoch host)) (mTime r).
Proof.
  unfold newFrame. cbn [snd]. rewrite GetIO_NewFrame.
  match goal with
  | |- context [if ?b then _ else _] => destruct b
  end; unfold ImGuiApi.AddMousePosEvent; rewrite !GetIO_update_IO; reflexivity.
Qed.

Lemma upload_buffers_mTime (l : ImDrawList) (r : ImGuiRenderer W) (s : GL.state) :
  mTime (fst (upload_buffers cfg l r s)) = mTime r.
Proof.
  unfold upload_buffers.
  destruct (mVertexBufferSize r <? _); cbn;
    destruct (mIndexBufferSize _ <? _); reflexivity.
Qed.

Lemma render_cmd_lists_mTime drawData fbWidth fbHeight vao clipOff clipScale
    (lists : list ImDrawList) (r : ImGuiRenderer W) (s : GL.state) :
  mTime (fst (render_cmd_lists cfg drawData fbWidth fbHeight vao clipOff clipScale
                lists r s)) = mTime r.
Proof.
  revert r s. induction lists as [|l lists IH]; intros r s; [reflexivity|].
  cbn [render_cmd_lists]. unfold GL.bind.
  pose proof (upload_buffers_mTime l r s) as Hup.
  destruct (upload_buffers cfg l r s) as [r1 s1]. cbn [fst] in Hup.
  destruct (render_cmds cfg r1 drawData fbWidth fbHeight vao clipOff clipScale
              (CmdBuffer l) s1) as [[] s2].
  rewrite IH. exact Hup.
Qed.

(** Rendering never touches the stored time: it keeps its initial value 0.0
    until the first [newFrame]. *)
Lemma renderDrawList_mTime (g : ImGui) (drawData : ImDrawData)
    (r : ImGuiRenderer W) (s : GL.state) :
  mTime (fst (fst (renderDrawList cfg g drawData r s))) = mTime r.
Proof.
  unfold renderDrawList.
  destruct ((fbWidth_of (ImGuiApi.GetIO g) =? 0)
            || (fbHeight_of (ImGuiApi.GetIO g) =? 0)); [reflexivity|].
  cbv zeta. unfold GL.bind.
  destruct (backup_gl_state s) as [last s1].
  destruct (GL.glGenVertexArrays1 s1) as [vao s2].
  destruct (setupRenderStates _ _ _ _ vao s2) as [[] s3].
  match goal with
  | |- context [render_cmd_lists cfg ?d ?w ?h ?v ?o ?c ?ls r s3] =>
      pose proof (render_cmd_lists_mTime d w h v o c ls r s3) as Hs;
      destruct (render_cmd_lists cfg d w h v o c ls r s3) as [r' s4]
  end.
  cbn [fst] in Hs.
  destruct (GL.glDeleteVertexArrays1 vao s4) as [[] s5].
  destruct (restore_gl_state last s5) as [[] s6].
  exact Hs.
Qed.

(** C3, as the code has it.  With the stored time still at its initial 0.0
    the time step is the constant [1.0f / 60.0f], whatever the clock reads.
    On the call after one at which the clock read a positive number of
    milliseconds, the time step is the difference of the two readings in
    seconds, narrowed to [float]; it is not negative when the later reading,
    in seconds, is not below the earlier one. *)
Theorem frame_time_step (r : ImGuiRenderer W) (prev next : HostReadings)
    (g1 g2 : ImGui) :
  let ms1 := currentMSecsSinceEpoch prev in
  let ms2 := currentMSecsSinceEpoch next in
  let t1 := seconds_of_msecs ms1 in
  let t2 := seconds_of_msecs ms2 in
  let r1 := fst (newFrame cfg prev r g1) in
  let dt1 := DeltaTime (ImGuiApi.GetIO (snd (newFrame cfg prev r g1))) in
  let dt2 := DeltaTime (ImGuiApi.GetIO (snd (newFrame cfg next r1 g2))) in
  (mTime r = F64.zero -> dt1 = F32.div (F32.of_Z 1) (F32.of_Z 60))
  /\ (is_qint64 ms1 -> 0 < ms1 -> dt2 = F64.to_f32 (F64.sub t2 t1))
  /\ (is_qint64 ms1 -> is_qint64 ms2 -> 0 < ms1 ->
      F64.leb t1 t2 = true ->
      F32.leb F32.zero dt2 = true).
Proof.
  intros ms1 ms2 t1 t2 r1 dt1 dt2.
  assert (Hdt2 : is_qint64 ms1 -> 0 < ms1 -> dt2 = F64.to_f32 (F64.sub t2 t1)).
  { intros Hq1 Hpos. unfold dt2. rewrite newFrame_DeltaTime.
    unfold r1. rewrite newFrame_mTime. fold ms1 ms2 t1 t2.
    destruct (seconds_of_msecs_wf ms1 Hq1) as (_ & _ & Hgt).
    unfold time_step. fold t1 in Hgt. rewrite (Hgt Hpos). reflexivity. }
  split; [|split].
  - intros H0. unfold dt1. rewrite newFrame_DeltaTime, H0. reflexivity.
  - exact Hdt2.
  - intros Hq1 Hq2 Hpos Hle. rewrite (Hdt2 Hq1 Hpos).
    destruct (seconds_of_msecs_wf ms1 Hq1) as (V1 & _ & Hgt).
    destruct (seconds_of_msecs_wf ms2 Hq2) as (V2 & F2 & _).
    apply sign_clear_leb. apply convert_sign_clear.
    apply SFsub_sign_clear; try assumption. apply Hgt. exact Hpos.
Qed.

(** The handlers select the renderer's context before they report. *)
Lemma handlers_select_own_context (r : ImGuiRenderer W) (g : ImGui) :
  (forall e, CurrentContext (onMousePressedChange r e g) = mCtx r)
  /\ (forall e, CurrentContext (onWheel r e g) = mCtx r)
  /\ (forall e, CurrentContext (onKeyPressRelease cfg r e g) = mCtx r).
Proof.
  split; [|split]; intros e.
  - reflexivity.
  - reflexivity.
  - unfold onKeyPressRelease.
    destruct (Q_OS_MAC cfg), (keyMap !! key e), (key_type e);
      try destruct (text e) as [|c [|c' t]]; reflexivity.
Qed.

(** [newFrame] selects nothing: the context that was current stays current,
    and no other context is written. *)
Lemma newFrame_keeps_selection (host : HostReadings) (r : ImGuiRenderer W) (g : ImGui) :
  CurrentContext (snd (newFrame cfg host r g)) = CurrentContext g
  /\ forall c, c <> CurrentContext g ->
       contexts (snd (newFrame cfg host r g)) c = contexts g c.
Proof.
  unfold newFrame. cbn [snd].
  match goal with
  | |- context [if ?b then _ else _] => destruct b
  end; (split; [reflexivity|]); intros c Hc;
    unfold ImGuiApi.NewFrame, ImGuiApi.AddMousePosEvent, ImGuiApi.update_IO;
    rewrite !contexts_update_current_other by (cbn; exact Hc); reflexivity.
Qed.

End FrameDriver.

(** Two frames 16 ms apart, the first one the renderer's first. *)
Lemma frame_time_step_witness :
  mTime (Examples.renderer 40 1) = F64.zero
  /\ is_qint64 1700000000123
  /\ is_qint64 1700000000139
  /\ 0 < 1700000000123
  /\ F64.leb (seconds_of_msecs 1700000000123) (seconds_of_msecs 1700000000139) = true
  /\ DeltaTime (ImGuiApi.GetIO (snd (newFrame Examples.desktop
        (Examples.host_at 1700000000123) (Examples.renderer 40 1) (Examples.imgui 1))))
     = F32.div (F32.of_Z 1) (F32.of_Z 60)
  /\ DeltaTime (ImGuiApi.GetIO (snd (newFrame Examples.desktop
        (Examples.host_at 1700000000139)
        (fst (newFrame Examples.desktop (Examples.host_at 1700000000123)
                (Examples.renderer 40 1) (Examples.imgui 1)))
        (Examples.imgui 1))))
     = F64.to_f32 (F64.sub (seconds_of_msecs 1700000000139)
                           (seconds_of_msecs 1700000000123))
  /\ F32.leb F32.zero
       (DeltaTime (ImGuiApi.GetIO (snd (newFrame Examples.desktop
          (Examples.host_at 1700000000139)
          (fst (newFrame Examples.desktop (Examples.host_at 1700000000123)
                  (Examples.renderer 40 1) (Examples.imgui 1)))
          (Examples.imgui 1))))) = true.
Proof.
  pose proof (frame_time_step Examples.desktop (Examples.renderer 40 1)
                (Examples.host_at 1700000000123) (Examples.host_at 1700000000139)
                (Examples.imgui 1) (Examples.imgui 1)) as (Hfirst & Hnext & Hsign).
  assert (H0 : mTime (Examples.renderer 40 1) = F64.zero) by reflexivity.
  assert (Hq1 : is_qint64 1700000000123) by (unfold is_qint64; lia).
  assert (Hq2 : is_qint64 1700000000139) by (unfold is_qint64; lia).
  assert (Hpos : 0 < 1700000000123) by lia.
  assert (Hle : F64.leb (seconds_of_msecs 1700000000123)
                  (seconds_of_msecs 1700000000139) = true)
    by (vm_compute; reflexivity).
  repeat (split; [assumption|]).
  split; [exact (Hfirst H0)|].
  split; [exact (Hnext Hq1 Hpos)|].
  exact (Hsign Hq1 Hq2 Hpos Hle).
Defined.

(** C3 as the specification words it does not hold.  When the wall clock is
    set back by a second between two frames the time step is -1; and after a
    frame at which the clock read 0 the time step is again the first-frame
    constant, not the second that has passed. *)
Lemma frame_time_step_not_always_elapsed_nonneg :
  F32.ltb
    (DeltaTime (ImGuiApi.GetIO (snd (newFrame Examples.desktop
       (Examples.host_at 1000)
       (fst (newFrame Examples.desktop (Examples.host_at 2000)
               (Examples.renderer 40 1) (Examples.imgui 1)))
       (Examples.imgui 1)))))
    F32.zero = true
  /\ DeltaTime (ImGuiApi.GetIO (snd (newFrame Examples.desktop
       (Examples.host_at 1000)
       (fst (newFrame Examples.desktop (Examples.host_at 0)
               (Examples.renderer 40 1) (Examples.imgui 1)))
       (Examples.imgui 1))))
     <> F64.to_f32 (F64.sub (seconds_of_msecs 1000) (seconds_of_msecs 0)).
Proof.
  split; [vm_compute; reflexivity|].
  vm_compute. discriminate.
Qed.

(** C4 at a failing input.  Two renderers share the process: one bound to
    window 40 and context 1, one to window 50 and context 2.  After the second
    has handled a wheel event, context 2 is selected.  [newFrame] on the first
    renderer then leaves its own context 1 as it was and writes the display
    size, the time step, the pointer position and the new frame into
    context 2; and [render] on the first renderer draws nothing, although
    context 1 holds a triangle, because it rasterizes the draw data of
    context 2. *)
Theorem newFrame_and_render_use_selected_context :
  let r1 := Examples.renderer 40 1 in
  let r2 := Examples.renderer 50 2 in
  let g := deliver Examples.desktop QObject_eventFilter_default r2
             (QEvent_Wheel (mkQWheelEvent (mkQPoint 0 0) (mkQPoint 0 120)))
             Examples.two_contexts in
  let g' := snd (newFrame Examples.desktop (Examples.host_at 1700000000123) r1 g) in
  mCtx r1 = 1
  /\ CurrentContext g = 2
  /\ CurrentContext g' = 2
  /\ contexts g' 1 = contexts g 1
  /\ FrameCount (contexts g' 2) = FrameCount (contexts g 2) + 1
  /\ events_of g' 2 = events_of g 2 ++ [EvMousePos (F32.of_Z 50) (F32.of_Z 30)]
  /\ DeltaTime (IO (contexts g' 2)) = F32.div (F32.of_Z 1) (F32.of_Z 60)
  /\ DeltaTime (IO (contexts g' 1)) = F32.zero
  /\ existsb is_draw_call
       (GL.calls (snd (render Examples.desktop r1 g Examples.gl0))) = false
  /\ existsb is_draw_call
       (GL.calls (snd (render Examples.desktop r1
                         (ImGuiApi.SetCurrentContext (mCtx r1) g) Examples.gl0))) = true.
Proof.
  cbv zeta. repeat split; vm_compute; reflexivity.
Qed.

(** A window minimized to width 0. *)
Lemma zero_framebuffer_skips_render_witness :
  (fbWidth_of (ImGuiApi.GetIO (Examples.minimized_imgui 1)) = 0
   \/ fbHeight_of (ImGuiApi.GetIO (Examples.minimized_imgui 1)) = 0)
  /\ renderDrawList Examples.desktop (Examples.minimized_imgui 1)
       (Examples.draw_data [Examples.draw_cmd Examples.full_clip 9])
       (Examples.renderer 40 1) Examples.gl0
     = ((Examples.renderer 40 1,
         Examples.draw_data [Examples.draw_cmd Examples.full_clip 9]),
        Examples.gl0).
Proof.
  assert (Hfb : fbWidth_of (ImGuiApi.GetIO (Examples.minimized_imgui 1)) = 0
                \/ fbHeight_of (ImGuiApi.GetIO (Examples.minimized_imgui 1)) = 0)
    by (left; vm_compute; reflexivity).
  split; [exact Hfb|].
  exact (zero_framebuffer_skips_render Examples.desktop (Examples.minimized_imgui 1)
           (Examples.draw_data [Examples.draw_cmd Examples.full_clip 9])
           (Examples.renderer 40 1) Examples.gl0 Hfb).
Defined.


(** The calls made for those three commands: two draws, with textures 7
    and 9. *)
Example degenerate_clip_calls :
  GL.calls (snd (render_cmds Examples.desktop (Examples.renderer 40 1)
                   Examples.no_draw_data 800 600 1 (Examples.vec 0 0) (Examples.vec 1 1)
                   [ Examples.draw_cmd Examples.full_clip 7;
                     Examples.draw_cmd Examples.empty_clip 8;
                     Examples.draw_cmd Examples.full_clip 9 ] Examples.gl0))
  = [ GL.Scissor 0 0 800 600; GL.BindTexture GL.TEXTURE_2D 7;
      GL.DrawElements GL.TRIANGLES 3 GL.UNSIGNED_SHORT 0;
      GL.Scissor 0 0 800 600; GL.BindTexture GL.TEXTURE_2D 9;
      GL.DrawElements GL.TRIANGLES 3 GL.UNSIGNED_SHORT 0 ].
Proof. vm_compute. reflexivity. Qed.

(* ===================================================================== *)
(** ** Properties of the rasterizer: the saved state is restored *)
(* ===================================================================== *)

Lemma returns_on_unit0_ret {A} (a : A) : returns_on_unit0 (GL.ret a).
Proof. intros s Hs. exact Hs. Qed.

Lemma returns_on_unit0_bind {A B} (m : GL.M A) (k : A -> GL.M B) :
  returns_on_unit0 m -> (forall a, returns_on_unit0 (k a)) ->
  returns_on_unit0 (GL.bind m k).
Proof.
  intros Hm Hk s Hs. unfold GL.bind. specialize (Hm s Hs).
  destruct (m s) as [a s1]. cbn [snd] in Hm. apply Hk. exact Hm.
Qed.

Lemma effect_keeps_texture_unit (c : GL.call) (s : GL.state) :
  match c with GL.ActiveTexture _ => False | _ => True end ->
  GL.active_texture (GL.effect c s) = GL.active_texture s.
Proof.
  destruct c; cbn; intros Hc; try contradiction; try reflexivity.
  - destruct ((w <? 0) || (h <? 0)); reflexivity.
  - destruct ((w <? 0) || (h <? 0)); reflexivity.
  - destruct (GL.vertex_array_binding s =? array); reflexivity.
  - destruct target; reflexivity.
Qed.

Lemma issue_returns_on_unit0 (c : GL.call) :
  match c with GL.ActiveTexture _ => False | _ => True end ->
  returns_on_unit0 (GL.issue c).
Proof.
  intros Hc s Hs. unfold on_unit0, GL.issue in *. cbn.
  rewrite effect_keeps_texture_unit by exact Hc. exact Hs.
Qed.

Create HintDb texture_unit.
#[local] Hint Resolve returns_on_unit0_ret : texture_unit.
#[local] Hint Extern 1 (returns_on_unit0 (GL.issue _)) =>
  (apply issue_returns_on_unit0; exact I) : texture_unit.
#[local] Hint Extern 2 (returns_on_unit0 (GL.bind _ _)) =>
  (apply returns_on_unit0_bind; [|intro]) : texture_unit.
#[local] Hint Extern 3 (returns_on_unit0 (if ?b then _ else _)) =>
  destruct b : texture_unit.

Section RestoredState.
Context {W : Type}.
Variable cfg : BuildConfig.

Lemma setupRenderStates_returns_on_unit0 (r : ImGuiRenderer W) drawData
    fbWidth fbHeight vao :
  returns_on_unit0 (setupRenderStates r drawData fbWidth fbHeight vao).
Proof.
  unfold setupRenderStates, GL.glEnable, GL.glDisable, GL.glBlendEquation,
    GL.glBlendFuncSeparate, GL.glViewport, GL.glUseProgram, GL.glUniform1i,
    GL.glUniformMatrix4fv, GL.glBindVertexArray, GL.glBindBuffer,
    GL.glEnableVertexAttribArray, GL.glVertexAttribPointer.
  cbv zeta. auto 40 with texture_unit.
Qed.

Lemma render_cmd_returns_on_unit0 (r : ImGuiRenderer W) drawData
    fbWidth fbHeight vao clipOff clipScale (pcmd : ImDrawCmd) :
  callback_returns_on_unit0 (UserCallback pcmd) ->
  returns_on_unit0
    (render_cmd cfg r drawData fbWidth fbHeight vao clipOff clipScale pcmd).
Proof.
  intros Hcb. unfold render_cmd.
  destruct (UserCallback pcmd) as [[|f]|].
  - apply setupRenderStates_returns_on_unit0.
  - intros s Hs. cbn. apply Hcb. exact Hs.
  - unfold GL.glScissor, GL.glBindTexture, GL.glDrawElements. cbv zeta.
    auto 20 with texture_unit.
Qed.

Lemma render_cmds_returns_on_unit0 (r : ImGuiRenderer W) drawData
    fbWidth fbHeight vao clipOff clipScale (cmds : list ImDrawCmd) :
  Forall (fun c => callback_returns_on_unit0 (UserCallback c)) cmds ->
  returns_on_unit0
    (render_cmds cfg r drawData fbWidth fbHeight vao clipOff clipScale cmds).
Proof.
  induction 1 as [|c cmds Hc _ IH]; cbn [render_cmds].
  - apply returns_on_unit0_ret.
  - apply returns_on_unit0_bind; [|intros _; exact IH].
    apply render_cmd_returns_on_unit0. exact Hc.
Qed.

Lemma upload_buffers_returns_on_unit0 (l : ImDrawList) (r : ImGuiRenderer W) :
  returns_on_unit0 (upload_buffers cfg l r).
Proof.
  unfold upload_buffers, GL.glBufferData, GL.glBufferSubData. cbv zeta.
  auto 20 with texture_unit.
Qed.

Lemma render_cmd_lists_returns_on_unit0 drawData fbWidth fbHeight vao
    clipOff clipScale (lists : list ImDrawList) (r : ImGuiRenderer W) :
  Forall (fun l => Forall (fun c => callback_returns_on_unit0 (UserCallback c))
                     (CmdBuffer l)) lists ->
  returns_on_unit0
    (render_cmd_lists cfg drawData fbWidth fbHeight vao clipOff clipScale lists r).
Proof.
  intros Hl. revert r. induction Hl as [|l lists Hc _ IH]; intros r;
    cbn [render_cmd_lists].
  - apply returns_on_unit0_ret.
  - apply returns_on_unit0_bind; [apply upload_buffers_returns_on_unit0|].
    intros r'. apply returns_on_unit0_bind; [|intros _; apply IH].
    apply render_cmds_returns_on_unit0. exact Hc.
Qed.

Lemma ScaleClipRects_callbacks (sc : ImVec2) (d : ImDrawData) :
  callbacks_return_on_unit0 d ->
  callbacks_return_on_unit0 (ScaleClipRects sc d).
Proof.
  unfold callbacks_return_on_unit0, ScaleClipRects. cbn [CmdLists].
  intros Hd. apply List.Forall_map. eapply List.Forall_impl; [|exact Hd].
  intros l Hl. cbn. apply List.Forall_map. eapply List.Forall_impl; [|exact Hl].
  intros c Hc. exact Hc.
Qed.

(** What the backup block reads. *)
Lemma backup_gl_state_value (s : GL.state) :
  fst (backup_gl_state s)
  = mkGLBackup (GL.active_texture s) (GL.current_program s)
      (GL.binding (GL.texture_binding_2d s) GL.TEXTURE0)
      (GL.array_buffer_binding s)
      (GL.binding (GL.element_array_buffer_binding s) (GL.vertex_array_binding s))
      (GL.vertex_array_binding s)
      (GL.blend_src_rgb s) (GL.blend_dst_rgb s)
      (GL.blend_src_alpha s) (GL.blend_dst_alpha s)
      (GL.blend_equation_rgb s) (GL.blend_equation_alpha s)
      (GL.rect_of_box (GL.viewport s)) (GL.rect_of_box (GL.scissor_box s))
      (GL.enabled s GL.BLEND) (GL.enabled s GL.CULL_FACE)
      (GL.enabled s GL.DEPTH_TEST) (GL.enabled s GL.SCISSOR_TEST).
Proof. reflexivity. Qed.

(** The backup block leaves texture unit 0 selected. *)
Lemma backup_gl_state_selects_unit0 (s : GL.state) :
  GL.active_texture (snd (backup_gl_state s)) = GL.TEXTURE0.
Proof. reflexivity. Qed.

Lemma binding_insert (m : gmap Z Z) (k v : Z) : GL.binding (<[k := v]> m) k = v.
Proof. unfold GL.binding. rewrite lookup_insert_eq. reflexivity. Qed.

Lemma glViewport_state (x y w h : Z) (s : GL.state) :
  0 <= w -> 0 <= h ->
  snd (GL.glViewport x y w h s)
  = GL.set_calls (GL.set_viewport s (GL.mkBox x y (Z.to_N w) (Z.to_N h)))
      (GL.calls s ++ [GL.Viewport x y w h]).
Proof.
  intros Hw Hh. unfold GL.glViewport, GL.issue. cbn [snd GL.effect].
  replace ((w <? 0) || (h <? 0)) with false; [reflexivity|].
  symmetry. apply orb_false_iff. split; apply Z.ltb_ge; assumption.
Qed.

Lemma glScissor_state (x y w h : Z) (s : GL.state) :
  0 <= w -> 0 <= h ->
  snd (GL.glScissor x y w h s)
  = GL.set_calls (GL.set_scissor_box s (GL.mkBox x y (Z.to_N w) (Z.to_N h)))
      (GL.calls s ++ [GL.Scissor x y w h]).
Proof.
  intros Hw Hh. unfold GL.glScissor, GL.issue. cbn [snd GL.effect].
  replace ((w <? 0) || (h <? 0)) with false; [reflexivity|].
  symmetry. apply orb_false_iff. split; apply Z.ltb_ge; assumption.
Qed.

(** Restoring a backup while texture unit 0 is selected makes every saved
    value current again. *)
Lemma restore_gl_state_value (b : GLBackup) (s : GL.state) :
  GL.active_texture s = GL.TEXTURE0 ->
  0 <= GL.rw (lastViewport b) -> 0 <= GL.rh (lastViewport b) ->
  0 <= GL.rw (lastScissorBox b) -> 0 <= GL.rh (lastScissorBox b) ->
  fst (backup_gl_state (snd (restore_gl_state b s))) = b.
Proof.
  intros Hunit Hvw Hvh Hsw Hsh. rewrite backup_gl_state_value.
  destruct b as [at_ pr tx ab eb va sr dr sa da er ea [vpx vpy vpw vph]
                   [sbx sby sbw sbh] e1 e2 e3 e4].
  cbn [lastViewport lastScissorBox GL.rw GL.rh] in Hvw, Hvh, Hsw, Hsh.
  destruct s as [unit0 pr0 tx0 ab0 va0 eb0 sr0 dr0 sa0 da0 er0 ea0 vp0 sb0 en0 nx0 cs0].
  cbn [GL.active_texture] in Hunit. subst unit0.
  remember (snd (restore_gl_state _ _)) as final eqn:Hfinal.
  unfold restore_gl_state in Hfinal.
  repeat (rewrite bind_snd in Hfinal; cbv beta in Hfinal).
  cbn [lastProgram lastTexture lastActiveTexture lastVertexArray lastArrayBuffer
       lastElementArrayBuffer lastBlendEquationRgb lastBlendEquationAlpha
       lastBlendSrcRgb lastBlendDstRgb lastBlendSrcAlpha lastBlendDstAlpha
       lastEnableBlend lastEnableCullFace lastEnableDepthTest
       lastEnableScissorTest lastViewport lastScissorBox
       GL.rx GL.ry GL.rw GL.rh] in Hfinal.
  rewrite glScissor_state, glViewport_state in Hfinal by assumption.
  subst final.
  destruct e1, e2, e3, e4; f_equal;
    lazy -[GL.binding insert Z.of_N Z.to_N]; rewrite ?Z2N.id by assumption;
    try reflexivity; apply binding_insert.
Qed.

(** C1, as the code has it.  Whatever the draw data, provided each of its
    user callbacks, entered with texture unit 0 active, returns with texture
    unit 0 active (it may select and use other units on the way), reading
    the saved values again after [renderDrawList] has returned gives what
    was read at entry: active texture unit, program, 2D texture of unit 0,
    array buffer, element-array buffer, vertex array, the four blend
    functions, the two blend equations, viewport, scissor box and the
    enabled state of blending, face culling, depth test and scissor test. *)
Theorem renderDrawList_restores_saved_state
    (g : ImGui) (drawData : ImDrawData) (r : ImGuiRenderer W) (s : GL.state) :
  callbacks_return_on_unit0 drawData ->
  fst (backup_gl_state (snd (renderDrawList cfg g drawData r s)))
  = fst (backup_gl_state s).
Proof.
  intros Hcb. unfold renderDrawList.
  destruct ((fbWidth_of (ImGuiApi.GetIO g) =? 0)
            || (fbHeight_of (ImGuiApi.GetIO g) =? 0)); [reflexivity|].
  cbv zeta. unfold GL.bind.
  pose proof (backup_gl_state_value s) as Hlast.
  pose proof (backup_gl_state_selects_unit0 s) as Hunit.
  destruct (backup_gl_state s) as [last s1]. cbn [fst snd] in Hlast, Hunit |- *.
  assert (Hgen : on_unit0 (snd (GL.glGenVertexArrays1 s1))) by exact Hunit.
  destruct (GL.glGenVertexArrays1 s1) as [vao s2]. cbn [snd] in Hgen.
  match goal with
  | |- context [setupRenderStates r ?d ?w ?h vao s2] =>
      pose proof (setupRenderStates_returns_on_unit0 r d w h vao s2 Hgen) as Hsetup;
      destruct (setupRenderStates r d w h vao s2) as [[] s3]
  end.
  cbn [snd] in Hsetup.
  match goal with
  | |- context [render_cmd_lists cfg ?d ?w ?h ?v ?o ?c ?ls r s3] =>
      pose proof (render_cmd_lists_returns_on_unit0 d w h v o c ls r
                    (ScaleClipRects_callbacks _ _ Hcb) s3 Hsetup) as Hloop;
      destruct (render_cmd_lists cfg d w h v o c ls r s3) as [r' s4]
  end.
  cbn [snd] in Hloop.
  pose proof (issue_returns_on_unit0 (GL.DeleteVertexArrays vao) I s4 Hloop) as Hdel.
  fold (GL.glDeleteVertexArrays1 vao) in Hdel.
  destruct (GL.glDeleteVertexArrays1 vao s4) as [[] s5]. cbn [snd] in Hdel.
  pose proof (restore_gl_state_value last s5) as Hrestore.
  destruct (restore_gl_state last s5) as [[] s6]. cbn [snd GL.ret] in Hrestore |- *.
  apply Hrestore; subst last; cbn; try apply N2Z.is_nonneg.
  exact Hdel.
Qed.

End RestoredState.

(** A frame with a draw, a user callback that binds a texture to texture
    unit 1 and selects unit 0 again, a user callback that enables the
    stencil test, a request to reset the render state, and a second draw. *)
Lemma renderDrawList_restores_saved_state_witness :
  callbacks_return_on_unit0
       (Examples.draw_data
          [ Examples.draw_cmd Examples.full_clip 9;
            Examples.callback_cmd Examples.multitexture_callback;
            Examples.callback_cmd Examples.stencil_callback;
            Examples.callback_cmd ImDrawCallback_ResetRenderState;
            Examples.draw_cmd Examples.full_clip 10 ])
  /\ fst (backup_gl_state (snd (renderDrawList Examples.desktop (Examples.imgui 1)
            (Examples.draw_data
               [ Examples.draw_cmd Examples.full_clip 9;
                 Examples.callback_cmd Examples.multitexture_callback;
                 Examples.callback_cmd Examples.stencil_callback;
                 Examples.callback_cmd ImDrawCallback_ResetRenderState;
                 Examples.draw_cmd Examples.full_clip 10 ])
            (Examples.renderer 40 1) Examples.gl0)))
     = fst (backup_gl_state Examples.gl0).
Proof.
  assert (Hcb : callbacks_return_on_unit0
                  (Examples.draw_data
                     [ Examples.draw_cmd Examples.full_clip 9;
                       Examples.callback_cmd Examples.multitexture_callback;
                       Examples.callback_cmd Examples.stencil_callback;
                       Examples.callback_cmd ImDrawCallback_ResetRenderState;
                       Examples.draw_cmd Examples.full_clip 10 ])).
  { unfold callbacks_return_on_unit0. cbn.
    repeat constructor; intros s Hs; solve [reflexivity | exact Hs]. }
  split; [exact Hcb|].
  exact (renderDrawList_restores_saved_state Examples.desktop (Examples.imgui 1) _
           (Examples.renderer 40 1) Examples.gl0 Hcb).
Defined.

(** C1 as the specification words it does not hold.  The frame draws with
    texture 9 and then runs a user callback that selects texture unit 1.  The
    restore block binds the saved texture to the unit selected at that
    moment, unit 1, so unit 0, whose binding 5 was the one saved, is left
    with texture 9. *)
Lemma user_callback_defeats_restore :
  fbWidth_of (ImGuiApi.GetIO (Examples.imgui 1)) <> 0
  /\ fbHeight_of (ImGuiApi.GetIO (Examples.imgui 1)) <> 0
  /\ lastTexture (fst (backup_gl_state Examples.gl0)) = 5
  /\ lastTexture
       (fst (backup_gl_state (snd (renderDrawList Examples.desktop (Examples.imgui 1)
               (Examples.draw_data
                  [ Examples.draw_cmd Examples.full_clip 9;
                    Examples.callback_cmd Examples.unit1_callback ])
               (Examples.renderer 40 1) Examples.gl0)))) = 9
  /\ fst (backup_gl_state (snd (renderDrawList Examples.desktop (Examples.imgui 1)
            (Examples.draw_data
               [ Examples.draw_cmd Examples.full_clip 9;
                 Examples.callback_cmd Examples.unit1_callback ])
            (Examples.renderer 40 1) Examples.gl0)))
     <> fst (backup_gl_state Examples.gl0).
Proof.
  split; [vm_compute; discriminate|]. split; [vm_compute; discriminate|].
  split; [vm_compute; reflexivity|]. split; [vm_compute; reflexivity|].
  vm_compute. discriminate.
Qed.

(* ===================================================================== *)
(** ** Further properties: the input translator and the frame driver *)
(* ===================================================================== *)

Lemma reports_to_refl (ctx : Z) (g : ImGui) :
  reports_to ctx [] g g.
Proof.
  split; [reflexivity|].
  rewrite app_nil_r. destruct (contexts g ctx) as [[] ? ? ? ?]. reflexivity.
Qed.

Lemma reports_to_select (ctx : Z) (g : ImGui) :
  reports_to ctx [] g (ImGuiApi.SetCurrentContext ctx g).
Proof. exact (reports_to_refl ctx g). Qed.

Lemma reports_to_add (ctx : Z) (evs : list InputEvent) (e : InputEvent) (g g' : ImGui) :
  CurrentContext g' = ctx ->
  reports_to ctx evs g g' ->
  reports_to ctx (evs ++ [e]) g (ImGuiApi.update_IO (io_add_event e) g').
Proof.
  intros Hcur [Hother Hown]. split.
  - intros c Hc. unfold ImGuiApi.update_IO.
    rewrite contexts_update_current_other by congruence. apply Hother, Hc.
  - unfold ImGuiApi.update_IO. rewrite <- Hcur at 1.
    rewrite contexts_update_current_same. rewrite Hcur, Hown. cbn.
    rewrite app_assoc. reflexivity.
Qed.

Lemma reports_to_fold (ctx : Z) (pre evs : list InputEvent) (g g' : ImGui) :
  CurrentContext g' = ctx ->
  reports_to ctx pre g g' ->
  reports_to ctx (pre ++ evs) g
    (fold_left (fun g e => ImGuiApi.update_IO (io_add_event e) g) evs g').
Proof.
  revert pre g'. induction evs as [|e evs IH]; intros pre g' Hcur Hpre.
  - rewrite app_nil_r. exact Hpre.
  - cbn [fold_left].
    replace (pre ++ e :: evs) with ((pre ++ [e]) ++ evs)
      by (rewrite <- app_assoc; reflexivity).
    apply IH; [exact Hcur|]. apply reports_to_add; assumption.
Qed.

Lemma reports_to_events (ctx : Z) (evs : list InputEvent) (g g' : ImGui) :
  reports_to ctx evs g g' -> events_of g' ctx = events_of g ctx ++ evs.
Proof. intros [_ Hown]. unfold events_of. rewrite Hown. reflexivity. Qed.

Lemma update_IO_current f (g : ImGui) :
  CurrentContext (ImGuiApi.update_IO f g) = CurrentContext g.
Proof. reflexivity. Qed.

Section InputCoverage.
Context {W : Type} `{WindowWrapper.t W}.
Variable cfg : BuildConfig.
Variable QObject_eventFilter : Z -> QEvent -> bool.

(** X1.  The filter has no case for pointer motion, for a shortcut
    override, or for any event that is not a mouse-button, wheel or key
    event: such an event leaves the library state as it is, also when it is
    addressed to the bound window.  In particular the pointer position is
    never taken from mouse-move events. *)
Theorem eventFilter_ignores_unhandled_events
    (r : ImGuiRenderer W) (watched : Z) (event : QEvent) (g : ImGui) :
  unhandled event = true ->
  snd (eventFilter cfg QObject_eventFilter r watched event g) = g.
Proof.
  intros Hun. unfold eventFilter. cbn [snd].
  destruct (watched =? WindowWrapper.object (mWindow r)); [|reflexivity].
  destruct event as [e|e|e|ty]; cbn in Hun.
  - destruct (mouse_type e); try discriminate; reflexivity.
  - discriminate.
  - destruct (key_type e); try discriminate; reflexivity.
  - reflexivity.
Qed.

Lemma onKeyPressRelease_reports (r : ImGuiRenderer W) (e : QKeyEvent) (g : ImGui) :
  reports_to (mCtx r)
    ((match keyMap !! key e with
      | Some k => [EvKey k (match key_type e with KeyPress => true | _ => false end)]
      | None => []
      end) ++ text_events e ++ modifier_events cfg (modifiers e))
    g (onKeyPressRelease cfg r e g).
Proof.
  unfold onKeyPressRelease, text_events, modifier_events.
  destruct (Q_OS_MAC cfg), (keyMap !! key e) as [k|], (key_type e);
    try destruct (text e) as [|c [|c' t]];
    cbn [app];
    match goal with
    | |- reports_to _ ?evs _ _ =>
        exact (reports_to_fold (mCtx r) [] evs g
                 (ImGuiApi.SetCurrentContext (mCtx r) g) eq_refl
                 (reports_to_select (mCtx r) g))
    end.
Qed.

Lemma onMousePressedChange_reports (r : ImGuiRenderer W) (e : QMouseEvent) (g : ImGui) :
  reports_to (mCtx r)
    [ EvMouseButton ImGuiMouseButton_Left (Qt.testFlag (buttons e) Qt.LeftButton);
      EvMouseButton ImGuiMouseButton_Right (Qt.testFlag (buttons e) Qt.RightButton);
      EvMouseButton ImGuiMouseButton_Middle (Qt.testFlag (buttons e) Qt.MiddleButton) ]
    g (onMousePressedChange r e g).
Proof.
  match goal with
  | |- reports_to _ ?evs _ _ =>
      exact (reports_to_fold (mCtx r) [] evs g
               (ImGuiApi.SetCurrentContext (mCtx r) g) eq_refl
               (reports_to_select (mCtx r) g))
  end.
Qed.

Lemma onWheel_reports (r : ImGuiRenderer W) (e : QWheelEvent) (g : ImGui) :
  reports_to (mCtx r)
    [ EvMouseWheel (wheel_x (FontSize (contexts g (mCtx r))) e)
                   (wheel_y (FontSize (contexts g (mCtx r))) e) ]
    g (onWheel r e g).
Proof.
  match goal with
  | |- reports_to _ ?evs _ _ =>
      exact (reports_to_fold (mCtx r) [] evs g
               (ImGuiApi.SetCurrentContext (mCtx r) g) eq_refl
               (reports_to_select (mCtx r) g))
  end.
Qed.

(** X2.  A press or release of a key the table maps, delivered for the
    bound window, reports to the renderer's context first the logical key,
    down for a press and up for a release, then the typed character (for a
    press whose text is one code unit long), then the four modifier
    states. *)
Theorem mapped_key_reports_key_then_text_then_modifiers
    (r : ImGuiRenderer W) (e : QKeyEvent) (k : ImGuiKey) (g : ImGui) :
  key_type e <> ShortcutOverride ->
  keyMap !! key e = Some k ->
  events_of (deliver cfg QObject_eventFilter r (QEvent_Key e) g) (mCtx r)
  = events_of g (mCtx r)
    ++ EvKey k (match key_type e with KeyPress => true | _ => false end)
       :: text_events e ++ modifier_events cfg (modifiers e).
Proof.
  intros Hty Hk. unfold deliver, eventFilter. cbn [snd]. rewrite Z.eqb_refl.
  replace (match key_type e with
           | ShortcutOverride => g
           | _ => onKeyPressRelease cfg r e g
           end) with (onKeyPressRelease cfg r e g)
    by (destruct (key_type e); congruence).
  pose proof (onKeyPressRelease_reports r e g) as Hrep. rewrite Hk in Hrep.
  apply reports_to_events in Hrep. exact Hrep.
Qed.

(** X3.  Whatever the watched object and the event, the filter changes
    nothing in the library but the list of events of the renderer's own
    context, which only grows, and the selection of the current context,
    which either stays or becomes the renderer's context: every other
    context, and in the renderer's context the display size, the time step,
    the configuration, the draw data and the frame count, are as before. *)
Theorem eventFilter_writes_only_own_events
    (r : ImGuiRenderer W) (watched : Z) (event : QEvent) (g : ImGui) :
  let g' := snd (eventFilter cfg QObject_eventFilter r watched event g) in
  (exists evs, reports_to (mCtx r) evs g g')
  /\ (CurrentContext g' = CurrentContext g \/ CurrentContext g' = mCtx r).
Proof.
  unfold eventFilter. cbn [snd].
  destruct (watched =? WindowWrapper.object (mWindow r)).
  2:{ split; [exists []; apply reports_to_refl | left; reflexivity]. }
  destruct event as [e|e|e|ty].
  - destruct (mouse_type e);
      try (split; [eexists; apply onMousePressedChange_reports | right; reflexivity]).
    split; [exists []; apply reports_to_refl | left; reflexivity].
  - split; [eexists; apply onWheel_reports | right; reflexivity].
  - destruct (key_type e);
      try (split; [eexists; apply onKeyPressRelease_reports
                  | right; apply (handlers_select_own_context cfg r g)]).
    split; [exists []; apply reports_to_refl | left; reflexivity].
  - split; [exists []; apply reports_to_refl | left; reflexivity].
Qed.

End InputCoverage.

(** The pointer moves over the bound window while the left button is held. *)
Lemma eventFilter_ignores_unhandled_events_witness :
  unhandled (QEvent_Mouse (mkQMouseEvent MouseMove 0 Qt.LeftButton)) = true
  /\ snd (eventFilter Examples.desktop QObject_eventFilter_default
            (Examples.renderer 40 1) 40
            (QEvent_Mouse (mkQMouseEvent MouseMove 0 Qt.LeftButton))
            (Examples.imgui 2))
     = Examples.imgui 2.
Proof.
  assert (Hun : unhandled (QEvent_Mouse (mkQMouseEvent MouseMove 0 Qt.LeftButton))
                = true) by reflexivity.
  split; [exact Hun|].
  exact (eventFilter_ignores_unhandled_events Examples.desktop
           QObject_eventFilter_default (Examples.renderer 40 1) 40
           (QEvent_Mouse (mkQMouseEvent MouseMove 0 Qt.LeftButton))
           (Examples.imgui 2) Hun).
Defined.

(** Ctrl+Return pressed, and Enter on the keypad released: both are the
    logical key Enter. *)
Lemma mapped_key_reports_key_then_text_then_modifiers_witness :
  (KeyPress <> ShortcutOverride
   /\ keyMap !! Qt.Key_Return = Some ImGuiKey_Enter
   /\ events_of (deliver Examples.desktop QObject_eventFilter_default
                  (Examples.renderer 40 1)
                  (QEvent_Key (mkQKeyEvent KeyPress Qt.Key_Return
                                 Qt.ControlModifier [0x0D]))
                  (Examples.imgui 2)) 1
      = [ EvKey ImGuiKey_Enter true; EvInputCharacter 0x0D;
          EvKey ImGuiKey_ModCtrl true; EvKey ImGuiKey_ModShift false;
          EvKey ImGuiKey_ModAlt false; EvKey ImGuiKey_ModSuper false ])
  /\ (KeyRelease <> ShortcutOverride
      /\ keyMap !! Qt.Key_Enter = Some ImGuiKey_Enter
      /\ events_of (deliver Examples.desktop QObject_eventFilter_default
                     (Examples.renderer 40 1)
                     (QEvent_Key (mkQKeyEvent KeyRelease Qt.Key_Enter 0 [0x0D]))
                     (Examples.imgui 2)) 1
         = [ EvKey ImGuiKey_Enter false;
             EvKey ImGuiKey_ModCtrl false; EvKey ImGuiKey_ModShift false;
             EvKey ImGuiKey_ModAlt false; EvKey ImGuiKey_ModSuper false ]).
Proof.
  assert (Hp : KeyPress <> ShortcutOverride) by discriminate.
  assert (Hr : KeyRelease <> ShortcutOverride) by discriminate.
  assert (Hk1 : keyMap !! Qt.Key_Return = Some ImGuiKey_Enter)
    by (vm_compute; reflexivity).
  assert (Hk2 : keyMap !! Qt.Key_Enter = Some ImGuiKey_Enter)
    by (vm_compute; reflexivity).
  split; (split; [assumption|]); (split; [assumption|]).
  - exact (mapped_key_reports_key_then_text_then_modifiers Examples.desktop
             QObject_eventFilter_default (Examples.renderer 40 1)
             (mkQKeyEvent KeyPress Qt.Key_Return Qt.ControlModifier [0x0D])
             ImGuiKey_Enter (Examples.imgui 2) Hp Hk1).
  - exact (mapped_key_reports_key_then_text_then_modifiers Examples.desktop
             QObject_eventFilter_default (Examples.renderer 40 1)
             (mkQKeyEvent KeyRelease Qt.Key_Enter 0 [0x0D])
             ImGuiKey_Enter (Examples.imgui 2) Hr Hk2).
Defined.

Lemma cursorMap_lookup (c : Z) :
  cursorMap !! c
  = if (0 <=? c) && (c <=? 8) then
      Some (nth (Z.to_nat c)
              [ Qt.ArrowCursor; Qt.IBeamCursor; Qt.SizeAllCursor; Qt.SizeVerCursor;
                Qt.SizeHorCursor; Qt.SizeBDiagCursor; Qt.SizeFDiagCursor;
                Qt.PointingHandCursor; Qt.ForbiddenCursor ] Qt.ArrowCursor)
    else None.
Proof.
  unfold cursorMap, QHash_of_list. cbn [fold_left fst snd].
  unfold ImGuiMouseCursor_Arrow, ImGuiMouseCursor_TextInput,
    ImGuiMouseCursor_ResizeAll, ImGuiMouseCursor_ResizeNS,
    ImGuiMouseCursor_ResizeEW, ImGuiMouseCursor_ResizeNESW,
    ImGuiMouseCursor_ResizeNWSE, ImGuiMouseCursor_Hand,
    ImGuiMouseCursor_NotAllowed.
  repeat match goal with
         | |- <[?k := _]> _ !! c = _ =>
             destruct (Z.eq_dec c k) as [->|?];
             [rewrite lookup_insert_eq; reflexivity
             |rewrite lookup_insert_ne by congruence]
         end.
  rewrite lookup_empty.
  destruct (Z.leb_spec 0 c), (Z.leb_spec c 8); try reflexivity. lia.
Qed.

Section CursorCoverage.
Context {W : Type} `{WindowWrapper.t W}.
Variable cfg : BuildConfig.

(** X4.  Unless cursors are compiled out or the configuration flag
    [ImGuiConfigFlags_NoMouseCursorChange] (bit 5) is set, in which cases
    nothing is done, [updateCursorShape] sets exactly one shape on the
    window: the blank cursor while the library draws the pointer itself or
    asks for no cursor, else the shape the table gives for the cursor the
    library asks for, and the arrow for every cursor the table does not
    list. *)
Theorem updateCursorShape_sets_requested_shape
    (g : ImGui) (io : ImGuiIO) (r : ImGuiRenderer W) :
  updateCursorShape cfg g io r
  = if QT_NO_CURSOR cfg || Z.testbit (ConfigFlags io) 5 then r
    else set_mWindow r
           (WindowWrapper.setCursorShape
              (cursor_shape_for (MouseDrawCursor io) (ImGuiApi.GetMouseCursor g))
              (mWindow r)).
Proof.
  unfold updateCursorShape, cursor_shape_for.
  destruct (QT_NO_CURSOR cfg); [reflexivity|]. cbn [orb].
  change ImGuiConfigFlags_NoMouseCursorChange with (2 ^ 5).
  rewrite testFlag_bit by lia.
  destruct (Z.testbit (ConfigFlags io) 5); [reflexivity|].
  change ImGuiMouseCursor_None with (-1).
  destruct (MouseDrawCursor io || (ImGuiApi.GetMouseCursor g =? -1)); [reflexivity|].
  rewrite cursorMap_lookup.
  destruct ((0 <=? ImGuiApi.GetMouseCursor g) && (ImGuiApi.GetMouseCursor g <=? 8));
    reflexivity.
Qed.

Lemma setCursorPos_window (io io' : ImGuiIO) (r r' : ImGuiRenderer W) :
  WantSetMousePos io' = WantSetMousePos io -> MousePos io' = MousePos io ->
  mWindow r' = mWindow r ->
  mWindow (setCursorPos cfg io' r') = mWindow (setCursorPos cfg io r).
Proof.
  intros Hw Hp Hr. unfold setCursorPos. rewrite Hw, Hp.
  destruct (QT_NO_CURSOR cfg), (WantSetMousePos io); cbn; rewrite ?Hr; reflexivity.
Qed.

(** X5.  [newFrame] reports the pointer exactly once, to the current
    context: the position of the pointer relative to the window when the
    window is active, and (-1, -1) when it is not, both asked of the window
    after the pointer has been moved where the library wanted it.  It begins
    exactly one frame and writes the window's size and pixel ratio into the
    display size and scale. *)
Theorem newFrame_reports_pointer_once
    (host : HostReadings) (r : ImGuiRenderer W) (g : ImGui) :
  let cur := CurrentContext g in
  let w := mWindow (setCursorPos cfg (ImGuiApi.GetIO g) r) in
  let p := WindowWrapper.mapFromGlobal w (QCursor_pos host) in
  let g' := snd (newFrame cfg host r g) in
  events_of g' cur
  = events_of g cur
    ++ [ if WindowWrapper.isActive w
         then EvMousePos (F32.of_Z (qx p)) (F32.of_Z (qy p))
         else EvMousePos (F32.of_Z (-1)) (F32.of_Z (-1)) ]
  /\ FrameCount (contexts g' cur) = FrameCount (contexts g cur) + 1
  /\ io_DisplaySize (ImGuiApi.GetIO g')
     = mkImVec2 (F32.of_Z (width (WindowWrapper.size (mWindow r))))
                (F32.of_Z (height (WindowWrapper.size (mWindow r))))
  /\ DisplayFramebufferScale (ImGuiApi.GetIO g')
     = mkImVec2 (F64.to_f32 (WindowWrapper.devicePixelRatio (mWindow r)))
                (F64.to_f32 (WindowWrapper.devicePixelRatio (mWindow r))).
Proof.
  intros cur w p g'. subst g'. unfold newFrame. cbn [snd].
  match goal with
  | |- context [WindowWrapper.isActive (mWindow (setCursorPos cfg ?io ?r1))] =>
      assert (Hw : mWindow (setCursorPos cfg io r1) = w)
        by (apply setCursorPos_window;
            [rewrite !GetIO_update_IO; reflexivity ..
            |reflexivity])
  end.
  rewrite Hw. fold p.
  destruct (WindowWrapper.isActive w);
    unfold ImGuiApi.GetIO, ImGuiApi.NewFrame; subst cur; unfold_io;
    repeat split; reflexivity.
Qed.

(** X7.  Of the renderer, [newFrame] changes the stored time and the window
    only: the context it is bound to, the graphics handles and the buffer
    capacities stay. *)
Theorem newFrame_changes_only_time_and_window
    (host : HostReadings) (r : ImGuiRenderer W) (g : ImGui) :
  exists w,
    fst (newFrame cfg host r g)
    = set_mWindow (set_mTime r (seconds_of_msecs (currentMSecsSinceEpoch host))) w.
Proof.
  unfold newFrame. cbn [fst]. unfold updateCursorShape, setCursorPos.
  repeat match goal with
         | |- context [if ?b then _ else _] => destruct b
         | |- context [match ?o with Some _ => _ | None => _ end] => destruct o
         end;
    eexists; unfold set_mWindow, set_mTime; cbn; reflexivity.
Qed.

End CursorCoverage.

Lemma F64_sub_diag (t : F64.t) :
  FloatFormat.is_finite t = true -> F64.ltb F64.zero t = true ->
  F64.sub t t = S754_zero false.
Proof.
  destruct t as [s|s| |s m e]; cbn; try discriminate.
  intros _ _. unfold F64.sub, SFsub. cbv zeta.
  rewrite Z.sub_diag. reflexivity.
Qed.

Section TimeCoverage.
Context {W : Type} `{WindowWrapper.t W}.
Variable cfg : BuildConfig.

(** X6.  Two frames begun while the clock reads the same positive number
    of milliseconds: the time step of the second is exactly 0.0. *)
Theorem equal_clock_readings_give_zero_time_step
    (r : ImGuiRenderer W) (prev next : HostReadings) (g1 g2 : ImGui) :
  is_qint64 (currentMSecsSinceEpoch prev) ->
  0 < currentMSecsSinceEpoch prev ->
  currentMSecsSinceEpoch next = currentMSecsSinceEpoch prev ->
  DeltaTime (ImGuiApi.GetIO
               (snd (newFrame cfg next (fst (newFrame cfg prev r g1)) g2)))
  = F32.zero.
Proof.
  intros Hq Hpos Heq.
  rewrite newFrame_DeltaTime, newFrame_mTime, Heq.
  destruct (seconds_of_msecs_wf _ Hq) as (_ & Hfin & Hgt).
  unfold time_step. rewrite (Hgt Hpos).
  rewrite F64_sub_diag by auto. reflexivity.
Qed.

End TimeCoverage.

(** Two frames within the same millisecond. *)
Lemma equal_clock_readings_give_zero_time_step_witness :
  is_qint64 (currentMSecsSinceEpoch (Examples.host_at 1700000000123))
  /\ 0 < currentMSecsSinceEpoch (Examples.host_at 1700000000123)
  /\ currentMSecsSinceEpoch (Examples.host_at 1700000000123)
     = currentMSecsSinceEpoch (Examples.host_at 1700000000123)
  /\ DeltaTime (ImGuiApi.GetIO (snd (newFrame Examples.desktop
        (Examples.host_at 1700000000123)
        (fst (newFrame Examples.desktop (Examples.host_at 1700000000123)
                (Examples.renderer 40 1) (Examples.imgui 1)))
        (Examples.imgui 1))))
     = F32.zero.
Proof.
  assert (Hq : is_qint64 (currentMSecsSinceEpoch (Examples.host_at 1700000000123)))
    by (unfold is_qint64; cbn; lia).
  assert (Hpos : 0 < currentMSecsSinceEpoch (Examples.host_at 1700000000123))
    by (cbn; lia).
  split; [exact Hq|]. split; [exact Hpos|]. split; [reflexivity|].
  exact (equal_clock_readings_give_zero_time_step Examples.desktop
           (Examples.renderer 40 1) (Examples.host_at 1700000000123)
           (Examples.host_at 1700000000123) (Examples.imgui 1) (Examples.imgui 1)
           Hq Hpos eq_refl).
Defined.

(* ===================================================================== *)
(** ** Further properties: arithmetic that is exact *)
(* ===================================================================== *)

Section FloatExact.
Variables prec emax : Z.
Hypothesis Hprec : 0 < prec.
Hypothesis Hemax : prec < emax.

Lemma shr_1_even (q : Z) :
  0 <= q ->
  shr_1 {| shr_m := 2 * q; shr_r := false; shr_s := false |}
  = {| shr_m := q; shr_r := false; shr_s := false |}.
Proof. destruct q; [reflexivity | reflexivity | lia]. Qed.

Lemma iter_shr_1_exact (p : positive) (q : Z) :
  0 <= q ->
  SpecFloat.iter_pos shr_1 p
    {| shr_m := q * 2 ^ Z.pos p; shr_r := false; shr_s := false |}
  = {| shr_m := q; shr_r := false; shr_s := false |}.
Proof.
  revert q. induction p as [p IH|p IH|]; intros q Hq; cbn [SpecFloat.iter_pos].
  - replace (q * 2 ^ Z.pos p~1) with (2 * ((q * 2 ^ Z.pos p) * 2 ^ Z.pos p)).
    + rewrite shr_1_even by (apply Z.mul_nonneg_nonneg; [apply Z.mul_nonneg_nonneg|]; lia).
      rewrite IH by (apply Z.mul_nonneg_nonneg; lia). apply IH, Hq.
    + rewrite (Pos2Z.inj_xI p), Z.pow_add_r, Z.pow_1_r by lia.
      rewrite Z.pow_twice_r. ring.
  - replace (q * 2 ^ Z.pos p~0) with ((q * 2 ^ Z.pos p) * 2 ^ Z.pos p).
    + rewrite IH by (apply Z.mul_nonneg_nonneg; lia). apply IH, Hq.
    + rewrite (Pos2Z.inj_xO p), Z.pow_twice_r. ring.
  - rewrite Z.pow_1_r, Z.mul_comm. apply shr_1_even, Hq.
Qed.

(** A mantissa whose discarded digits are all zero is shifted exactly. *)
Lemma shr_fexp_exact (q n e : Z) :
  0 <= q -> 0 <= n ->
  fexp prec emax (Zdigits2 (q * 2 ^ n) + e) = e + n ->
  shr_fexp prec emax (q * 2 ^ n) e loc_Exact
  = ({| shr_m := q; shr_r := false; shr_s := false |}, e + n).
Proof.
  intros Hq Hn Hf. unfold shr_fexp. rewrite Hf.
  replace (e + n - e) with n by lia. cbn [shr_record_of_loc].
  destruct n as [|p|p]; [| |lia]; cbn [shr].
  - rewrite Z.pow_0_r, Z.mul_1_r, Z.add_0_r. reflexivity.
  - rewrite iter_shr_1_exact by exact Hq. reflexivity.
Qed.

(** Rounding a value that fits the format returns it. *)
Lemma binary_round_aux_exact (s : bool) (q n e : Z) :
  0 < q -> 0 <= n ->
  fexp prec emax (Zdigits2 q + n + e) = e + n ->
  e + n <= emax - prec ->
  binary_round_aux prec emax s (q * 2 ^ n) e loc_Exact
  = S754_finite s (Z.to_pos q) (e + n).
Proof.
  intros Hq Hn Hf Hmax. unfold binary_round_aux.
  rewrite shr_fexp_exact; [|lia|exact Hn|].
  2:{ rewrite Zdigits2_mul_pow2 by lia. exact Hf. }
  cbn [shr_m loc_of_shr_record round_nearest_even].
  replace q with (q * 2 ^ 0) at 1 by (rewrite Z.pow_0_r; lia).
  rewrite shr_fexp_exact; [|lia|lia|].
  2:{ rewrite Z.pow_0_r, Z.mul_1_r, Z.add_0_r.
      replace (Zdigits2 q + (e + n)) with (Zdigits2 q + n + e) by lia. exact Hf. }
  cbn [shr_m]. rewrite Z.add_0_r.
  destruct q as [|p|p]; [lia| |lia].
  destruct (Z.leb_spec (e + n) (emax - prec)); [reflexivity|lia].
Qed.

Lemma fexp_normal (d : Z) : 1 <= d -> fexp prec emax d = d - prec.
Proof. intros Hd. unfold fexp, emin. lia. Qed.

(** An integer with at most [prec] digits is converted exactly. *)
Lemma binary_round_int_exact (s : bool) (m : positive) :
  Zdigits2 (Z.pos m) <= prec ->
  binary_round prec emax s m 0
  = S754_finite s (Z.to_pos (Z.pos m * 2 ^ (prec - Zdigits2 (Z.pos m))))
      (Zdigits2 (Z.pos m) - prec).
Proof.
  intros Hd. pose proof (Zdigits2_pos (Z.pos m) ltac:(lia)) as Hd1.
  unfold binary_round.
  change (Z.pos (digits2_pos m)) with (Zdigits2 (Z.pos m)).
  rewrite Z.add_0_r, fexp_normal by lia.
  pose proof (shl_align_mantissa m 0 (Zdigits2 (Z.pos m) - prec) ltac:(lia)) as Hm.
  assert (He : snd (shl_align m 0 (Zdigits2 (Z.pos m) - prec))
               = Zdigits2 (Z.pos m) - prec).
  { unfold shl_align.
    destruct (Zdigits2 (Z.pos m) - prec - 0) as [|d|d] eqn:E; cbn [snd]; lia. }
  destruct (shl_align m 0 (Zdigits2 (Z.pos m) - prec)) as [mz ez].
  cbn [fst snd] in Hm, He. subst ez. rewrite Hm.
  replace (0 - (Zdigits2 (Z.pos m) - prec)) with (prec - Zdigits2 (Z.pos m)) by lia.
  set (q := Z.pos m * 2 ^ (prec - Zdigits2 (Z.pos m))).
  assert (Hq : 0 < q) by (apply Z.mul_pos_pos; [lia | apply Z.pow_pos_nonneg; lia]).
  assert (Hdq : Zdigits2 q = prec).
  { unfold q. rewrite Zdigits2_mul_pow2 by lia. lia. }
  replace q with (q * 2 ^ 0) at 1 by (rewrite Z.pow_0_r; lia).
  rewrite binary_round_aux_exact; try lia.
  - rewrite Z.add_0_r. reflexivity.
  - rewrite Hdq. rewrite !Z.add_0_r.
    replace (prec + (Zdigits2 (Z.pos m) - prec)) with (Zdigits2 (Z.pos m)) by lia.
    apply fexp_normal. lia.
Qed.

Lemma binary_normalize_exact (z : Z) :
  0 < z -> Zdigits2 z <= prec ->
  binary_normalize prec emax z 0 false
  = S754_finite false (Z.to_pos (z * 2 ^ (prec - Zdigits2 z))) (Zdigits2 z - prec).
Proof.
  intros Hz Hd. destruct z as [|m|m]; [lia| |lia].
  apply binary_round_int_exact, Hd.
Qed.

Lemma binary_normalize_exact_neg (z : Z) :
  0 < z -> Zdigits2 z <= prec ->
  binary_normalize prec emax (- z) 0 false
  = S754_finite true (Z.to_pos (z * 2 ^ (prec - Zdigits2 z))) (Zdigits2 z - prec).
Proof.
  intros Hz Hd. destruct z as [|m|m]; [lia| |lia].
  apply binary_round_int_exact, Hd.
Qed.

Lemma Zdigits2_mul_ge (a b : Z) :
  0 < a -> 0 < b -> Zdigits2 a + Zdigits2 b - 1 <= Zdigits2 (a * b).
Proof.
  intros Ha Hb.
  pose proof (Zdigits2_bounds a Ha) as [Hla _].
  pose proof (Zdigits2_bounds b Hb) as [Hlb _].
  pose proof (Zdigits2_pos a Ha). pose proof (Zdigits2_pos b Hb).
  assert (2 ^ (Zdigits2 a + Zdigits2 b - 2) <= a * b).
  { replace (Zdigits2 a + Zdigits2 b - 2) with ((Zdigits2 a - 1) + (Zdigits2 b - 1)) by lia.
    rewrite Z.pow_add_r by lia.
    apply Z.mul_le_mono_nonneg; try assumption; apply Z.pow_nonneg; lia. }
  pose proof (Zdigits2_gt_of_ge (a * b) (Zdigits2 a + Zdigits2 b - 2) ltac:(lia) H1).
  lia.
Qed.

(** The product of two integers is exact when it has at most [prec]
    digits. *)
Lemma SFmul_exact (a b : Z) :
  0 < a -> 0 < b -> Zdigits2 (a * b) <= prec ->
  SFmul prec emax (binary_normalize prec emax a 0 false)
                  (binary_normalize prec emax b 0 false)
  = binary_normalize prec emax (a * b) 0 false.
Proof.
  intros Ha Hb Hd.
  assert (Hab : 0 < a * b) by (apply Z.mul_pos_pos; assumption).
  pose proof (Zdigits2_pos a Ha) as Hda. pose proof (Zdigits2_pos b Hb) as Hdb.
  pose proof (Zdigits2_pos _ Hab) as Hdab.
  pose proof (Zdigits2_mul_ge a b Ha Hb) as Hge.
  assert (Hda' : Zdigits2 a <= prec).
  { pose proof (Zdigits2_mono a (a * b) ltac:(nia)). lia. }
  assert (Hdb' : Zdigits2 b <= prec).
  { pose proof (Zdigits2_mono b (a * b) ltac:(nia)). lia. }
  rewrite !binary_normalize_exact by assumption.
  cbn [SFmul xorb].
  set (da := Zdigits2 a) in *. set (db := Zdigits2 b) in *.
  set (dab := Zdigits2 (a * b)) in *.
  assert (Hpa : 0 < 2 ^ (prec - da)) by (apply Z.pow_pos_nonneg; lia).
  assert (Hpb : 0 < 2 ^ (prec - db)) by (apply Z.pow_pos_nonneg; lia).
  assert (Hpab : 0 < 2 ^ (prec - dab)) by (apply Z.pow_pos_nonneg; lia).
  assert (Hqa : 0 < a * 2 ^ (prec - da)) by (apply Z.mul_pos_pos; assumption).
  assert (Hqb : 0 < b * 2 ^ (prec - db)) by (apply Z.mul_pos_pos; assumption).
  rewrite Pos2Z.inj_mul, !Z2Pos.id by assumption.
  set (n := prec - da - db + dab).
  replace (a * 2 ^ (prec - da) * (b * 2 ^ (prec - db)))
    with ((a * b * 2 ^ (prec - dab)) * 2 ^ n).
  2:{ rewrite <- (Z.mul_assoc (a * b)), <- Z.pow_add_r by (unfold n; lia).
      replace (prec - dab + n) with ((prec - da) + (prec - db)) by (unfold n; lia).
      rewrite Z.pow_add_r by lia. ring. }
  rewrite binary_round_aux_exact; try (unfold n; nia).
  - f_equal. unfold n. lia.
  - rewrite Zdigits2_mul_pow2 by lia. fold dab.
    replace (dab + (prec - dab) + n + (da - prec + (db - prec))) with dab
      by (unfold n; lia).
    rewrite fexp_normal by lia. unfold n. lia.
Qed.

(** A quotient that is an integer with at most [prec] digits is exact. *)
Lemma SFdiv_exact (sa sb : bool) (b k : Z) :
  3 <= emax -> 0 < b -> 0 < k -> Zdigits2 (b * k) <= prec ->
  SFdiv prec emax
    (S754_finite sa (Z.to_pos (b * k * 2 ^ (prec - Zdigits2 (b * k))))
                 (Zdigits2 (b * k) - prec))
    (S754_finite sb (Z.to_pos (b * 2 ^ (prec - Zdigits2 b))) (Zdigits2 b - prec))
  = S754_finite (xorb sa sb) (Z.to_pos (k * 2 ^ (prec - Zdigits2 k)))
      (Zdigits2 k - prec).
Proof.
  intros Hemax3 Hb Hk Hd.
  assert (Hbk : 0 < b * k) by (apply Z.mul_pos_pos; assumption).
  pose proof (Zdigits2_pos b Hb) as Hdb. pose proof (Zdigits2_pos k Hk) as Hdk.
  pose proof (Zdigits2_pos _ Hbk) as Hda.
  pose proof (Zdigits2_mul_ge b k Hb Hk) as Hge.
  assert (Hdb' : Zdigits2 b <= Zdigits2 (b * k)) by (apply Zdigits2_mono; nia).
  assert (Hdk' : Zdigits2 k <= Zdigits2 (b * k)) by (apply Zdigits2_mono; nia).
  assert (Hle : Zdigits2 (b * k) <= Zdigits2 b + Zdigits2 k).
  { apply Zdigits2_le_of_lt; [lia|]. split; [lia|].
    pose proof (Zdigits2_bounds b Hb) as [_ Hub].
    pose proof (Zdigits2_bounds k Hk) as [_ Huk].
    rewrite Z.pow_add_r by lia.
    apply Z.mul_lt_mono_nonneg; lia. }
  set (da := Zdigits2 (b * k)) in *. set (db := Zdigits2 b) in *.
  set (dk := Zdigits2 k) in *.
  assert (Hpa : 0 < 2 ^ (prec - da)) by (apply Z.pow_pos_nonneg; lia).
  assert (Hpb : 0 < 2 ^ (prec - db)) by (apply Z.pow_pos_nonneg; lia).
  assert (Hpk : 0 < 2 ^ (prec - dk)) by (apply Z.pow_pos_nonneg; lia).
  assert (Hqa : 0 < b * k * 2 ^ (prec - da)) by (apply Z.mul_pos_pos; assumption).
  assert (Hqb : 0 < b * 2 ^ (prec - db)) by (apply Z.mul_pos_pos; assumption).
  assert (Hqk : 0 < k * 2 ^ (prec - dk)) by (apply Z.mul_pos_pos; assumption).
  cbn [SFdiv]. unfold SFdiv_core_binary.
  rewrite !Z2Pos.id by assumption.
  rewrite !Zdigits2_mul_pow2 by lia. fold da db.
  replace (da + (prec - da) + (da - prec) - (db + (prec - db) + (db - prec)))
    with (da - db) by lia.
  replace (fexp prec emax (da - db)) with (da - db - prec)
    by (unfold fexp, emin; lia).
  replace (Z.min (da - db - prec) (da - prec - (db - prec))) with (da - db - prec)
    by lia.
  set (s := da - prec - (db - prec) - (da - db - prec)).
  assert (Hs : s = prec) by (unfold s; lia).
  set (m' := match s with
             | 0 => b * k * 2 ^ (prec - da)
             | Z.pos _ => Z.shiftl (b * k * 2 ^ (prec - da)) s
             | Z.neg _ => 0
             end).
  assert (Hm' : m' = b * k * 2 ^ (prec - da) * 2 ^ prec).
  { subst m'. destruct s as [|p|p] eqn:Es; [lia| |lia].
    rewrite Z.shiftl_mul_pow2 by lia. rewrite Hs. reflexivity. }
  rewrite Hm'. clear m' Hm' Hs s.
  set (n := dk + db - da).
  assert (Hn : 0 <= n) by (unfold n; lia).
  assert (Hdiv : b * k * 2 ^ (prec - da) * 2 ^ prec
                 = (k * 2 ^ (prec - dk) * 2 ^ n) * (b * 2 ^ (prec - db))).
  { replace (b * k * 2 ^ (prec - da) * 2 ^ prec)
      with (b * k * 2 ^ ((prec - da) + prec)) by (rewrite Z.pow_add_r by lia; ring).
    replace (k * 2 ^ (prec - dk) * 2 ^ n * (b * 2 ^ (prec - db)))
      with (b * k * 2 ^ ((prec - dk) + n + (prec - db)))
      by (rewrite !Z.pow_add_r by lia; ring).
    f_equal. f_equal. unfold n. lia. }
  destruct (Z.div_eucl (b * k * 2 ^ (prec - da) * 2 ^ prec) (b * 2 ^ (prec - db)))
    as [q r] eqn:Eq.
  assert (Hq : q = k * 2 ^ (prec - dk) * 2 ^ n).
  { transitivity ((b * k * 2 ^ (prec - da) * 2 ^ prec) / (b * 2 ^ (prec - db))).
    - unfold Z.div. rewrite Eq. reflexivity.
    - rewrite Hdiv. apply Z.div_mul. lia. }
  assert (Hr : r = 0).
  { transitivity ((b * k * 2 ^ (prec - da) * 2 ^ prec) mod (b * 2 ^ (prec - db))).
    - unfold Z.modulo. rewrite Eq. reflexivity.
    - rewrite Hdiv. apply Z.mod_mul. lia. }
  subst q r.
  replace (new_location (b * 2 ^ (prec - db)) 0) with loc_Exact
    by (unfold new_location, new_location_even, new_location_odd;
        destruct (Z.even _); reflexivity).
  rewrite binary_round_aux_exact; try lia.
  - f_equal. unfold n. lia.
  - rewrite Zdigits2_mul_pow2 by lia. fold dk.
    replace (dk + (prec - dk) + n + (da - db - prec)) with dk by (unfold n; lia).
    rewrite fexp_normal by lia. unfold n. lia.
Qed.

(** Truncating an exactly converted integer gives it back. *)
Lemma trunc_binary_normalize (z : Z) :
  0 <= z -> Zdigits2 z <= prec ->
  FloatFormat.trunc (binary_normalize prec emax z 0 false) = Some z.
Proof.
  intros Hz Hd. destruct (Z.eq_dec z 0) as [->|Hne]; [reflexivity|].
  rewrite binary_normalize_exact by lia.
  cbn [FloatFormat.trunc].
  assert (0 < 2 ^ (prec - Zdigits2 z)) by (apply Z.pow_pos_nonneg; lia).
  rewrite Z2Pos.id by (apply Z.mul_pos_pos; lia).
  replace (Zdigits2 z - prec) with (- (prec - Zdigits2 z)) by lia.
  rewrite Z.shiftl_opp_r, Z.shiftr_div_pow2 by lia.
  rewrite Z.div_mul by lia. reflexivity.
Qed.

(** Re-rounding from a wider format keeps an integer that fits. *)
Lemma convert_binary_normalize (prec1 emax1 : Z) (z : Z) :
  prec <= prec1 -> prec1 < emax1 ->
  0 < z -> Zdigits2 z <= prec ->
  FloatFormat.convert prec emax (binary_normalize prec1 emax1 z 0 false)
  = binary_normalize prec emax z 0 false.
Proof.
  intros Hp Hemax1 Hz Hd. pose proof (Zdigits2_pos z Hz) as Hd1.
  rewrite (binary_normalize_exact z Hz Hd).
  replace (binary_normalize prec1 emax1 z 0 false)
    with (S754_finite false (Z.to_pos (z * 2 ^ (prec1 - Zdigits2 z)))
            (Zdigits2 z - prec1)).
  2:{ symmetry. unfold binary_normalize. destruct z as [|m|m]; [lia| |lia].
      unfold binary_round.
      change (Z.pos (digits2_pos m)) with (Zdigits2 (Z.pos m)).
      rewrite Z.add_0_r.
      replace (fexp prec1 emax1 (Zdigits2 (Z.pos m))) with (Zdigits2 (Z.pos m) - prec1)
        by (unfold fexp, emin; lia).
      pose proof (shl_align_mantissa m 0 (Zdigits2 (Z.pos m) - prec1) ltac:(lia)) as Hm.
      assert (He : snd (shl_align m 0 (Zdigits2 (Z.pos m) - prec1))
                   = Zdigits2 (Z.pos m) - prec1).
      { unfold shl_align.
        destruct (Zdigits2 (Z.pos m) - prec1 - 0) as [|d|d] eqn:E; cbn [snd]; lia. }
      destruct (shl_align m 0 (Zdigits2 (Z.pos m) - prec1)) as [mz ez].
      cbn [fst snd] in Hm, He. subst ez. rewrite Hm.
      replace (0 - (Zdigits2 (Z.pos m) - prec1)) with (prec1 - Zdigits2 (Z.pos m)) by lia.
      set (q := Z.pos m * 2 ^ (prec1 - Zdigits2 (Z.pos m))).
      assert (Hq : 0 < q) by (apply Z.mul_pos_pos; [lia | apply Z.pow_pos_nonneg; lia]).
      assert (Hdq : Zdigits2 q = prec1).
      { unfold q. rewrite Zdigits2_mul_pow2 by lia. lia. }
      unfold binary_round_aux, shr_fexp.
      rewrite Hdq.
      replace (fexp prec1 emax1 (prec1 + (Zdigits2 (Z.pos m) - prec1))
               - (Zdigits2 (Z.pos m) - prec1)) with 0 by (unfold fexp, emin; lia).
      cbn [shr shr_record_of_loc shr_m loc_of_shr_record round_nearest_even].
      rewrite Hdq.
      replace (fexp prec1 emax1 (prec1 + (Zdigits2 (Z.pos m) - prec1))
               - (Zdigits2 (Z.pos m) - prec1)) with 0 by (unfold fexp, emin; lia).
      cbn [shr shr_m].
      destruct q as [|pq|pq]; [lia| |lia].
      destruct (Z.leb_spec (Zdigits2 (Z.pos m) - prec1) (emax1 - prec1)); [reflexivity|lia]. }
  cbn [FloatFormat.convert]. unfold binary_round.
  set (d := Zdigits2 z) in *.
  assert (Hp1 : 0 < 2 ^ (prec1 - d)) by (apply Z.pow_pos_nonneg; lia).
  assert (Hq1 : 0 < z * 2 ^ (prec1 - d)) by (apply Z.mul_pos_pos; assumption).
  replace (Z.pos (digits2_pos (Z.to_pos (z * 2 ^ (prec1 - d))))) with prec1.
  2:{ change (Z.pos (digits2_pos ?m)) with (Zdigits2 (Z.pos m)).
      rewrite Z2Pos.id by assumption.
      rewrite Zdigits2_mul_pow2 by lia. fold d. lia. }
  replace (prec1 + (d - prec1)) with d by lia.
  rewrite fexp_normal by lia.
  unfold shl_align.
  destruct (d - prec - (d - prec1)) as [|n|n] eqn:En; [| |lia].
  - rewrite Z2Pos.id by assumption.
    replace (prec1 - d) with (prec - d) by lia.
    assert (Hq : 0 < z * 2 ^ (prec - d))
      by (apply Z.mul_pos_pos; [lia | apply Z.pow_pos_nonneg; lia]).
    replace (z * 2 ^ (prec - d)) with ((z * 2 ^ (prec - d)) * 2 ^ 0) at 1
      by (rewrite Z.pow_0_r; lia).
    rewrite binary_round_aux_exact; try lia.
    + f_equal. lia.
    + rewrite Zdigits2_mul_pow2 by lia. fold d.
      replace (d + (prec - d) + 0 + (d - prec1)) with d by lia.
      rewrite fexp_normal by lia. lia.
  - rewrite Z2Pos.id by assumption.
    assert (Hq : 0 < z * 2 ^ (prec - d))
      by (apply Z.mul_pos_pos; [lia | apply Z.pow_pos_nonneg; lia]).
    replace (z * 2 ^ (prec1 - d)) with ((z * 2 ^ (prec - d)) * 2 ^ Z.pos n).
    2:{ rewrite <- Z.mul_assoc, <- Z.pow_add_r by lia. f_equal. f_equal. lia. }
    rewrite binary_round_aux_exact; try lia.
    + f_equal. lia.
    + rewrite Zdigits2_mul_pow2 by lia. fold d.
      replace (d + (prec - d) + Z.pos n + (d - prec1)) with d by lia.
      rewrite fexp_normal by lia. lia.
Qed.

End FloatExact.

(** [(int)((float)a * (float)b)] is [a * b] while the product has at most 24
    binary digits. *)
Lemma F32_to_int_mul (a b : Z) :
  0 <= a -> 0 < b < 2 ^ 24 -> a * b < 2 ^ 24 ->
  F32.to_int (F32.mul (F32.of_Z a) (F32.of_Z b)) = a * b.
Proof.
  intros Ha [Hb Hb24] Hab. unfold F32.to_int, F32.mul, F32.of_Z.
  assert (Hdb : Zdigits2 b <= 24).
  { apply Zdigits2_le_of_lt; lia. }
  destruct (Z.eq_dec a 0) as [->|Hne].
  - rewrite (binary_normalize_exact F32.prec F32.emax eq_refl eq_refl b Hb Hdb).
    reflexivity.
  - assert (Hd : Zdigits2 (a * b) <= 24) by (apply Zdigits2_le_of_lt; nia).
    rewrite (SFmul_exact F32.prec F32.emax eq_refl eq_refl) by (assumption || lia).
    rewrite (trunc_binary_normalize F32.prec F32.emax eq_refl eq_refl) by (assumption || nia).
    unfold F32.INT_MIN, F32.INT_MAX.
    destruct (Z.leb_spec (- 2 ^ 31) (a * b)); [|nia].
    destruct (Z.leb_spec (a * b) (2 ^ 31 - 1)); [reflexivity|lia].
Qed.

Lemma F64_to_f32_of_Z (k : Z) :
  0 < k -> k < 2 ^ 24 -> F64.to_f32 (F64.of_Z k) = F32.of_Z k.
Proof.
  intros Hk Hlt. unfold F64.to_f32, F64.of_Z, F32.of_Z.
  apply (convert_binary_normalize F32.prec F32.emax eq_refl eq_refl F64.prec F64.emax);
    try (unfold F32.prec, F64.prec, F64.emax; lia).
  apply Zdigits2_le_of_lt; unfold F32.prec; lia.
Qed.

(** The angle of [k] notches of a wheel, 120 eighths of a degree each,
    divided by [120.0f] is exactly [k]. *)
Lemma F32_div_notches (k : Z) :
  - 2 ^ 24 < 120 * k < 2 ^ 24 ->
  F32.div (F32.of_Z (120 * k)) (F32.of_Z 120) = F32.of_Z k.
Proof.
  intros Hk. unfold F32.div, F32.of_Z.
  destruct (Z.lt_trichotomy k 0) as [Hneg|[->|Hpos]].
  - replace k with (- (- k)) by lia. set (k' := - k) in *.
    replace (120 * - k') with (- (120 * k')) by lia.
    assert (Hd : Zdigits2 (120 * k') <= F32.prec)
      by (apply Zdigits2_le_of_lt; unfold F32.prec; lia).
    assert (Hdk : Zdigits2 k' <= F32.prec)
      by (apply Zdigits2_le_of_lt; unfold F32.prec; lia).
    rewrite !(binary_normalize_exact_neg F32.prec F32.emax eq_refl eq_refl)
      by (assumption || lia).
    rewrite (binary_normalize_exact F32.prec F32.emax eq_refl eq_refl 120)
      by (lia || (vm_compute; discriminate)).
    apply (SFdiv_exact F32.prec F32.emax eq_refl eq_refl true false 120 k');
      (assumption || lia || (unfold F32.emax; lia)).
  - vm_compute. reflexivity.
  - assert (Hd : Zdigits2 (120 * k) <= F32.prec)
      by (apply Zdigits2_le_of_lt; unfold F32.prec; lia).
    assert (Hdk : Zdigits2 k <= F32.prec)
      by (apply Zdigits2_le_of_lt; unfold F32.prec; lia).
    rewrite !(binary_normalize_exact F32.prec F32.emax eq_refl eq_refl)
      by (assumption || lia || (vm_compute; discriminate)).
    apply (SFdiv_exact F32.prec F32.emax eq_refl eq_refl false false 120 k);
      (assumption || lia || (unfold F32.emax; lia)).
Qed.

Section WheelNotches.
Context {W : Type} `{WindowWrapper.t W}.
Variable cfg : BuildConfig.
Variable QObject_eventFilter : Z -> QEvent -> bool.

(** X18.  A wheel event without pixel delta whose angle deltas are whole
    notches, 120 eighths of a degree each, reports a scroll of exactly that
    many notches on each axis: the division by [120.0f] loses nothing. *)
Theorem whole_notches_scroll_whole_steps
    (r : ImGuiRenderer W) (e : QWheelEvent) (kx ky : Z) (g : ImGui) :
  pixelDelta e = mkQPoint 0 0 ->
  angleDelta e = mkQPoint (120 * kx) (120 * ky) ->
  - 2 ^ 24 < 120 * kx < 2 ^ 24 ->
  - 2 ^ 24 < 120 * ky < 2 ^ 24 ->
  events_of (deliver cfg QObject_eventFilter r (QEvent_Wheel e) g) (mCtx r)
  = events_of g (mCtx r) ++ [EvMouseWheel (F32.of_Z kx) (F32.of_Z ky)].
Proof.
  intros Hpx Han Hkx Hky. unfold deliver, eventFilter. cbn [snd].
  rewrite Z.eqb_refl.
  rewrite (reports_to_events _ _ _ _ (onWheel_reports r e g)).
  unfold wheel_x, wheel_y. rewrite Hpx, Han. cbn [qx qy Z.eqb negb].
  rewrite !F32_div_notches by assumption. reflexivity.
Qed.

End WheelNotches.

(** Three notches away from the user and one to the left. *)
Lemma whole_notches_scroll_whole_steps_witness :
  let e := mkQWheelEvent (mkQPoint 0 0) (mkQPoint (-120) 360) in
  pixelDelta e = mkQPoint 0 0
  /\ angleDelta e = mkQPoint (120 * -1) (120 * 3)
  /\ - 2 ^ 24 < 120 * -1 < 2 ^ 24
  /\ - 2 ^ 24 < 120 * 3 < 2 ^ 24
  /\ events_of (deliver Examples.desktop QObject_eventFilter_default
                 (Examples.renderer 40 1) (QEvent_Wheel e) (Examples.imgui 2)) 1
     = [EvMouseWheel (F32.of_Z (-1)) (F32.of_Z 3)].
Proof.
  intros e.
  assert (Hpx : pixelDelta e = mkQPoint 0 0) by reflexivity.
  assert (Han : angleDelta e = mkQPoint (120 * -1) (120 * 3)) by reflexivity.
  assert (Hkx : - 2 ^ 24 < 120 * -1 < 2 ^ 24) by lia.
  assert (Hky : - 2 ^ 24 < 120 * 3 < 2 ^ 24) by lia.
  repeat (split; [assumption|]).
  exact (whole_notches_scroll_whole_steps Examples.desktop QObject_eventFilter_default
           (Examples.renderer 40 1) e (-1) 3 (Examples.imgui 2) Hpx Han Hkx Hky).
Defined.

Section FramebufferSize.
Context {W : Type} `{WindowWrapper.t W}.
Variable cfg : BuildConfig.

Lemma newFrame_display (host : HostReadings) (r : ImGuiRenderer W) (g : ImGui) :
  io_DisplaySize (ImGuiApi.GetIO (snd (newFrame cfg host r g)))
  = mkImVec2 (F32.of_Z (width (WindowWrapper.size (mWindow r))))
             (F32.of_Z (height (WindowWrapper.size (mWindow r))))
  /\ DisplayFramebufferScale (ImGuiApi.GetIO (snd (newFrame cfg host r g)))
     = mkImVec2 (F64.to_f32 (WindowWrapper.devicePixelRatio (mWindow r)))
                (F64.to_f32 (WindowWrapper.devicePixelRatio (mWindow r))).
Proof.
  unfold newFrame. cbn [snd]. rewrite GetIO_NewFrame.
  match goal with
  | |- context [if ?b then _ else _] => destruct b
  end; unfold ImGuiApi.AddMousePosEvent; rewrite !GetIO_update_IO; split; reflexivity.
Qed.

(** X8.  For a window of size w x h and an integral pixel ratio k, with
    w * k and h * k below 2^24, the framebuffer size [renderDrawList]
    computes from what [newFrame] has written is exactly (w * k) x (h * k):
    the conversions to [float], the product and the truncation lose
    nothing.  So after [newFrame] the rasterizer skips its work exactly when
    the window is 0 wide or 0 high. *)
Theorem framebuffer_size_is_window_size_times_ratio
    (host : HostReadings) (r : ImGuiRenderer W) (g : ImGui) (k : Z) :
  let sz := WindowWrapper.size (mWindow r) in
  let io := ImGuiApi.GetIO (snd (newFrame cfg host r g)) in
  WindowWrapper.devicePixelRatio (mWindow r) = F64.of_Z k ->
  0 < k < 2 ^ 24 ->
  0 <= width sz -> width sz * k < 2 ^ 24 ->
  0 <= height sz -> height sz * k < 2 ^ 24 ->
  fbWidth_of io = width sz * k /\ fbHeight_of io = height sz * k.
Proof.
  intros sz io Hdpr Hk Hw Hwk Hh Hhk. subst io.
  destruct (newFrame_display host r g) as [Hsize Hscale].
  unfold fbWidth_of, fbHeight_of. rewrite Hsize, Hscale, Hdpr. cbn [vx vy].
  rewrite F64_to_f32_of_Z by lia.
  split; apply F32_to_int_mul; assumption.
Qed.

End FramebufferSize.

(** The 800x600 window of the examples on a display with pixel ratio 2. *)
Lemma framebuffer_size_is_window_size_times_ratio_witness :
  let r := set_mWindow (Examples.renderer 40 1)
             (mkSimpleWindow 40 [] (mkQPoint 100 50) (mkQSize 800 600) (F64.of_Z 2)
                true Qt.ArrowCursor None) in
  let io := ImGuiApi.GetIO (snd (newFrame Examples.desktop (Examples.host_at 1000) r
                                   (Examples.imgui 1))) in
  WindowWrapper.devicePixelRatio (mWindow r) = F64.of_Z 2
  /\ 0 < 2 < 2 ^ 24
  /\ 0 <= width (WindowWrapper.size (mWindow r))
  /\ width (WindowWrapper.size (mWindow r)) * 2 < 2 ^ 24
  /\ 0 <= height (WindowWrapper.size (mWindow r))
  /\ height (WindowWrapper.size (mWindow r)) * 2 < 2 ^ 24
  /\ fbWidth_of io = 1600 /\ fbHeight_of io = 1200.
Proof.
  intros r io.
  assert (Hdpr : WindowWrapper.devicePixelRatio (mWindow r) = F64.of_Z 2) by reflexivity.
  assert (Hk : 0 < 2 < 2 ^ 24) by lia.
  assert (Hw : 0 <= width (WindowWrapper.size (mWindow r))) by (cbn; lia).
  assert (Hwk : width (WindowWrapper.size (mWindow r)) * 2 < 2 ^ 24) by (cbn; lia).
  assert (Hh : 0 <= height (WindowWrapper.size (mWindow r))) by (cbn; lia).
  assert (Hhk : height (WindowWrapper.size (mWindow r)) * 2 < 2 ^ 24) by (cbn; lia).
  repeat (split; [assumption|]).
  exact (framebuffer_size_is_window_size_times_ratio Examples.desktop
           (Examples.host_at 1000) r (Examples.imgui 1) 2 Hdpr Hk Hw Hwk Hh Hhk).
Defined.

(* ===================================================================== *)
(** ** Further properties: the rasterizer *)
(* ===================================================================== *)

Lemma issue_leaves_calls (P : GL.call -> bool) (c : GL.call) :
  P c = false -> leaves_calls P (fun s => snd (GL.issue c s)).
Proof.
  intros Hc s. rewrite issue_calls. unfold calls_satisfying.
  rewrite List.filter_app. cbn [List.filter]. rewrite Hc. apply app_nil_r.
Qed.

Section AddsCalls.
Variable P : GL.call -> bool.

Lemma adds_calls_ret {A} (a : A) : adds_calls P (GL.ret a) [].
Proof. intros s. cbn. rewrite app_nil_r. reflexivity. Qed.

Lemma adds_calls_bind {A B} (m : GL.M A) (k : A -> GL.M B) (l1 l2 l : list GL.call) :
  adds_calls P m l1 -> (forall a, adds_calls P (k a) l2) -> l = l1 ++ l2 ->
  adds_calls P (GL.bind m k) l.
Proof.
  intros Hm Hk -> s. unfold GL.bind. specialize (Hm s).
  destruct (m s) as [a s1]. cbn [snd] in Hm. rewrite Hk, Hm, app_assoc. reflexivity.
Qed.

Lemma adds_calls_issue (c : GL.call) :
  adds_calls P (GL.issue c) (if P c then [c] else []).
Proof.
  intros s. rewrite issue_calls. unfold calls_satisfying.
  rewrite List.filter_app. cbn [List.filter]. destruct (P c); reflexivity.
Qed.

Lemma adds_calls_query {A} (c : GL.call) (f : GL.state -> A) :
  adds_calls P (GL.bind (GL.issue c) (fun _ s => (f s, s))) (if P c then [c] else []).
Proof.
  intros s. unfold GL.bind.
  pose proof (adds_calls_issue c s) as Hc.
  destruct (GL.issue c s) as [[] s1]. exact Hc.
Qed.

Lemma adds_calls_gen :
  adds_calls P GL.glGenVertexArrays1
    (if P (GL.GenVertexArrays 1) then [GL.GenVertexArrays 1] else []).
Proof. intros s. unfold GL.glGenVertexArrays1. cbn [snd]. apply adds_calls_issue. Qed.

End AddsCalls.

Lemma preserves_ret {A} (I : GL.state -> Prop) (a : A) : preserves I (GL.ret a).
Proof. intros s Hs. exact Hs. Qed.

Lemma preserves_bind {A B} (I : GL.state -> Prop) (m : GL.M A) (k : A -> GL.M B) :
  preserves I m -> (forall a, preserves I (k a)) -> preserves I (GL.bind m k).
Proof.
  intros Hm Hk s Hs. unfold GL.bind. specialize (Hm s Hs).
  destruct (m s) as [a s1]. apply Hk, Hm.
Qed.

Lemma adds_calls_bind_with {A B} (P : GL.call -> bool) (R : A -> Prop)
    (m : GL.M A) (k : A -> GL.M B) (l1 l2 l : list GL.call) :
  adds_calls P m l1 -> (forall s, R (fst (m s))) ->
  (forall a, R a -> adds_calls P (k a) l2) -> l = l1 ++ l2 ->
  adds_calls P (GL.bind m k) l.
Proof.
  intros Hm HR Hk -> s. unfold GL.bind. specialize (Hm s). specialize (HR s).
  destruct (m s) as [a s1]. cbn [fst snd] in Hm, HR.
  rewrite (Hk a HR), Hm, app_assoc. reflexivity.
Qed.

Lemma user_callbacks_ScaleClipRects (Q : (GL.state -> GL.state) -> Prop)
    (sc : ImVec2) (d : ImDrawData) :
  user_callbacks Q d -> user_callbacks Q (ScaleClipRects sc d).
Proof.
  unfold user_callbacks, ScaleClipRects. cbn [CmdLists].
  intros Hd. apply List.Forall_map. eapply List.Forall_impl; [|exact Hd].
  intros l Hl. cbn. apply List.Forall_map. eapply List.Forall_impl; [|exact Hl].
  intros c Hc. exact Hc.
Qed.

(** *** Calls that the fixed parts of an invocation never make *)

Section SilentParts.
Context {W : Type}.
Variable cfg : BuildConfig.
Variable P : GL.call -> bool.
Hypothesis P_only : forall c, P c = true -> is_segment_call c = true.

Lemma adds_calls_silent (c : GL.call) :
  is_segment_call c = false ->
  adds_calls P (GL.issue c) [].
Proof.
  intros Hd. pose proof (adds_calls_issue P c) as Hc.
  destruct (P c) eqn:E; [|exact Hc].
  rewrite (P_only c E) in Hd. discriminate.
Qed.

Lemma adds_calls_query_silent {A} (c : GL.call) (f : GL.state -> A) :
  is_segment_call c = false ->
  adds_calls P (GL.bind (GL.issue c) (fun _ s => (f s, s))) [].
Proof.
  intros Hd. pose proof (adds_calls_query P c f) as Hc.
  destruct (P c) eqn:E; [|exact Hc].
  rewrite (P_only c E) in Hd. discriminate.
Qed.

Lemma adds_calls_bind_silent {A B} (m : GL.M A) (k : A -> GL.M B) :
  adds_calls P m [] -> (forall a, adds_calls P (k a) []) ->
  adds_calls P (GL.bind m k) [].
Proof. intros Hm Hk. eapply adds_calls_bind; [exact Hm | exact Hk | reflexivity]. Qed.

Lemma adds_calls_bind_silent_l {A B} (m : GL.M A) (k : A -> GL.M B) (l : list GL.call) :
  adds_calls P m [] -> (forall a, adds_calls P (k a) l) ->
  adds_calls P (GL.bind m k) l.
Proof. intros Hm Hk. eapply adds_calls_bind; [exact Hm | exact Hk | reflexivity]. Qed.

Ltac silent :=
  repeat match goal with
         | |- adds_calls _ (GL.ret _) _ => simple apply adds_calls_ret
         | |- adds_calls _ (GL.issue _) _ =>
             simple apply adds_calls_silent; reflexivity
         | |- adds_calls _ (GL.bind _ _) _ =>
             first [ simple apply adds_calls_query_silent; reflexivity
                   | simple apply adds_calls_bind_silent; [|intro] ]
         | |- adds_calls _ (if ?b then _ else _) _ => destruct b
         end.

Lemma setupRenderStates_silent (r : ImGuiRenderer W) drawData fbWidth fbHeight vao :
  adds_calls P (setupRenderStates r drawData fbWidth fbHeight vao) [].
Proof.
  unfold setupRenderStates, GL.glEnable, GL.glDisable, GL.glBlendEquation,
    GL.glBlendFuncSeparate, GL.glViewport, GL.glUseProgram, GL.glUniform1i,
    GL.glUniformMatrix4fv, GL.glBindVertexArray, GL.glBindBuffer,
    GL.glEnableVertexAttribArray, GL.glVertexAttribPointer.
  cbv zeta. silent.
Qed.

Lemma backup_gl_state_silent : adds_calls P backup_gl_state [].
Proof.
  unfold backup_gl_state, GL.glGetIntegerv, GL.glGetIntegerv4, GL.glIsEnabled,
    GL.glActiveTexture.
  silent.
Qed.

Lemma restore_gl_state_silent (b : GLBackup) : adds_calls P (restore_gl_state b) [].
Proof.
  unfold restore_gl_state, GL.glUseProgram, GL.glBindTexture, GL.glActiveTexture,
    GL.glBindVertexArray, GL.glBindBuffer, GL.glBlendEquationSeparate,
    GL.glBlendFuncSeparate, GL.glEnable, GL.glDisable, GL.glViewport, GL.glScissor.
  silent.
Qed.

Lemma glGenVertexArrays1_silent : adds_calls P GL.glGenVertexArrays1 [].
Proof.
  pose proof (adds_calls_gen P) as Hc.
  destruct (P (GL.GenVertexArrays 1)) eqn:E; [|exact Hc].
  pose proof (P_only _ E) as Hseg. discriminate Hseg.
Qed.

(** The calls of one invocation that satisfy [P] are those of its loop over
    the segments. *)
Lemma renderDrawList_adds (g : ImGui) (drawData : ImDrawData)
    (r : ImGuiRenderer W) (l : list GL.call) :
  let io := ImGuiApi.GetIO g in
  let d := ScaleClipRects (DisplayFramebufferScale io) drawData in
  (forall vao,
      adds_calls P
        (render_cmd_lists cfg d (fbWidth_of io) (fbHeight_of io) vao
           (DisplayPos d) (FramebufferScale d) (CmdLists d) r) l) ->
  adds_calls P (renderDrawList cfg g drawData r)
    (if (fbWidth_of io =? 0) || (fbHeight_of io =? 0) then [] else l).
Proof.
  intros io d Hloop. unfold renderDrawList. fold io.
  destruct ((fbWidth_of io =? 0) || (fbHeight_of io =? 0)); [apply adds_calls_ret|].
  cbv zeta. fold d.
  apply adds_calls_bind_silent_l; [apply backup_gl_state_silent|]. intros last.
  apply adds_calls_bind_silent_l; [apply glGenVertexArrays1_silent|]. intros vao.
  apply adds_calls_bind_silent_l; [apply setupRenderStates_silent|]. intros _.
  eapply adds_calls_bind; [apply Hloop| |symmetry; apply app_nil_r].
  intros r'. unfold GL.glDeleteVertexArrays1. silent.
  apply restore_gl_state_silent.
Qed.

End SilentParts.

Ltac adds_calls_step P :=
  lazymatch goal with
  | |- adds_calls _ (GL.ret _) _ => simple apply adds_calls_ret
  | |- adds_calls _ (GL.issue _) _ => simple apply (adds_calls_issue P)
  | |- adds_calls _ (if ?b then _ else _) _ => destruct b; adds_calls_step P
  | |- adds_calls _ (GL.bind _ _) _ =>
      eapply adds_calls_bind;
      [adds_calls_step P | intro; adds_calls_step P | cbn; reflexivity]
  end.

Lemma is_draw_call_only (c : GL.call) :
  is_draw_call c = true -> is_segment_call c = true.
Proof. intros Hc. unfold is_segment_call. rewrite Hc. reflexivity. Qed.

Lemma is_buffer_allocation_only (c : GL.call) :
  is_buffer_allocation c = true -> is_segment_call c = true.
Proof.
  intros Hc. unfold is_segment_call. rewrite Hc. apply orb_true_iff. left.
  apply orb_true_r.
Qed.

Lemma is_buffer_upload_only (c : GL.call) :
  is_buffer_upload c = true -> is_segment_call c = true.
Proof. intros Hc. unfold is_segment_call. rewrite Hc. apply orb_true_r. Qed.

Section DrawSequence.
Context {W : Type}.
Variable cfg : BuildConfig.


Lemma render_cmd_draws (r : ImGuiRenderer W) drawData fbWidth fbHeight vao
    clipOff clipScale (pcmd : ImDrawCmd) :
  match UserCallback pcmd with Some (UserCode f) => leaves_calls is_draw_call f | _ => True end ->
  adds_calls is_draw_call
    (render_cmd cfg r drawData fbWidth fbHeight vao clipOff clipScale pcmd)
    (if is_drawn clipOff clipScale pcmd then [draw_call_of cfg pcmd] else []).
Proof.
  intros Hcb. unfold render_cmd, is_drawn.
  destruct (UserCallback pcmd) as [[|f]|].
  - apply setupRenderStates_silent, is_draw_call_only.
  - intros s. cbn [snd]. rewrite Hcb, app_nil_r. reflexivity.
  - destruct (ElemCount pcmd =? 0); [apply adds_calls_ret|]. cbn [negb andb].
    destruct (clip_degenerate clipOff clipScale pcmd); [apply adds_calls_ret|].
    cbn [negb]. cbv zeta. unfold GL.glScissor, GL.glBindTexture, GL.glDrawElements.
    eapply adds_calls_bind; [apply adds_calls_issue|intros _|reflexivity].
    eapply adds_calls_bind; [apply adds_calls_issue|intros _|reflexivity].
    apply (adds_calls_issue is_draw_call).
Qed.

Lemma render_cmds_draws (r : ImGuiRenderer W) drawData fbWidth fbHeight vao
    clipOff clipScale (cmds : list ImDrawCmd) :
  Forall (fun c => match UserCallback c with
                   | Some (UserCode f) => leaves_calls is_draw_call f
                   | _ => True
                   end) cmds ->
  adds_calls is_draw_call
    (render_cmds cfg r drawData fbWidth fbHeight vao clipOff clipScale cmds)
    (map (draw_call_of cfg) (List.filter (is_drawn clipOff clipScale) cmds)).
Proof.
  induction 1 as [|c cmds Hc _ IH]; cbn [render_cmds List.filter map].
  - apply adds_calls_ret.
  - eapply adds_calls_bind;
      [apply render_cmd_draws, Hc | intros _; exact IH |].
    destruct (is_drawn clipOff clipScale c); reflexivity.
Qed.

Lemma upload_buffers_draws (l : ImDrawList) (r : ImGuiRenderer W) :
  adds_calls is_draw_call (upload_buffers cfg l r) [].
Proof.
  unfold upload_buffers, GL.glBufferData, GL.glBufferSubData. cbv zeta.
  adds_calls_step is_draw_call.
Qed.

Lemma render_cmd_lists_draws drawData fbWidth fbHeight vao clipOff clipScale
    (lists : list ImDrawList) (r : ImGuiRenderer W) :
  Forall (fun l => Forall (fun c => match UserCallback c with
                                    | Some (UserCode f) => leaves_calls is_draw_call f
                                    | _ => True
                                    end) (CmdBuffer l)) lists ->
  adds_calls is_draw_call
    (render_cmd_lists cfg drawData fbWidth fbHeight vao clipOff clipScale lists r)
    (flat_map (fun l => map (draw_call_of cfg)
                          (List.filter (is_drawn clipOff clipScale) (CmdBuffer l)))
              lists).
Proof.
  intros Hl. revert r. induction Hl as [|l lists Hc _ IH]; intros r;
    cbn [render_cmd_lists flat_map].
  - apply adds_calls_ret.
  - eapply adds_calls_bind; [apply upload_buffers_draws| |reflexivity].
    intros r'. cbn [app].
    eapply adds_calls_bind; [apply render_cmds_draws, Hc | intros _; apply IH
                            | reflexivity].
Qed.

(** X9.  Provided the user callbacks make no draw call of their own, the
    draw calls of an invocation with a nonzero framebuffer are, in the order
    of the segments and of the commands within each segment, one
    [glDrawElements] of triangles for each command that has no callback, a
    nonzero element count and a clip rectangle that is not degenerate, with
    the command's element count and its index offset in bytes; every other
    command, and every other part of the invocation, draws nothing.  The
    clip rectangles are those already scaled by the display's framebuffer
    scale. *)
Theorem renderDrawList_draws_visible_commands_in_order
    (g : ImGui) (drawData : ImDrawData) (r : ImGuiRenderer W) (s : GL.state) :
  let io := ImGuiApi.GetIO g in
  let d := ScaleClipRects (DisplayFramebufferScale io) drawData in
  user_callbacks (leaves_calls is_draw_call) drawData ->
  calls_satisfying is_draw_call (GL.calls (snd (renderDrawList cfg g drawData r s)))
  = calls_satisfying is_draw_call (GL.calls s)
    ++ (if (fbWidth_of io =? 0) || (fbHeight_of io =? 0) then []
        else flat_map
               (fun l => map (draw_call_of cfg)
                           (List.filter (is_drawn (DisplayPos d) (FramebufferScale d))
                                        (CmdBuffer l)))
               (CmdLists d)).
Proof.
  intros io d Hcb.
  apply (renderDrawList_adds cfg is_draw_call is_draw_call_only g drawData r).
  intros vao. apply render_cmd_lists_draws.
  apply (user_callbacks_ScaleClipRects _ _ _ Hcb).
Qed.

End DrawSequence.

Section DrawSegment.
Context {W : Type}.
Variable cfg : BuildConfig.

(** X10.  For a segment whose commands have no callback, the calls made
    are exactly, for each command with a nonzero element count and a clip
    rectangle that is not degenerate and in the order of the commands, the
    scissor box, the texture binding and the draw; a command with no
    elements makes no call. *)
Theorem render_cmds_calls (r : ImGuiRenderer W) drawData fbWidth fbHeight vao
    clipOff clipScale (cmds : list ImDrawCmd) (s : GL.state) :
  Forall (fun c => UserCallback c = None) cmds ->
  GL.calls (snd (render_cmds cfg r drawData fbWidth fbHeight vao clipOff clipScale
                   cmds s))
  = GL.calls s
    ++ flat_map (calls_of_cmd cfg fbHeight clipOff clipScale)
         (List.filter (is_drawn clipOff clipScale) cmds).
Proof.
  intros Hcb. revert s. induction Hcb as [|c cmds Hc _ IH]; intros s;
    cbn [render_cmds List.filter flat_map].
  - cbn. rewrite app_nil_r. reflexivity.
  - rewrite bind_snd, IH. unfold render_cmd, is_drawn. rewrite Hc.
    destruct (ElemCount c =? 0); [reflexivity|]. cbn [negb andb].
    destruct (clip_degenerate clipOff clipScale c); [reflexivity|].
    cbn [negb flat_map]. cbv zeta.
    unfold GL.glScissor, GL.glBindTexture, GL.glDrawElements.
    rewrite !bind_snd, !issue_calls. unfold calls_of_cmd.
    rewrite <- !app_assoc. reflexivity.
Qed.

End DrawSegment.

(** A frame with a draw of 3 indices, a user callback that enables the
    stencil test, a request to reset the render state, a command with an
    empty clip rectangle and a draw of 3 more indices. *)
Lemma renderDrawList_draws_visible_commands_in_order_witness :
  let d := mkImDrawData
             [ mkImDrawList
                 [ mkImDrawCmd Examples.full_clip 9 0 0 3 None;
                   Examples.callback_cmd Examples.stencil_callback;
                   Examples.callback_cmd ImDrawCallback_ResetRenderState;
                   mkImDrawCmd Examples.empty_clip 8 0 0 3 None;
                   mkImDrawCmd Examples.full_clip 10 0 3 3 None ]
                 [0; 1; 2; 2; 1; 0] Examples.triangle ]
             (Examples.vec 0 0) (Examples.vec 800 600) (Examples.vec 1 1) in
  user_callbacks (leaves_calls is_draw_call) d
  /\ calls_satisfying is_draw_call
       (GL.calls (snd (renderDrawList Examples.desktop (Examples.imgui 1) d
                         (Examples.renderer 40 1) Examples.gl0)))
     = [ GL.DrawElements GL.TRIANGLES 3 GL.UNSIGNED_SHORT 0;
         GL.DrawElements GL.TRIANGLES 3 GL.UNSIGNED_SHORT 6 ].
Proof.
  intros d.
  assert (Hcb : user_callbacks (leaves_calls is_draw_call) d).
  { unfold user_callbacks, d. cbn.
    repeat (constructor; try exact I).
    apply issue_leaves_calls. reflexivity. }
  split; [exact Hcb|].
  rewrite (renderDrawList_draws_visible_commands_in_order Examples.desktop
             (Examples.imgui 1) d (Examples.renderer 40 1) Examples.gl0 Hcb).
  vm_compute. reflexivity.
Defined.

(** Three commands: one drawn with texture 7, one with an empty clip
    rectangle, one drawn with texture 9. *)
Lemma render_cmds_calls_witness :
  Forall (fun c => UserCallback c = None)
    [ Examples.draw_cmd Examples.full_clip 7;
      Examples.draw_cmd Examples.empty_clip 8;
      Examples.draw_cmd Examples.full_clip 9 ]
  /\ GL.calls (snd (render_cmds Examples.desktop (Examples.renderer 40 1)
                     Examples.no_draw_data 800 600 1 (Examples.vec 0 0)
                     (Examples.vec 1 1)
                     [ Examples.draw_cmd Examples.full_clip 7;
                       Examples.draw_cmd Examples.empty_clip 8;
                       Examples.draw_cmd Examples.full_clip 9 ] Examples.gl0))
     = [ GL.Scissor 0 0 800 600; GL.BindTexture GL.TEXTURE_2D 7;
         GL.DrawElements GL.TRIANGLES 3 GL.UNSIGNED_SHORT 0;
         GL.Scissor 0 0 800 600; GL.BindTexture GL.TEXTURE_2D 9;
         GL.DrawElements GL.TRIANGLES 3 GL.UNSIGNED_SHORT 0 ].
Proof.
  assert (Hcb : Forall (fun c => UserCallback c = None)
                  [ Examples.draw_cmd Examples.full_clip 7;
                    Examples.draw_cmd Examples.empty_clip 8;
                    Examples.draw_cmd Examples.full_clip 9 ])
    by (repeat constructor).
  split; [exact Hcb|].
  rewrite (render_cmds_calls Examples.desktop (Examples.renderer 40 1)
             Examples.no_draw_data 800 600 1 (Examples.vec 0 0) (Examples.vec 1 1)
             _ Examples.gl0 Hcb).
  vm_compute. reflexivity.
Defined.

Section Allocation.
Context {W : Type}.
Variable cfg : BuildConfig.

Lemma render_cmd_allocates_nothing (r : ImGuiRenderer W) drawData fbWidth fbHeight vao
    clipOff clipScale (pcmd : ImDrawCmd) :
  match UserCallback pcmd with
  | Some (UserCode f) => leaves_calls is_buffer_allocation f
  | _ => True
  end ->
  adds_calls is_buffer_allocation
    (render_cmd cfg r drawData fbWidth fbHeight vao clipOff clipScale pcmd) [].
Proof.
  intros Hcb. unfold render_cmd.
  destruct (UserCallback pcmd) as [[|f]|].
  - apply setupRenderStates_silent, is_buffer_allocation_only.
  - intros s. cbn [snd]. rewrite Hcb, app_nil_r. reflexivity.
  - cbv zeta. unfold GL.glScissor, GL.glBindTexture, GL.glDrawElements.
    adds_calls_step is_buffer_allocation.
Qed.

Lemma render_cmds_allocates_nothing (r : ImGuiRenderer W) drawData fbWidth fbHeight vao
    clipOff clipScale (cmds : list ImDrawCmd) :
  Forall (fun c => match UserCallback c with
                   | Some (UserCode f) => leaves_calls is_buffer_allocation f
                   | _ => True
                   end) cmds ->
  adds_calls is_buffer_allocation
    (render_cmds cfg r drawData fbWidth fbHeight vao clipOff clipScale cmds) [].
Proof.
  induction 1 as [|c cmds Hc _ IH]; cbn [render_cmds].
  - apply adds_calls_ret.
  - eapply adds_calls_bind;
      [apply render_cmd_allocates_nothing, Hc | intros _; exact IH | reflexivity].
Qed.

(** A segment that fits is uploaded into the buffers as they are. *)
Lemma upload_buffers_fits (l : ImDrawList) (r : ImGuiRenderer W) :
  vtx_bytes l <= mVertexBufferSize r -> idx_bytes cfg l <= mIndexBufferSize r ->
  adds_calls is_buffer_allocation (upload_buffers cfg l r) []
  /\ forall s, fst (upload_buffers cfg l r s) = r.
Proof.
  unfold vtx_bytes, idx_bytes. intros Hv Hi.
  apply Z.ltb_ge in Hv, Hi.
  unfold upload_buffers, GL.glBufferData, GL.glBufferSubData. cbv zeta.
  rewrite Hv.
  match goal with
  | |- context [GL.bind (GL.ret r) ?k] => change (GL.bind (GL.ret r) k) with (k r)
  end.
  cbv beta. rewrite Hi.
  match goal with
  | |- context [GL.bind (GL.ret r) ?k] => change (GL.bind (GL.ret r) k) with (k r)
  end.
  cbv beta.
  split; [adds_calls_step is_buffer_allocation | reflexivity].
Qed.

Lemma render_cmd_lists_fits drawData fbWidth fbHeight vao clipOff clipScale
    (lists : list ImDrawList) (r : ImGuiRenderer W) :
  Forall (fun l => Forall (fun c => match UserCallback c with
                                    | Some (UserCode f) =>
                                        leaves_calls is_buffer_allocation f
                                    | _ => True
                                    end) (CmdBuffer l)) lists ->
  Forall (fun l => vtx_bytes l <= mVertexBufferSize r
                   /\ idx_bytes cfg l <= mIndexBufferSize r) lists ->
  adds_calls is_buffer_allocation
    (render_cmd_lists cfg drawData fbWidth fbHeight vao clipOff clipScale lists r) []
  /\ forall s, fst (render_cmd_lists cfg drawData fbWidth fbHeight vao clipOff
                      clipScale lists r s) = r.
Proof.
  intros Hcb Hfit. induction Hcb as [|l lists Hc _ IH]; cbn [render_cmd_lists].
  - split; [apply adds_calls_ret | reflexivity].
  - inversion Hfit as [|? ? [Hv Hi] Hrest]; subst.
    destruct (upload_buffers_fits l r Hv Hi) as [Hup Hr].
    destruct (IH Hrest) as [IHa IHr].
    split.
    + eapply (adds_calls_bind_with _ (fun r' => r' = r));
        [exact Hup | exact Hr | | reflexivity].
      intros r' ->.
      eapply adds_calls_bind;
        [apply render_cmds_allocates_nothing, Hc | intros _; exact IHa | reflexivity].
    + intros s. unfold GL.bind. specialize (Hr s).
      destruct (upload_buffers cfg l r s) as [r1 s1]. cbn [fst] in Hr. subst r1.
      destruct (render_cmds cfg r drawData fbWidth fbHeight vao clipOff clipScale
                  (CmdBuffer l) s1) as [[] s2].
      apply IHr.
Qed.

Lemma upload_buffers_capacities_only (l : ImDrawList) (r : ImGuiRenderer W)
    (s : GL.state) :
  let r' := fst (upload_buffers cfg l r s) in
  r' = set_mIndexBufferSize (set_mVertexBufferSize r (mVertexBufferSize r'))
         (mIndexBufferSize r').
Proof.
  cbv zeta. unfold upload_buffers.
  destruct r as [w c t v ft sh vh fh at_ ap avp avu avc vbo el vs ixs].
  cbn [mVertexBufferSize mIndexBufferSize].
  destruct (vs <? _); cbn; destruct (ixs <? _); reflexivity.
Qed.

Lemma render_cmd_lists_capacities_only drawData fbWidth fbHeight vao clipOff clipScale
    (lists : list ImDrawList) (r : ImGuiRenderer W) (s : GL.state) :
  let r' := fst (render_cmd_lists cfg drawData fbWidth fbHeight vao clipOff
                   clipScale lists r s) in
  r' = set_mIndexBufferSize (set_mVertexBufferSize r (mVertexBufferSize r'))
         (mIndexBufferSize r').
Proof.
  cbv zeta. revert r s. induction lists as [|l lists IH]; intros r s.
  - cbn. destruct r. reflexivity.
  - cbn [render_cmd_lists]. unfold GL.bind.
    pose proof (upload_buffers_capacities_only l r s) as Hup. cbv zeta in Hup.
    destruct (upload_buffers cfg l r s) as [r1 s1]. cbn [fst] in Hup.
    destruct (render_cmds cfg r1 drawData fbWidth fbHeight vao clipOff clipScale
                (CmdBuffer l) s1) as [[] s2].
    rewrite (IH r1 s2) at 1. rewrite Hup at 1. reflexivity.
Qed.

Lemma ScaleClipRects_fits (sc : ImVec2) (d : ImDrawData) (r : ImGuiRenderer W) :
  Forall (fun l => vtx_bytes l <= mVertexBufferSize r
                   /\ idx_bytes cfg l <= mIndexBufferSize r) (CmdLists d) ->
  Forall (fun l => vtx_bytes l <= mVertexBufferSize r
                   /\ idx_bytes cfg l <= mIndexBufferSize r)
         (CmdLists (ScaleClipRects sc d)).
Proof.
  unfold ScaleClipRects. cbn [CmdLists]. intros Hd.
  apply List.Forall_map. eapply List.Forall_impl; [|exact Hd].
  intros l Hl. exact Hl.
Qed.

Lemma render_cmd_uploads_nothing (r : ImGuiRenderer W) drawData fbWidth fbHeight vao
    clipOff clipScale (pcmd : ImDrawCmd) :
  match UserCallback pcmd with
  | Some (UserCode f) => leaves_calls is_buffer_upload f
  | _ => True
  end ->
  adds_calls is_buffer_upload
    (render_cmd cfg r drawData fbWidth fbHeight vao clipOff clipScale pcmd) [].
Proof.
  intros Hcb. unfold render_cmd.
  destruct (UserCallback pcmd) as [[|f]|].
  - apply setupRenderStates_silent, is_buffer_upload_only.
  - intros s. cbn [snd]. rewrite Hcb, app_nil_r. reflexivity.
  - cbv zeta. unfold GL.glScissor, GL.glBindTexture, GL.glDrawElements.
    adds_calls_step is_buffer_upload.
Qed.

Lemma render_cmds_uploads_nothing (r : ImGuiRenderer W) drawData fbWidth fbHeight vao
    clipOff clipScale (cmds : list ImDrawCmd) :
  Forall (fun c => match UserCallback c with
                   | Some (UserCode f) => leaves_calls is_buffer_upload f
                   | _ => True
                   end) cmds ->
  adds_calls is_buffer_upload
    (render_cmds cfg r drawData fbWidth fbHeight vao clipOff clipScale cmds) [].
Proof.
  induction 1 as [|c cmds Hc _ IH]; cbn [render_cmds].
  - apply adds_calls_ret.
  - eapply adds_calls_bind;
      [apply render_cmd_uploads_nothing, Hc | intros _; exact IH | reflexivity].
Qed.

(** Whether or not the buffers are reallocated first, a segment is written
    into them by two uploads. *)
Lemma upload_buffers_uploads (l : ImDrawList) (r : ImGuiRenderer W) :
  adds_calls is_buffer_upload (upload_buffers cfg l r) (uploads_of cfg l).
Proof.
  unfold upload_buffers, GL.glBufferData, GL.glBufferSubData, uploads_of,
    vtx_bytes, idx_bytes.
  cbv zeta. adds_calls_step is_buffer_upload.
Qed.

Lemma render_cmd_lists_uploads drawData fbWidth fbHeight vao clipOff clipScale
    (lists : list ImDrawList) (r : ImGuiRenderer W) :
  Forall (fun l => Forall (fun c => match UserCallback c with
                                    | Some (UserCode f) =>
                                        leaves_calls is_buffer_upload f
                                    | _ => True
                                    end) (CmdBuffer l)) lists ->
  adds_calls is_buffer_upload
    (render_cmd_lists cfg drawData fbWidth fbHeight vao clipOff clipScale lists r)
    (flat_map (uploads_of cfg) lists).
Proof.
  intros Hl. revert r. induction Hl as [|l lists Hc _ IH]; intros r;
    cbn [render_cmd_lists flat_map].
  - apply adds_calls_ret.
  - eapply adds_calls_bind; [apply upload_buffers_uploads| |reflexivity].
    intros r'.
    eapply adds_calls_bind;
      [apply render_cmds_uploads_nothing, Hc | intros _; apply IH | reflexivity].
Qed.

Lemma ScaleClipRects_uploads (sc : ImVec2) (d : ImDrawData) :
  flat_map (uploads_of cfg) (CmdLists (ScaleClipRects sc d))
  = flat_map (uploads_of cfg) (CmdLists d).
Proof.
  unfold ScaleClipRects. cbn [CmdLists].
  induction (CmdLists d) as [|l ls IH]; [reflexivity|].
  cbn [map flat_map]. rewrite IH. reflexivity.
Qed.

(** For a segment that fits, the upload step makes the two uploads and no
    other call. *)
Lemma upload_buffers_fits_calls (l : ImDrawList) (r : ImGuiRenderer W) (s : GL.state) :
  vtx_bytes l <= mVertexBufferSize r -> idx_bytes cfg l <= mIndexBufferSize r ->
  GL.calls (snd (upload_buffers cfg l r s)) = GL.calls s ++ uploads_of cfg l.
Proof.
  unfold vtx_bytes, idx_bytes. intros Hv Hi.
  apply Z.ltb_ge in Hv, Hi.
  unfold upload_buffers, GL.glBufferData, GL.glBufferSubData, uploads_of,
    vtx_bytes, idx_bytes.
  cbv zeta. rewrite Hv.
  match goal with
  | |- context [GL.bind (GL.ret r) ?k] => change (GL.bind (GL.ret r) k) with (k r)
  end.
  cbv beta. rewrite Hi.
  match goal with
  | |- context [GL.bind (GL.ret r) ?k] => change (GL.bind (GL.ret r) k) with (k r)
  end.
  cbv beta. rewrite !bind_snd. unfold GL.ret. cbn [snd].
  rewrite !issue_calls, <- app_assoc. reflexivity.
Qed.

(** X11.  An invocation whose segments all fit the capacities the renderer
    has reached allocates no buffer storage ([glBufferData] is not called,
    provided the user callbacks do not call it) and returns the renderer as
    it was.  The data are written with [glBufferSubData] only: for each
    segment the upload step returns the renderer as it was and makes two
    calls and no other, the upload of the segment's vertices and the upload
    of its indices; and, provided the user callbacks upload nothing
    themselves, the uploads of the whole invocation are these two calls for
    each segment, in the order of the segments, and none when the
    framebuffer is 0 wide or 0 high. *)
Theorem fitting_frame_reallocates_nothing
    (g : ImGui) (drawData : ImDrawData) (r : ImGuiRenderer W) (s : GL.state) :
  user_callbacks (leaves_calls is_buffer_allocation) drawData ->
  Forall (fun l => vtx_bytes l <= mVertexBufferSize r
                   /\ idx_bytes cfg l <= mIndexBufferSize r) (CmdLists drawData) ->
  calls_satisfying is_buffer_allocation
    (GL.calls (snd (renderDrawList cfg g drawData r s)))
  = calls_satisfying is_buffer_allocation (GL.calls s)
  /\ fst (fst (renderDrawList cfg g drawData r s)) = r
  /\ Forall (fun l => forall s',
                fst (upload_buffers cfg l r s') = r
                /\ GL.calls (snd (upload_buffers cfg l r s'))
                   = GL.calls s' ++ uploads_of cfg l)
       (CmdLists drawData)
  /\ (user_callbacks (leaves_calls is_buffer_upload) drawData ->
      calls_satisfying is_buffer_upload
        (GL.calls (snd (renderDrawList cfg g drawData r s)))
      = calls_satisfying is_buffer_upload (GL.calls s)
        ++ (if (fbWidth_of (ImGuiApi.GetIO g) =? 0)
               || (fbHeight_of (ImGuiApi.GetIO g) =? 0)
            then [] else flat_map (uploads_of cfg) (CmdLists drawData))).
Proof.
  intros Hcb Hfit.
  pose proof (user_callbacks_ScaleClipRects _
                (DisplayFramebufferScale (ImGuiApi.GetIO g)) _ Hcb) as Hcb'.
  pose proof (ScaleClipRects_fits (DisplayFramebufferScale (ImGuiApi.GetIO g)) _ _ Hfit)
    as Hfit'.
  split; [|split; [|split]].
  - pose proof (renderDrawList_adds cfg is_buffer_allocation is_buffer_allocation_only
                  g drawData r []) as Hadd.
    cbv zeta in Hadd.
    rewrite Hadd.
    + destruct (_ || _); apply app_nil_r.
    + intros vao. apply render_cmd_lists_fits; assumption.
  - unfold renderDrawList.
    destruct ((fbWidth_of (ImGuiApi.GetIO g) =? 0)
              || (fbHeight_of (ImGuiApi.GetIO g) =? 0)); [reflexivity|].
    cbv zeta. unfold GL.bind.
    destruct (backup_gl_state s) as [last s1].
    destruct (GL.glGenVertexArrays1 s1) as [vao s2].
    destruct (setupRenderStates _ _ _ _ vao s2) as [[] s3].
    match goal with
    | |- context [render_cmd_lists cfg ?d ?w ?h ?v ?o ?c ?ls r s3] =>
        pose proof (proj2 (render_cmd_lists_fits d w h v o c ls r Hcb' Hfit') s3) as Hs;
        destruct (render_cmd_lists cfg d w h v o c ls r s3) as [r' s4]
    end.
    cbn [fst] in Hs.
    destruct (GL.glDeleteVertexArrays1 vao s4) as [[] s5].
    destruct (restore_gl_state last s5) as [[] s6].
    exact Hs.
  - eapply List.Forall_impl; [|exact Hfit].
    intros l [Hv Hi] s'. split.
    + apply (proj2 (upload_buffers_fits l r Hv Hi)).
    + apply upload_buffers_fits_calls; assumption.
  - intros Hup.
    pose proof (renderDrawList_adds cfg is_buffer_upload is_buffer_upload_only
                  g drawData r
                  (flat_map (uploads_of cfg) (CmdLists drawData))) as Hadd.
    cbv zeta in Hadd. apply Hadd.
    intros vao.
    rewrite <- (ScaleClipRects_uploads
                  (DisplayFramebufferScale (ImGuiApi.GetIO g)) drawData).
    apply render_cmd_lists_uploads.
    apply (user_callbacks_ScaleClipRects _ _ _ Hup).
Qed.

(** X15.  Of the renderer, an invocation changes the two buffer capacities
    only: the window, the context it is bound to, the stored time and the
    graphics handles stay. *)
Theorem renderDrawList_changes_only_capacities
    (g : ImGui) (drawData : ImDrawData) (r : ImGuiRenderer W) (s : GL.state) :
  let r' := fst (fst (renderDrawList cfg g drawData r s)) in
  r' = set_mIndexBufferSize (set_mVertexBufferSize r (mVertexBufferSize r'))
         (mIndexBufferSize r').
Proof.
  cbv zeta. unfold renderDrawList.
  destruct ((fbWidth_of (ImGuiApi.GetIO g) =? 0)
            || (fbHeight_of (ImGuiApi.GetIO g) =? 0)).
  { cbn [fst GL.ret]. destruct r. reflexivity. }
  cbv zeta. unfold GL.bind.
  destruct (backup_gl_state s) as [last s1].
  destruct (GL.glGenVertexArrays1 s1) as [vao s2].
  destruct (setupRenderStates _ _ _ _ vao s2) as [[] s3].
  match goal with
  | |- context [render_cmd_lists cfg ?d ?w ?h ?v ?o ?c ?ls r s3] =>
      pose proof (render_cmd_lists_capacities_only d w h v o c ls r s3) as Hs;
      destruct (render_cmd_lists cfg d w h v o c ls r s3) as [r' s4]
  end.
  cbn [fst] in Hs.
  destruct (GL.glDeleteVertexArrays1 vao s4) as [[] s5].
  destruct (restore_gl_state last s5) as [[] s6].
  exact Hs.
Qed.

End Allocation.

(** The renderer has already drawn a triangle, so its buffers hold 3
    vertices and 3 indices; the next frame draws a triangle again. *)
Lemma fitting_frame_reallocates_nothing_witness :
  let r := set_mIndexBufferSize (set_mVertexBufferSize (Examples.renderer 40 1) 60) 6 in
  let d := Examples.draw_data [Examples.draw_cmd Examples.full_clip 9] in
  user_callbacks (leaves_calls is_buffer_allocation) d
  /\ Forall (fun l => vtx_bytes l <= mVertexBufferSize r
                     /\ idx_bytes Examples.desktop l <= mIndexBufferSize r)
       (CmdLists d)
  /\ calls_satisfying is_buffer_allocation
       (GL.calls (snd (renderDrawList Examples.desktop (Examples.imgui 1) d r
                         Examples.gl0)))
     = calls_satisfying is_buffer_allocation (GL.calls Examples.gl0)
  /\ fst (fst (renderDrawList Examples.desktop (Examples.imgui 1) d r Examples.gl0))
     = r
  /\ calls_satisfying is_buffer_upload
       (GL.calls (snd (renderDrawList Examples.desktop (Examples.imgui 1) d r
                         Examples.gl0)))
     = [ GL.BufferSubData GL.ARRAY_BUFFER 0 60 (VtxData Examples.triangle);
         GL.BufferSubData GL.ELEMENT_ARRAY_BUFFER 0 6 (IdxData [0; 1; 2]) ].
Proof.
  intros r d.
  assert (Hcb : user_callbacks (leaves_calls is_buffer_allocation) d)
    by (unfold user_callbacks, d; cbn; repeat (constructor; try exact I)).
  assert (Hup : user_callbacks (leaves_calls is_buffer_upload) d)
    by (unfold user_callbacks, d; cbn; repeat (constructor; try exact I)).
  assert (Hfit : Forall (fun l => vtx_bytes l <= mVertexBufferSize r
                                  /\ idx_bytes Examples.desktop l <= mIndexBufferSize r)
                   (CmdLists d))
    by (unfold d; cbn; repeat constructor; vm_compute; discriminate).
  destruct (fitting_frame_reallocates_nothing Examples.desktop (Examples.imgui 1) d r
              Examples.gl0 Hcb Hfit) as (Hnone & Hsame & _ & Huploads).
  split; [exact Hcb|]. split; [exact Hfit|]. split; [exact Hnone|].
  split; [exact Hsame|].
  rewrite (Huploads Hup). vm_compute. reflexivity.
Defined.

(** The same frame on a renderer that has drawn nothing yet allocates both
    buffers. *)
Example first_frame_allocates :
  calls_satisfying is_buffer_allocation
    (GL.calls (snd (renderDrawList Examples.desktop (Examples.imgui 1)
                      (Examples.draw_data [Examples.draw_cmd Examples.full_clip 9])
                      (Examples.renderer 40 1) Examples.gl0)))
  = [ GL.BufferData GL.ARRAY_BUFFER 60 GL.STREAM_DRAW;
      GL.BufferData GL.ELEMENT_ARRAY_BUFFER 6 GL.STREAM_DRAW ].
Proof. vm_compute. reflexivity. Qed.

(** *** The stencil test *)


Lemma issue_keeps_stencil_off (c : GL.call) :
  match c with GL.Enable GL.STENCIL_TEST => False | _ => True end ->
  preserves stencil_off (GL.issue c).
Proof.
  intros Hc s Hs. unfold stencil_off, GL.issue in *. cbn [snd GL.set_calls GL.enabled].
  destruct c; cbn; try exact Hs.
  - destruct c; try contradiction; exact Hs.
  - destruct c; cbn; try exact Hs; reflexivity.
  - destruct ((w <? 0) || (h <? 0)); exact Hs.
  - destruct ((w <? 0) || (h <? 0)); exact Hs.
  - destruct (GL.vertex_array_binding s =? array); exact Hs.
  - destruct target; exact Hs.
Qed.

Lemma preserves_query {A} (I : GL.state -> Prop) (c : GL.call) (f : GL.state -> A) :
  preserves I (GL.issue c) ->
  preserves I (GL.bind (GL.issue c) (fun _ s => (f s, s))).
Proof.
  intros Hc s Hs. unfold GL.bind. specialize (Hc s Hs).
  destruct (GL.issue c s) as [[] s1]. exact Hc.
Qed.

Ltac keeps_stencil_off :=
  repeat match goal with
         | |- preserves _ (GL.ret _) => simple apply preserves_ret
         | |- preserves _ (GL.issue _) =>
             simple apply issue_keeps_stencil_off; exact I
         | |- preserves _ (GL.bind _ _) =>
             simple apply preserves_bind; [|intro]
         | |- preserves _ (if ?b then _ else _) => destruct b
         end.

Lemma establishes_bind_r {A B} (I : GL.state -> Prop) (m : GL.M A) (k : A -> GL.M B) :
  (forall a s, I (snd (k a s))) -> forall s, I (snd (GL.bind m k s)).
Proof. intros Hk s. unfold GL.bind. destruct (m s) as [a s1]. apply Hk. Qed.

Lemma establishes_bind_l {A B} (I : GL.state -> Prop) (m : GL.M A) (k : A -> GL.M B) :
  (forall s, I (snd (m s))) -> (forall a, preserves I (k a)) ->
  forall s, I (snd (GL.bind m k s)).
Proof.
  intros Hm Hk s. unfold GL.bind. specialize (Hm s).
  destruct (m s) as [a s1]. apply Hk, Hm.
Qed.

Section Stencil.
Context {W : Type}.
Variable cfg : BuildConfig.

Lemma setupRenderStates_disables_stencil (r : ImGuiRenderer W) drawData
    fbWidth fbHeight vao (s : GL.state) :
  stencil_off (snd (setupRenderStates r drawData fbWidth fbHeight vao s)).
Proof.
  revert s. unfold setupRenderStates.
  do 5 (apply establishes_bind_r; intros _).
  apply establishes_bind_l.
  - intros s. unfold stencil_off. cbn. reflexivity.
  - intros _. cbv zeta.
    unfold GL.glEnable, GL.glViewport, GL.glUseProgram, GL.glUniform1i,
      GL.glUniformMatrix4fv, GL.glBindVertexArray, GL.glBindBuffer,
      GL.glEnableVertexAttribArray, GL.glVertexAttribPointer.
    keeps_stencil_off.
Qed.

Lemma render_cmd_keeps_stencil_off (r : ImGuiRenderer W) drawData
    fbWidth fbHeight vao clipOff clipScale (pcmd : ImDrawCmd) :
  match UserCallback pcmd with
  | Some (UserCode f) => forall s, stencil_off s -> stencil_off (f s)
  | _ => True
  end ->
  preserves stencil_off
    (render_cmd cfg r drawData fbWidth fbHeight vao clipOff clipScale pcmd).
Proof.
  intros Hcb. unfold render_cmd.
  destruct (UserCallback pcmd) as [[|f]|].
  - intros s _. apply setupRenderStates_disables_stencil.
  - intros s Hs. cbn. apply Hcb, Hs.
  - cbv zeta. unfold GL.glScissor, GL.glBindTexture, GL.glDrawElements.
    keeps_stencil_off.
Qed.

Lemma render_cmds_keeps_stencil_off (r : ImGuiRenderer W) drawData
    fbWidth fbHeight vao clipOff clipScale (cmds : list ImDrawCmd) :
  Forall (fun c => match UserCallback c with
                   | Some (UserCode f) => forall s, stencil_off s -> stencil_off (f s)
                   | _ => True
                   end) cmds ->
  preserves stencil_off
    (render_cmds cfg r drawData fbWidth fbHeight vao clipOff clipScale cmds).
Proof.
  induction 1 as [|c cmds Hc _ IH]; cbn [render_cmds].
  - apply preserves_ret.
  - apply preserves_bind; [|intros _; exact IH].
    apply render_cmd_keeps_stencil_off, Hc.
Qed.

Lemma upload_buffers_keeps_stencil_off (l : ImDrawList) (r : ImGuiRenderer W) :
  preserves stencil_off (upload_buffers cfg l r).
Proof.
  unfold upload_buffers, GL.glBufferData, GL.glBufferSubData. cbv zeta.
  keeps_stencil_off.
Qed.

Lemma render_cmd_lists_keeps_stencil_off drawData fbWidth fbHeight vao
    clipOff clipScale (lists : list ImDrawList) (r : ImGuiRenderer W) :
  Forall (fun l => Forall (fun c => match UserCallback c with
                                    | Some (UserCode f) =>
                                        forall s, stencil_off s -> stencil_off (f s)
                                    | _ => True
                                    end) (CmdBuffer l)) lists ->
  preserves stencil_off
    (render_cmd_lists cfg drawData fbWidth fbHeight vao clipOff clipScale lists r).
Proof.
  intros Hl. revert r. induction Hl as [|l lists Hc _ IH]; intros r;
    cbn [render_cmd_lists].
  - apply preserves_ret.
  - apply preserves_bind; [apply upload_buffers_keeps_stencil_off|].
    intros r'. apply preserves_bind; [|intros _; apply IH].
    apply render_cmds_keeps_stencil_off, Hc.
Qed.

Lemma restore_gl_state_keeps_stencil_off (b : GLBackup) :
  preserves stencil_off (restore_gl_state b).
Proof.
  unfold restore_gl_state, GL.glUseProgram, GL.glBindTexture, GL.glActiveTexture,
    GL.glBindVertexArray, GL.glBindBuffer, GL.glBlendEquationSeparate,
    GL.glBlendFuncSeparate, GL.glEnable, GL.glDisable, GL.glViewport, GL.glScissor.
  keeps_stencil_off.
Qed.

(** X12.  The stencil test is disabled by the render-state setup and is not
    among the values saved and restored: after an invocation with a nonzero
    framebuffer it is disabled, whatever it was at entry, provided the user
    callbacks do not enable it. *)
Theorem renderDrawList_leaves_stencil_test_disabled
    (g : ImGui) (drawData : ImDrawData) (r : ImGuiRenderer W) (s : GL.state) :
  fbWidth_of (ImGuiApi.GetIO g) <> 0 -> fbHeight_of (ImGuiApi.GetIO g) <> 0 ->
  user_callbacks
    (fun f => forall s, GL.enabled s GL.STENCIL_TEST = false ->
                        GL.enabled (f s) GL.STENCIL_TEST = false) drawData ->
  GL.enabled (snd (renderDrawList cfg g drawData r s)) GL.STENCIL_TEST = false.
Proof.
  intros Hw Hh Hcb. unfold renderDrawList.
  apply Z.eqb_neq in Hw, Hh. rewrite Hw, Hh. cbn [orb]. cbv zeta.
  revert s.
  apply (establishes_bind_r stencil_off). intros last.
  apply (establishes_bind_r stencil_off). intros vao.
  apply (establishes_bind_l stencil_off);
    [apply setupRenderStates_disables_stencil|]. intros _.
  apply preserves_bind.
  - apply render_cmd_lists_keeps_stencil_off.
    apply (user_callbacks_ScaleClipRects _ _ _ Hcb).
  - intros r'. unfold GL.glDeleteVertexArrays1.
    apply preserves_bind; [apply issue_keeps_stencil_off; exact I|]. intros _.
    apply preserves_bind; [apply restore_gl_state_keeps_stencil_off|]. intros _.
    apply preserves_ret.
Qed.

End Stencil.

(** The application has the stencil test enabled; the frame holds a draw, a
    user callback that selects texture unit 1, and another draw. *)
Lemma renderDrawList_leaves_stencil_test_disabled_witness :
  let s := snd (GL.glEnable GL.STENCIL_TEST Examples.gl0) in
  let d := Examples.draw_data
             [ Examples.draw_cmd Examples.full_clip 9;
               Examples.callback_cmd Examples.unit1_callback;
               Examples.draw_cmd Examples.full_clip 10 ] in
  GL.enabled s GL.STENCIL_TEST = true
  /\ fbWidth_of (ImGuiApi.GetIO (Examples.imgui 1)) <> 0
  /\ fbHeight_of (ImGuiApi.GetIO (Examples.imgui 1)) <> 0
  /\ user_callbacks
       (fun f => forall s, GL.enabled s GL.STENCIL_TEST = false ->
                           GL.enabled (f s) GL.STENCIL_TEST = false) d
  /\ GL.enabled (snd (renderDrawList Examples.desktop (Examples.imgui 1) d
                        (Examples.renderer 40 1) s)) GL.STENCIL_TEST = false.
Proof.
  intros s d.
  assert (Hw : fbWidth_of (ImGuiApi.GetIO (Examples.imgui 1)) <> 0)
    by (vm_compute; discriminate).
  assert (Hh : fbHeight_of (ImGuiApi.GetIO (Examples.imgui 1)) <> 0)
    by (vm_compute; discriminate).
  assert (Hcb : user_callbacks
                  (fun f => forall s, GL.enabled s GL.STENCIL_TEST = false ->
                                      GL.enabled (f s) GL.STENCIL_TEST = false) d).
  { unfold user_callbacks, d. cbn.
    repeat (constructor; try exact I).
    intros s0 Hs0. exact Hs0. }
  split; [reflexivity|]. split; [exact Hw|]. split; [exact Hh|]. split; [exact Hcb|].
  exact (renderDrawList_leaves_stencil_test_disabled Examples.desktop
           (Examples.imgui 1) d (Examples.renderer 40 1) s Hw Hh Hcb).
Defined.

Section RestoreWhateverCallbacksDo.
Context {W : Type}.
Variable cfg : BuildConfig.

Lemma restore_gl_state_value_any_unit (b : GLBackup) (s : GL.state) :
  0 <= GL.rw (lastViewport b) -> 0 <= GL.rh (lastViewport b) ->
  0 <= GL.rw (lastScissorBox b) -> 0 <= GL.rh (lastScissorBox b) ->
  exists t, fst (backup_gl_state (snd (restore_gl_state b s))) = with_lastTexture t b.
Proof.
  intros Hvw Hvh Hsw Hsh. rewrite backup_gl_state_value.
  destruct b as [at_ pr tx ab eb va sr dr sa da er ea [vpx vpy vpw vph]
                   [sbx sby sbw sbh] e1 e2 e3 e4].
  cbn [lastViewport lastScissorBox GL.rw GL.rh] in Hvw, Hvh, Hsw, Hsh.
  destruct s as [unit0 pr0 tx0 ab0 va0 eb0 sr0 dr0 sa0 da0 er0 ea0 vp0 sb0 en0 nx0 cs0].
  remember (snd (restore_gl_state _ _)) as final eqn:Hfinal.
  unfold restore_gl_state in Hfinal.
  repeat (rewrite bind_snd in Hfinal; cbv beta in Hfinal).
  cbn [lastProgram lastTexture lastActiveTexture lastVertexArray lastArrayBuffer
       lastElementArrayBuffer lastBlendEquationRgb lastBlendEquationAlpha
       lastBlendSrcRgb lastBlendDstRgb lastBlendSrcAlpha lastBlendDstAlpha
       lastEnableBlend lastEnableCullFace lastEnableDepthTest
       lastEnableScissorTest lastViewport lastScissorBox
       GL.rx GL.ry GL.rw GL.rh] in Hfinal.
  rewrite glScissor_state, glViewport_state in Hfinal by assumption.
  subst final. unfold with_lastTexture.
  cbn [lastProgram lastTexture lastActiveTexture lastVertexArray lastArrayBuffer
       lastElementArrayBuffer lastBlendEquationRgb lastBlendEquationAlpha
       lastBlendSrcRgb lastBlendDstRgb lastBlendSrcAlpha lastBlendDstAlpha
       lastEnableBlend lastEnableCullFace lastEnableDepthTest
       lastEnableScissorTest lastViewport lastScissorBox].
  eexists.
  destruct e1, e2, e3, e4; f_equal;
    lazy -[GL.binding insert Z.of_N Z.to_N]; rewrite ?Z2N.id by assumption;
    try reflexivity; apply binding_insert.
Qed.

(** X13.  Whatever the user callbacks do, every saved value except the 2D
    texture binding of unit 0 reads after the invocation as it did at entry:
    active texture unit, program, array buffer, element-array buffer, vertex
    array, blend functions and equations, viewport, scissor box and the four
    enabled flags. *)
Theorem renderDrawList_restores_all_but_texture
    (g : ImGui) (drawData : ImDrawData) (r : ImGuiRenderer W) (s : GL.state) :
  exists t,
    fst (backup_gl_state (snd (renderDrawList cfg g drawData r s)))
    = with_lastTexture t (fst (backup_gl_state s)).
Proof.
  unfold renderDrawList.
  destruct ((fbWidth_of (ImGuiApi.GetIO g) =? 0)
            || (fbHeight_of (ImGuiApi.GetIO g) =? 0)).
  { exists (lastTexture (fst (backup_gl_state s))). cbn [snd GL.ret].
    generalize (fst (backup_gl_state s)). intros []. reflexivity. }
  cbv zeta. unfold GL.bind.
  pose proof (backup_gl_state_value s) as Hlast.
  destruct (backup_gl_state s) as [last s1]. cbn [fst snd] in Hlast |- *.
  destruct (GL.glGenVertexArrays1 s1) as [vao s2].
  destruct (setupRenderStates _ _ _ _ vao s2) as [[] s3].
  destruct (render_cmd_lists _ _ _ _ _ _ _ _ _ s3) as [r' s4].
  destruct (GL.glDeleteVertexArrays1 vao s4) as [[] s5].
  pose proof (restore_gl_state_value_any_unit last s5) as Hrestore.
  destruct (restore_gl_state last s5) as [[] s6]. cbn [snd GL.ret] in Hrestore |- *.
  apply Hrestore; subst last; cbn; apply N2Z.is_nonneg.
Qed.

(** X14.  [render] scales the clip rectangles of the current context's
    draw data in place by the display's framebuffer scale and leaves the
    input state alone; so a second [render] of the same frame scales the
    clip rectangles a second time. *)
Theorem render_scales_clip_rectangles_in_place
    (r : ImGuiRenderer W) (g : ImGui) (s s' : GL.state) :
  fbWidth_of (ImGuiApi.GetIO g) <> 0 -> fbHeight_of (ImGuiApi.GetIO g) <> 0 ->
  let sc := DisplayFramebufferScale (ImGuiApi.GetIO g) in
  let once := fst (render cfg r g s) in
  let twice := fst (render cfg (fst once) (snd once) s') in
  ImGuiApi.GetDrawData (snd once) = ScaleClipRects sc (ImGuiApi.GetDrawData g)
  /\ ImGuiApi.GetIO (snd once) = ImGuiApi.GetIO g
  /\ ImGuiApi.GetDrawData (snd twice)
     = ScaleClipRects sc (ScaleClipRects sc (ImGuiApi.GetDrawData g)).
Proof.
  intros Hw Hh sc once twice.
  assert (Hdata : forall (r0 : ImGuiRenderer W) g0 s0,
             fbWidth_of (ImGuiApi.GetIO g0) <> 0 ->
             fbHeight_of (ImGuiApi.GetIO g0) <> 0 ->
             ImGuiApi.GetDrawData (snd (fst (render cfg r0 g0 s0)))
             = ScaleClipRects (DisplayFramebufferScale (ImGuiApi.GetIO g0))
                 (ImGuiApi.GetDrawData g0)
             /\ ImGuiApi.GetIO (snd (fst (render cfg r0 g0 s0))) = ImGuiApi.GetIO g0).
  { intros r0 g0 s0 Hw0 Hh0. unfold render, renderDrawList.
    apply Z.eqb_neq in Hw0, Hh0. rewrite Hw0, Hh0. cbn [orb]. cbv zeta.
    unfold GL.bind.
    destruct (backup_gl_state s0) as [last s1].
    destruct (GL.glGenVertexArrays1 s1) as [vao s2].
    destruct (setupRenderStates _ _ _ _ vao s2) as [[] s3].
    destruct (render_cmd_lists _ _ _ _ _ _ _ _ _ s3) as [r' s4].
    destruct (GL.glDeleteVertexArrays1 vao s4) as [[] s5].
    destruct (restore_gl_state last s5) as [[] s6].
    cbn [fst snd GL.ret].
    unfold ImGuiApi.GetDrawData, ImGuiApi.GetIO, ImGuiApi.current,
      ImGuiApi.update_current.
    cbn [CurrentContext contexts]. rewrite fn_lookup_insert. split; reflexivity. }
  destruct (Hdata r g s Hw Hh) as [Hd1 Hio1]. fold once in Hd1, Hio1.
  split; [exact Hd1|]. split; [exact Hio1|].
  subst twice.
  destruct (Hdata (fst once) (snd once) s') as [Hd2 _];
    [rewrite Hio1; exact Hw | rewrite Hio1; exact Hh |].
  rewrite Hd2, Hio1, Hd1. reflexivity.
Qed.

End RestoreWhateverCallbacksDo.

(** A display with pixel ratio 2 and a frame whose only command is clipped
    to the 800x600 display: after one [render] the clip rectangle is
    1600x1200, after a second one 3200x2400. *)
Lemma render_scales_clip_rectangles_in_place_witness :
  let g := mkImGui 1 (fun _ =>
             mkImGuiContext
               (mkImGuiIO 0 (Examples.vec 800 600) (Examples.vec 2 2) F32.zero
                  false false (Examples.vec 0 0) [])
               (F32.of_Z 13) ImGuiMouseCursor_Arrow
               (Examples.draw_data [Examples.draw_cmd Examples.full_clip 9]) 0) in
  let once := fst (render Examples.desktop (Examples.renderer 40 1) g Examples.gl0) in
  let twice := fst (render Examples.desktop (fst once) (snd once) Examples.gl0) in
  fbWidth_of (ImGuiApi.GetIO g) <> 0
  /\ fbHeight_of (ImGuiApi.GetIO g) <> 0
  /\ ImGuiApi.GetDrawData (snd once)
     = Examples.draw_data
         [Examples.draw_cmd
            (mkImVec4 (F32.of_Z 0) (F32.of_Z 0) (F32.of_Z 1600) (F32.of_Z 1200)) 9]
  /\ ImGuiApi.GetDrawData (snd twice)
     = Examples.draw_data
         [Examples.draw_cmd
            (mkImVec4 (F32.of_Z 0) (F32.of_Z 0) (F32.of_Z 3200) (F32.of_Z 2400)) 9].
Proof.
  intros g once twice.
  assert (Hw : fbWidth_of (ImGuiApi.GetIO g) <> 0) by (vm_compute; discriminate).
  assert (Hh : fbHeight_of (ImGuiApi.GetIO g) <> 0) by (vm_compute; discriminate).
  split; [exact Hw|]. split; [exact Hh|].
  destruct (render_scales_clip_rectangles_in_place Examples.desktop
              (Examples.renderer 40 1) g Examples.gl0 Examples.gl0 Hw Hh)
    as (H1 & _ & H2).
  fold once in H1. fold once twice in H2.
  split; [rewrite H1 | rewrite H2]; vm_compute; reflexivity.
Defined.

(* ===================================================================== *)
(** ** Further properties: the objects created at initialisation *)
(* ===================================================================== *)

(** Running the creation code on a given state. *)
Ltac run_objects :=
  cbv beta iota zeta delta
    [ createFontsTexture createDeviceObjects SetTexID
      GLObjects.bind GLObjects.ret GLObjects.issue GLObjects.effect
      GLObjects.core_call GLObjects.glCreateProgram GLObjects.glCreateShader
      GLObjects.glGenBuffers1 GLObjects.glGenTextures1
      GLObjects.glGetUniformLocation GLObjects.glGetAttribLocation
      GLObjects.glShaderSource GLObjects.glCompileShader GLObjects.glAttachShader
      GLObjects.glLinkProgram GLObjects.glTexParameteri GLObjects.glTexImage2D
      GLObjects.set_core GLObjects.set_next_object GLObjects.set_next_buffer
      GLObjects.set_next_texture GLObjects.set_images GLObjects.set_calls
      GLObjects.core GLObjects.next_object GLObjects.next_buffer
      GLObjects.next_texture GLObjects.max_texture_size GLObjects.uniform_location
      GLObjects.attrib_location GLObjects.images GLObjects.calls
      GL.bind GL.issue GL.effect GL.get_integer GL.get_integer4 GL.rect_of_box
      GL.glGetIntegerv GL.glBindTexture GL.glBindBuffer GL.glBindVertexArray
      GL.glEnableVertexAttribArray GL.glVertexAttribPointer
      GL.set_texture_binding_2d GL.set_array_buffer_binding
      GL.set_vertex_array_binding GL.set_calls
      GL.active_texture GL.current_program GL.texture_binding_2d
      GL.array_buffer_binding GL.vertex_array_binding
      GL.element_array_buffer_binding GL.blend_src_rgb GL.blend_dst_rgb
      GL.blend_src_alpha GL.blend_dst_alpha GL.blend_equation_rgb
      GL.blend_equation_alpha GL.viewport GL.scissor_box GL.enabled
      GL.next_vertex_array GL.calls
      set_mFontTexture set_mShaderHandle set_mVertHandle set_mFragHandle
      set_mAttribLocationTex set_mAttribLocationProjMtx set_mAttribLocationVtxPos
      set_mAttribLocationVtxUV set_mAttribLocationVtxColor set_mVboHandle
      set_mElementsHandle
      mWindow mCtx mTime mGlVersion mFontTexture mShaderHandle mVertHandle
      mFragHandle mAttribLocationTex mAttribLocationProjMtx mAttribLocationVtxPos
      mAttribLocationVtxUV mAttribLocationVtxColor mVboHandle mElementsHandle
      mVertexBufferSize mIndexBufferSize
      fst snd ].

Section DeviceObjectProperties.
Context {W : Type}.
Variable USE_GLSL_ES : bool.

(** X16.  [createFontsTexture] and [createDeviceObjects] leave every value
    of the context that [glGetIntegerv] and [glIsEnabled] read as they found
    it, whatever the context state: the 2D texture binding of the active
    unit and the array-buffer binding, which they change on the way, are
    bound again as they were, and the active unit, the program, the vertex
    array, the element-array buffer, blending, viewport, scissor box and the
    enabled flags are never touched. *)
Theorem createDeviceObjects_keeps_context_readings
    (fonts : ImFontAtlas) (r : ImGuiRenderer W) (s : GLObjects.state) :
  let s1 := snd (createFontsTexture fonts r s) in
  let s2 := snd (createDeviceObjects USE_GLSL_ES fonts r s) in
  (forall p, GL.get_integer p (GLObjects.core s1) = GL.get_integer p (GLObjects.core s))
  /\ (forall p, GL.get_integer p (GLObjects.core s2)
                = GL.get_integer p (GLObjects.core s))
  /\ (forall p, GL.get_integer4 p (GLObjects.core s2)
                = GL.get_integer4 p (GLObjects.core s))
  /\ (forall c, GL.enabled (GLObjects.core s2) c = GL.enabled (GLObjects.core s) c).
Proof.
  destruct s as [[unit0 pr0 tx0 ab0 va0 eb0 sr0 dr0 sa0 da0 er0 ea0 vp0 sb0 en0 nx0 cs0]
                   no nb nt mts ul al im cs].
  cbv zeta. run_objects.
  match goal with
  | |- context [if (?a || ?b)%bool then _ else _] => destruct (a || b)%bool
  end;
    (split; [|split; [|split]]); intros p; destruct p;
    try reflexivity; apply binding_insert.
Qed.

(** X17.  After [createDeviceObjects], for an atlas image within the
    implementation's size limit: the renderer's font texture is the texture
    name the context has just handed out, the atlas has been given that
    name as its texture identifier and is otherwise as it was, and that
    texture's image is the atlas's RGBA image with its width and height.
    While the name fits a [GLuint], converting the atlas's identifier back,
    as the rasterizer does before it binds a command's texture, gives the
    font texture. *)
Theorem createDeviceObjects_uploads_font_atlas
    (fonts : ImFontAtlas) (r : ImGuiRenderer W) (s : GLObjects.state) :
  0 <= TexWidth fonts <= GLObjects.max_texture_size s ->
  0 <= TexHeight fonts <= GLObjects.max_texture_size s ->
  let r' := snd (fst (fst (createDeviceObjects USE_GLSL_ES fonts r s))) in
  let fonts' := snd (fst (createDeviceObjects USE_GLSL_ES fonts r s)) in
  let s' := snd (createDeviceObjects USE_GLSL_ES fonts r s) in
  mFontTexture r' = GLObjects.next_texture s
  /\ fonts' = SetTexID (mFontTexture r') fonts
  /\ GLObjects.images s' !! mFontTexture r'
     = Some (GLObjects.mkImage (TexWidth fonts) (TexHeight fonts)
               (TexPixelsRGBA32 fonts))
  /\ (0 <= GLObjects.next_texture s < 2 ^ 32 ->
      to_GLuint (TexID fonts') = mFontTexture r').
Proof.
  intros Hw Hh.
  destruct s as [[unit0 pr0 tx0 ab0 va0 eb0 sr0 dr0 sa0 da0 er0 ea0 vp0 sb0 en0 nx0 cs0]
                   no nb nt mts ul al im cs].
  cbn [GLObjects.max_texture_size] in Hw, Hh.
  cbv zeta.
  assert (Hok : (TexWidth fonts <? 0) || (TexHeight fonts <? 0)
                || (mts <? TexWidth fonts) || (mts <? TexHeight fonts) = false).
  { repeat (apply orb_false_iff; split); apply Z.ltb_ge; lia. }
  run_objects. rewrite Hok.
  split; [reflexivity|]. split; [reflexivity|]. split.
  - rewrite binding_insert. apply lookup_insert_eq.
  - intros Hnt. unfold to_GLuint. apply Z.mod_small. exact Hnt.
Qed.

End DeviceObjectProperties.

(** A context that has handed out no texture yet and a 1x1 atlas. *)
Lemma createDeviceObjects_uploads_font_atlas_witness :
  let fonts := mkImFontAtlas [255; 255; 255; 255] 1 1 0 in
  let r := Examples.renderer 40 1 in
  let s := GLObjects.mkState Examples.gl0 1 1 1 16384 (fun _ _ => 0) (fun _ _ => 0)
             ∅ [] in
  0 <= TexWidth fonts <= GLObjects.max_texture_size s
  /\ 0 <= TexHeight fonts <= GLObjects.max_texture_size s
  /\ (let r' := snd (fst (fst (createDeviceObjects false fonts r s))) in
      let fonts' := snd (fst (createDeviceObjects false fonts r s)) in
      let s' := snd (createDeviceObjects false fonts r s) in
      mFontTexture r' = GLObjects.next_texture s
      /\ fonts' = SetTexID (mFontTexture r') fonts
      /\ GLObjects.images s' !! mFontTexture r'
         = Some (GLObjects.mkImage (TexWidth fonts) (TexHeight fonts)
                   (TexPixelsRGBA32 fonts))
      /\ (0 <= GLObjects.next_texture s < 2 ^ 32 ->
          to_GLuint (TexID fonts') = mFontTexture r')).
Proof.
  intros fonts r s.
  assert (Hw : 0 <= TexWidth fonts <= GLObjects.max_texture_size s) by (cbn; lia).
  assert (Hh : 0 <= TexHeight fonts <= GLObjects.max_texture_size s) by (cbn; lia).
  split; [exact Hw|]. split; [exact Hh|].
  exact (createDeviceObjects_uploads_font_atlas false fonts r s Hw Hh).
Defined.

(** The objects created there: program 1 with shaders 2 and 3, buffers 1
    and 2, texture 1; and the calls that created them. *)
Example createDeviceObjects_handles :
  let created :=
    createDeviceObjects false (mkImFontAtlas [255; 255; 255; 255] 1 1 0)
      (Examples.renderer 40 1)
      (GLObjects.mkState Examples.gl0 1 1 1 16384 (fun _ _ => 0) (fun _ _ => 0) ∅ []) in
  let r' := snd (fst (fst created)) in
  (mShaderHandle r', mVertHandle r', mFragHandle r', mVboHandle r',
   mElementsHandle r', mFontTexture r') = (1, 2, 3, 1, 2, 1)
  /\ fst (fst (fst created)) = true
  /\ length (GLObjects.calls (snd created)) = 21%nat.
Proof. vm_compute. repeat split; reflexivity. Qed.
